(** * crawlAgent: the checkpointed HTML-analysis pipeline

    A shallow embedding of the resumable pipeline of [src/main.py]
    ([HTMLAgentSystem._process_html_files]), of the artifact store of
    [src/utils/checkpoint.py] ([CheckpointManager]), of the slot allocator of
    [src/config/settings.py] ([Settings.get_next_flow_id],
    [Settings.get_flow_output_dir]) and of the retry loop of
    [src/agents/code_generator.py], followed by the properties of the
    specification that concern them.

    Conventions.
    - Python values that travel through the pipeline are JSON values
      ([json]); [JNull] is Python's [None].
    - Text is a [string] of bytes (the UTF-8 form of a Python [str]).
    - The output root is a directory listing in the order [iterdir] yields
      it; a flow slot is a directory of text files.
    - Code that may raise is written in a state-and-exception monad [M]
      over the [world] (file system, clock, collaborator calls, log).
    - The AI collaborators and the execution of generated code are the
      fields of the record [collaborators]. *)

From Stdlib Require Import String Ascii ZArith List Bool Arith Lia.
From Stdlib Require Import DecimalString DecimalN DecimalPos DecimalFacts.
From Stdlib Require Import Permutation.
Import ListNotations.

Local Open Scope list_scope.
Local Open Scope string_scope.

(** ** Part 1. Text *)

Module Text.

Definition dq : ascii := "034"%char.
Definition bslash : ascii := "092"%char.
Definition nl : ascii := "010"%char.

Definition str1 (c : ascii) : string := String c EmptyString.

Fixpoint spaces (n : nat) : string :=
  match n with
  | O => EmptyString
  | S k => String " " (spaces k)
  end.

(** [s.startswith(p)] *)
Fixpoint startswith (p s : string) : bool :=
  match p, s with
  | EmptyString, _ => true
  | String a p', String b s' => Ascii.eqb a b && startswith p' s'
  | String _ _, EmptyString => false
  end.

(** the rest of [s] after the prefix [p], when [s] starts with [p] *)
Fixpoint strip_prefix (p s : string) : option string :=
  match p, s with
  | EmptyString, _ => Some s
  | String a p', String b s' =>
      if Ascii.eqb a b then strip_prefix p' s' else None
  | String _ _, EmptyString => None
  end.

(** [s[n:]] *)
Fixpoint drop (n : nat) (s : string) : string :=
  match n, s with
  | O, _ => s
  | S k, String _ s' => drop k s'
  | S _, EmptyString => EmptyString
  end.

(** [s[:n]] *)
Fixpoint take (n : nat) (s : string) : string :=
  match n, s with
  | O, _ => EmptyString
  | S k, String c s' => String c (take k s')
  | S _, EmptyString => EmptyString
  end.

(** [p in s] for two strings *)
Fixpoint contains (p s : string) : bool :=
  startswith p s ||
  match s with
  | EmptyString => false
  | String _ s' => contains p s'
  end.

(** [s.endswith(p)] *)
Fixpoint endswith (p s : string) : bool :=
  String.eqb p s ||
  match s with
  | EmptyString => false
  | String _ s' => endswith p s'
  end.

(** The ASCII characters that [str.strip] and [int] treat as white space. *)
Definition is_space (c : ascii) : bool :=
  let n := nat_of_ascii c in
  (Nat.leb 9 n && Nat.leb n 13) || (Nat.leb 28 n && Nat.leb n 32).

Fixpoint lstrip (s : string) : string :=
  match s with
  | String c s' => if is_space c then lstrip s' else s
  | EmptyString => EmptyString
  end.

Fixpoint rev_string (s acc : string) : string :=
  match s with
  | EmptyString => acc
  | String c s' => rev_string s' (String c acc)
  end.

Definition rstrip (s : string) : string :=
  rev_string (lstrip (rev_string s EmptyString)) EmptyString.

Definition strip (s : string) : string := rstrip (lstrip s).

(** [s.split('\n')] *)
Fixpoint split_lines_aux (s cur : string) : list string :=
  match s with
  | EmptyString => [rev_string cur EmptyString]
  | String c s' =>
      if Ascii.eqb c nl
      then rev_string cur EmptyString :: split_lines_aux s' EmptyString
      else split_lines_aux s' (String c cur)
  end.

Definition split_lines (s : string) : list string :=
  split_lines_aux s EmptyString.

(** ['\n'.join(lines)] *)
Fixpoint join_lines (l : list string) : string :=
  match l with
  | [] => EmptyString
  | [x] => x
  | x :: rest => x ++ String nl (join_lines rest)
  end.

Definition is_digit (c : ascii) : bool :=
  let n := nat_of_ascii c in Nat.leb 48 n && Nat.leb n 57.

(** [len(s)] of a Python [str]: code points, that is the bytes that are
    not UTF-8 continuation bytes. *)
Fixpoint py_len (s : string) : N :=
  match s with
  | EmptyString => 0%N
  | String c s' =>
      let n := nat_of_ascii c in
      if Nat.leb 128 n && Nat.ltb n 192 then py_len s' else N.succ (py_len s')
  end.

(** [str(n)] for a Python [int] *)
Definition str_of_N (n : N) : string :=
  NilEmpty.string_of_uint (N.to_uint n).

Definition str_of_Z (z : Z) : string :=
  match z with
  | Z0 => "0"
  | Zpos p => str_of_N (Npos p)
  | Zneg p => String "-" (str_of_N (Npos p))
  end.

Definition starts_with_digit (s : string) : bool :=
  match s with
  | String c _ => is_digit c
  | EmptyString => false
  end.

(** The longest prefix of decimal digits, and what follows it. *)
Fixpoint span_digits (s : string) : string * string :=
  match s with
  | String c s' =>
      if is_digit c
      then let (ds, r) := span_digits s' in (String c ds, r)
      else (EmptyString, s)
  | EmptyString => (EmptyString, EmptyString)
  end.

(** The value of a string of decimal digits. *)
Definition N_of_digits (ds : string) : option N :=
  match NilEmpty.uint_of_string ds with
  | Some u => Some (N.of_uint u)
  | None => None
  end.

End Text.

(** ** Part 2. JSON values, [json.dumps] and [json.loads] *)

(** The values that Python's [json] module reads and writes.  A Python
    [dict] is the list of its items in insertion order; floating-point
    numbers are carried as the literal they were read from. *)
Unset Elimination Schemes.
Inductive json : Type :=
| JNull
| JBool (b : bool)
| JNum (z : Z)
| JFloat (lit : string)
| JStr (s : string)
| JList (l : list json)
| JDict (kv : list (string * json)).
Set Elimination Schemes.

Module Json.
Import Text.

(** *** Serialisation: [json.dumps(v, indent=k, ensure_ascii=False)] *)

Definition hex_digit (n : nat) : ascii :=
  if Nat.ltb n 10 then ascii_of_nat (48 + n) else ascii_of_nat (87 + n).

(** One character of a string, as [json.encoder.py_encode_basestring]
    replaces it. *)
Definition escape_char (c : ascii) : string :=
  let n := nat_of_ascii c in
  if Ascii.eqb c dq then String bslash (str1 dq)
  else if Ascii.eqb c bslash then String bslash (str1 bslash)
  else if Nat.eqb n 8 then String bslash "b"
  else if Nat.eqb n 12 then String bslash "f"
  else if Nat.eqb n 10 then String bslash "n"
  else if Nat.eqb n 13 then String bslash "r"
  else if Nat.eqb n 9 then String bslash "t"
  else if Nat.ltb n 32
       then String bslash
              (String "u" (String "0" (String "0"
                 (String (hex_digit (n / 16)) (str1 (hex_digit (n mod 16)))))))
  else str1 c.

Fixpoint escape (s : string) : string :=
  match s with
  | EmptyString => EmptyString
  | String c s' => escape_char c ++ escape s'
  end.

Definition encode_basestring (s : string) : string :=
  String dq (escape s ++ str1 dq).

Definition newline_indent (indent level : nat) : string :=
  String nl (spaces (indent * level)).

(** [_iterencode] of [json.encoder], at nesting [level]. *)
Fixpoint dump (indent level : nat) (v : json) : string :=
  match v with
  | JNull => "null"
  | JBool true => "true"
  | JBool false => "false"
  | JNum z => str_of_Z z
  | JFloat lit => lit
  | JStr s => encode_basestring s
  | JList [] => "[]"
  | JList (x :: xs) =>
      "[" ++ newline_indent indent (S level) ++ dump indent (S level) x
      ++ (fix items (l : list json) : string :=
            match l with
            | [] => EmptyString
            | y :: ys =>
                "," ++ newline_indent indent (S level)
                ++ dump indent (S level) y ++ items ys
            end) xs
      ++ newline_indent indent level ++ "]"
  | JDict [] => "{}"
  | JDict ((k, x) :: kv) =>
      "{" ++ newline_indent indent (S level)
      ++ encode_basestring k ++ ": " ++ dump indent (S level) x
      ++ (fix members (l : list (string * json)) : string :=
            match l with
            | [] => EmptyString
            | (k', y) :: ys =>
                "," ++ newline_indent indent (S level)
                ++ encode_basestring k' ++ ": "
                ++ dump indent (S level) y ++ members ys
            end) kv
      ++ newline_indent indent level ++ "}"
  end.

(** [json.dumps(v, indent=indent, ensure_ascii=False)] *)
Definition dumps (indent : nat) (v : json) : string := dump indent 0 v.

(** *** Parsing: [json.loads] *)

Definition is_ws (c : ascii) : bool :=
  Ascii.eqb c " " || Ascii.eqb c "009" || Ascii.eqb c "010"
  || Ascii.eqb c "013".

Fixpoint skip_ws (s : string) : string :=
  match s with
  | String c s' => if is_ws c then skip_ws s' else s
  | EmptyString => EmptyString
  end.

Definition hex_val (c : ascii) : option N :=
  let n := N_of_ascii c in
  if (N.leb 48 n && N.leb n 57)%bool then Some (n - 48)%N
  else if (N.leb 97 n && N.leb n 102)%bool then Some (n - 87)%N
  else if (N.leb 65 n && N.leb n 70)%bool then Some (n - 55)%N
  else None.

Definition hex4 (a b c d : ascii) : option N :=
  match hex_val a, hex_val b, hex_val c, hex_val d with
  | Some x, Some y, Some z, Some w =>
      Some (((x * 16 + y) * 16 + z) * 16 + w)%N
  | _, _, _, _ => None
  end.

(** The UTF-8 bytes of a code point (surrogates are encoded like any other
    code point of their range). *)
Definition utf8_encode (n : N) : string :=
  if N.ltb n 128 then str1 (ascii_of_N n)
  else if N.ltb n 2048 then
    String (ascii_of_N (192 + n / 64)) (str1 (ascii_of_N (128 + n mod 64)))
  else if N.ltb n 65536 then
    String (ascii_of_N (224 + n / 4096))
      (String (ascii_of_N (128 + (n / 64) mod 64))
         (str1 (ascii_of_N (128 + n mod 64))))
  else
    String (ascii_of_N (240 + n / 262144))
      (String (ascii_of_N (128 + (n / 4096) mod 64))
         (String (ascii_of_N (128 + (n / 64) mod 64))
            (str1 (ascii_of_N (128 + n mod 64))))).

Definition is_high_surrogate (n : N) : bool := N.leb 55296 n && N.leb n 56319.
Definition is_low_surrogate (n : N) : bool := N.leb 56320 n && N.leb n 57343.

Definition simple_escape (e : ascii) : option ascii :=
  if Ascii.eqb e dq then Some dq
  else if Ascii.eqb e bslash then Some bslash
  else if Ascii.eqb e "/" then Some "/"%char
  else if Ascii.eqb e "b" then Some "008"%char
  else if Ascii.eqb e "f" then Some "012"%char
  else if Ascii.eqb e "n" then Some "010"%char
  else if Ascii.eqb e "r" then Some "013"%char
  else if Ascii.eqb e "t" then Some "009"%char
  else None.

(** [json.decoder.py_scanstring] in strict mode, after the opening quote:
    the decoded string and what follows the closing quote. *)
Fixpoint scan_string (s : string) : option (string * string) :=
  match s with
  | EmptyString => None
  | String c r =>
      if Ascii.eqb c dq then Some (EmptyString, r)
      else if Ascii.eqb c bslash then
        match r with
        | EmptyString => None
        | String e r1 =>
            if Ascii.eqb e "u" then
              match r1 with
              | String h1 (String h2 (String h3 (String h4 r5))) =>
                  match hex4 h1 h2 h3 h4 with
                  | None => None
                  | Some uni =>
                      let plain :=
                        match scan_string r5 with
                        | Some (t, r') => Some (utf8_encode uni ++ t, r')
                        | None => None
                        end in
                      if is_high_surrogate uni then
                        match r5 with
                        | String b1 (String u1
                            (String g1 (String g2 (String g3 (String g4 r11))))) =>
                            if Ascii.eqb b1 bslash && Ascii.eqb u1 "u" then
                              match hex4 g1 g2 g3 g4 with
                              | None => None
                              | Some uni2 =>
                                  if is_low_surrogate uni2 then
                                    match scan_string r11 with
                                    | Some (t, r') =>
                                        Some (utf8_encode
                                                (65536 + (uni - 55296) * 1024
                                                 + (uni2 - 56320))%N ++ t, r')
                                    | None => None
                                    end
                                  else plain
                              end
                            else plain
                        | String b1 (String u1 _) =>
                            if Ascii.eqb b1 bslash && Ascii.eqb u1 "u"
                            then None else plain
                        | _ => plain
                        end
                      else plain
                  end
              | _ => None
              end
            else
              match simple_escape e with
              | None => None
              | Some x =>
                  match scan_string r1 with
                  | Some (t, r') => Some (String x t, r')
                  | None => None
                  end
              end
        end
      else if Nat.ltb (nat_of_ascii c) 32 then None
      else
        match scan_string r with
        | Some (t, r') => Some (String c t, r')
        | None => None
        end
  end.

(** The first character of a text is [c]. *)
Definition starts_with_char (c : ascii) (s : string) : bool :=
  match s with
  | String x _ => Ascii.eqb x c
  | EmptyString => false
  end.

Definition tail (s : string) : string :=
  match s with
  | String _ r => r
  | EmptyString => EmptyString
  end.

(** The fraction of [NUMBER_RE]: a point and at least one digit. *)
Definition scan_fraction (r : string) : string * string :=
  if starts_with_char "." r then
    let (fs, r') := span_digits (tail r) in
    match fs with
    | EmptyString => (EmptyString, r)
    | _ => (String "." fs, r')
    end
  else (EmptyString, r).

(** The exponent of [NUMBER_RE]: [e] or [E], an optional sign and at
    least one digit. *)
Definition scan_exponent (r : string) : string * string :=
  match r with
  | String e r' =>
      if Ascii.eqb e "e" || Ascii.eqb e "E" then
        let '(sg, r'') :=
          if starts_with_char "+" r' then ("+", tail r')
          else if starts_with_char "-" r' then ("-", tail r')
          else (EmptyString, r') in
        let (es, r3) := span_digits r'' in
        match es with
        | EmptyString => (EmptyString, r)
        | _ => (String e (sg ++ es), r3)
        end
      else (EmptyString, r)
  | EmptyString => (EmptyString, r)
  end.

(** The part of [NUMBER_RE] after the integer digits [ds]. *)
Definition scan_number_tail (neg : bool) (ds r : string)
  : option (json * string) :=
  let sign := if neg then "-" else EmptyString in
  let (frac, r1) := scan_fraction r in
  let (ex, r2) := scan_exponent r1 in
  match frac, ex with
  | EmptyString, EmptyString =>
      match N_of_digits ds with
      | Some n =>
          Some (JNum (if neg then Z.opp (Z.of_N n) else Z.of_N n), r2)
      | None => None
      end
  | _, _ => Some (JFloat (sign ++ ds ++ frac ++ ex), r2)
  end.

(** [NUMBER_RE.match]: an optional minus sign, then either a single zero
    or a non-zero digit followed by digits, then an optional fraction and
    an optional exponent. *)
Definition scan_number (s : string) : option (json * string) :=
  let neg := starts_with_char "-" s in
  let s1 := if neg then tail s else s in
  match s1 with
  | String c r =>
      if Ascii.eqb c "0" then scan_number_tail neg "0" r
      else if is_digit c then
        let (ds, r') := span_digits s1 in scan_number_tail neg ds r'
      else None
  | EmptyString => None
  end.

(** [d[k] = v] on a dict: a new key goes last, an old key keeps its place. *)
Fixpoint dict_set (k : string) (v : json) (d : list (string * json))
  : list (string * json) :=
  match d with
  | [] => [(k, v)]
  | (k', v') :: r =>
      if String.eqb k' k then (k, v) :: r else (k', v') :: dict_set k v r
  end.

(** [dict(pairs)] *)
Definition dict_of_pairs (pairs : list (string * json))
  : list (string * json) :=
  fold_left (fun d kv => dict_set (fst kv) (snd kv) d) pairs [].

(** The constants that [scan_once] tries when no number matches. *)
Definition scan_constant (s : string) : option (json * string) :=
  match strip_prefix "NaN" s with
  | Some r => Some (JFloat "NaN", r)
  | None =>
      match strip_prefix "Infinity" s with
      | Some r => Some (JFloat "Infinity", r)
      | None =>
          match strip_prefix "-Infinity" s with
          | Some r => Some (JFloat "-Infinity", r)
          | None => None
          end
      end
  end.

(** [scan_once], [JSONArray] and [JSONObject] of [json.decoder]; [fuel]
    bounds the nesting and the number of items read. *)
Fixpoint parse_value (fuel : nat) (s : string) : option (json * string) :=
  match fuel with
  | O => None
  | S f =>
      match s with
      | EmptyString => None
      | String c r =>
          if Ascii.eqb c dq then
            match scan_string r with
            | Some (t, r') => Some (JStr t, r')
            | None => None
            end
          else if Ascii.eqb c "{" then
            let r0 := skip_ws r in
            if starts_with_char "}" r0 then Some (JDict [], tail r0)
            else parse_members f r0 []
          else if Ascii.eqb c "[" then
            let r0 := skip_ws r in
            if starts_with_char "]" r0 then Some (JList [], tail r0)
            else parse_items f r0 []
          else
            match (if Ascii.eqb c "n" then strip_prefix "null" s else None) with
            | Some r' => Some (JNull, r')
            | None =>
            match (if Ascii.eqb c "t" then strip_prefix "true" s else None) with
            | Some r' => Some (JBool true, r')
            | None =>
            match (if Ascii.eqb c "f" then strip_prefix "false" s else None) with
            | Some r' => Some (JBool false, r')
            | None =>
                match scan_number s with
                | Some res => Some res
                | None => scan_constant s
                end
            end end end
      end
  end

with parse_items (fuel : nat) (s : string) (acc : list json)
  : option (json * string) :=
  match fuel with
  | O => None
  | S f =>
      match parse_value f s with
      | None => None
      | Some (v, r) =>
          let r0 := skip_ws r in
          if starts_with_char "]" r0
          then Some (JList (rev (v :: acc)), tail r0)
          else if starts_with_char "," r0
          then parse_items f (skip_ws (tail r0)) (v :: acc)
          else None
      end
  end

with parse_members (fuel : nat) (s : string) (acc : list (string * json))
  : option (json * string) :=
  match fuel with
  | O => None
  | S f =>
      if starts_with_char dq s then
        match scan_string (tail s) with
        | None => None
        | Some (k, r1) =>
            let r2 := skip_ws r1 in
            if starts_with_char ":" r2 then
              match parse_value f (skip_ws (tail r2)) with
              | None => None
              | Some (v, r3) =>
                  let r4 := skip_ws r3 in
                  if starts_with_char "}" r4
                  then Some (JDict (dict_of_pairs (rev ((k, v) :: acc))),
                             tail r4)
                  else if starts_with_char "," r4
                  then parse_members f (skip_ws (tail r4)) ((k, v) :: acc)
                  else None
              end
            else None
        end
      else None
  end.

(** [json.loads(s)]: [None] stands for [JSONDecodeError]. *)
Definition loads (s : string) : option json :=
  match parse_value (S (String.length s)) (skip_ws s) with
  | Some (v, r) =>
      match skip_ws r with
      | EmptyString => Some v
      | _ => None
      end
  | None => None
  end.

End Json.

(** ** Part 3. Exceptions and the Python operations used on values *)

Inductive exn_class : Type :=
| AttributeError | TypeError | ValueError | KeyError | IndexError
| SyntaxError | JSONDecodeError | UnicodeDecodeError
| FileExistsError | FileNotFoundError | RuntimeError.

(** An exception: its class and [str(e)]. *)
Record exn : Type := mkExn { exn_kind : exn_class; exn_msg : string }.

Inductive result (A : Type) : Type :=
| Ok (a : A)
| Raise (e : exn).
Arguments Ok {A} a.
Arguments Raise {A} e.

Module Py.
Import Text.

Definition attribute_error (what : string) : exn :=
  mkExn AttributeError ("object has no attribute '" ++ what ++ "'").

Definition type_error (what : string) : exn := mkExn TypeError what.

(** [d.get(key)] on the item list of a dict *)
Fixpoint lookup (k : string) (d : list (string * json)) : option json :=
  match d with
  | [] => None
  | (k', v) :: r => if String.eqb k' k then Some v else lookup k r
  end.

(** [v.get(key, default)] *)
Definition get (v : json) (k : string) (default : json) : result json :=
  match v with
  | JDict d =>
      match lookup k d with
      | Some x => Ok x
      | None => Ok default
      end
  | _ => Raise (attribute_error "get")
  end.

(** [v[key]] for a string key *)
Definition getitem (v : json) (k : string) : result json :=
  match v with
  | JDict d =>
      match lookup k d with
      | Some x => Ok x
      | None => Raise (mkExn KeyError k)
      end
  | _ => Raise (type_error "indices must be integers")
  end.

(** A float literal that denotes zero: no non-zero digit in its mantissa. *)
Fixpoint mantissa_is_zero (lit : string) : bool :=
  match lit with
  | EmptyString => true
  | String c r =>
      if Ascii.eqb c "e" || Ascii.eqb c "E" then true
      else if Ascii.eqb c "N" || Ascii.eqb c "I" then false
      else if is_digit c && negb (Ascii.eqb c "0") then false
      else mantissa_is_zero r
  end.

(** [bool(v)] *)
Definition truthy (v : json) : bool :=
  match v with
  | JNull => false
  | JBool b => b
  | JNum z => negb (Z.eqb z 0)
  | JFloat lit => negb (mantissa_is_zero lit)
  | JStr s => negb (String.eqb s EmptyString)
  | JList l => match l with [] => false | _ => true end
  | JDict d => match d with [] => false | _ => true end
  end.

(** [v is None] *)
Definition is_none (v : json) : bool :=
  match v with JNull => true | _ => false end.

Definition Z_of_bool (b : bool) : Z := if b then 1%Z else 0%Z.

(** [a == b]: [True == 1]; lists compare item by item, dicts key by key
    in any order; float literals compare as text. *)
Fixpoint eqb (a b : json) : bool :=
  match a, b with
  | JNull, JNull => true
  | JBool x, JBool y => Bool.eqb x y
  | JBool x, JNum z => Z.eqb (Z_of_bool x) z
  | JNum z, JBool y => Z.eqb z (Z_of_bool y)
  | JNum x, JNum y => Z.eqb x y
  | JFloat x, JFloat y => String.eqb x y
  | JStr x, JStr y => String.eqb x y
  | JList l1, JList l2 =>
      (fix all2 (l1 l2 : list json) : bool :=
         match l1, l2 with
         | [], [] => true
         | x :: r1, y :: r2 => eqb x y && all2 r1 r2
         | _, _ => false
         end) l1 l2
  | JDict da, JDict db =>
      Nat.eqb (List.length da) (List.length db)
      && (fix each (d : list (string * json)) : bool :=
            match d with
            | [] => true
            | (k, x) :: r =>
                match lookup k db with
                | Some y => eqb x y && each r
                | None => false
                end
            end) da
  | _, _ => false
  end.

(** [v == "text"] *)
Definition is_str (v : json) (s : string) : bool :=
  match v with JStr t => String.eqb t s | _ => false end.

(** [len(v)] *)
Definition len (v : json) : result N :=
  match v with
  | JStr s => Ok (py_len s)
  | JList l => Ok (N.of_nat (List.length l))
  | JDict d => Ok (N.of_nat (List.length d))
  | _ => Raise (type_error "object has no len()")
  end.

(** the value as a [str], where the code needs one *)
Definition as_str (v : json) : result string :=
  match v with
  | JStr s => Ok s
  | _ => Raise (type_error "expected str")
  end.

(** ["text" in v] *)
Definition contains_str (s : string) (v : json) : result bool :=
  match v with
  | JDict d => Ok (match lookup s d with Some _ => true | None => false end)
  | JList l => Ok (existsb (fun x => is_str x s) l)
  | JStr t => Ok (contains s t)
  | _ => Raise (type_error "argument is not iterable")
  end.

(** [for x in v] *)
Definition iter (v : json) : result (list json) :=
  match v with
  | JList l => Ok l
  | JDict d => Ok (map (fun kv => JStr (fst kv)) d)
  | JStr s => Ok (map (fun c => JStr (str1 c)) (list_ascii_of_string s))
  | _ => Raise (type_error "object is not iterable")
  end.

(** [v[0]] *)
Definition first (v : json) : result json :=
  match v with
  | JList (x :: _) => Ok x
  | JList [] => Raise (mkExn IndexError "list index out of range")
  | JStr (String c _) => Ok (JStr (str1 c))
  | JStr EmptyString => Raise (mkExn IndexError "string index out of range")
  | JDict _ => Raise (mkExn KeyError "0")
  | _ => Raise (type_error "object is not subscriptable")
  end.

(** [v[:3]] *)
Definition first3 (v : json) : result json :=
  match v with
  | JList l => Ok (JList (firstn 3 l))
  | JStr s => Ok (JStr (take 3 s))
  | _ => Raise (type_error "unhashable type: 'slice'")
  end.

(** [str(v)] of a value that is neither a dict, a list nor a str *)
Definition str_scalar (v : json) : string :=
  match v with
  | JNull => "None"
  | JBool true => "True"
  | JBool false => "False"
  | JNum z => str_of_Z z
  | JFloat lit => lit
  | _ => EmptyString
  end.

(** [str(v)], given [str] on lists and dicts *)
Definition str_value (repr : json -> string) (v : json) : string :=
  match v with
  | JStr s => s
  | JList _ | JDict _ => repr v
  | _ => str_scalar v
  end.

(** [f'flow{flow_id}'] *)
Definition flow_name (id : Z) : string := "flow" ++ str_of_Z id.

End Py.

(** ** Part 4. The world: output root, clock, calls and log *)

(** A file holds text, or bytes that are not UTF-8. *)
Inductive file : Type :=
| Utf8 (text : string)
| Undecodable.

(** A flow slot: its files, and the two directories that the execution of
    generated code creates in it. *)
Record slot : Type := mkSlot {
  files : list (string * file);
  extraction_results : option (list (string * file));
  markdown_output : option (list (string * file))
}.

Definition empty_slot : slot := mkSlot [] None None.

Inductive node : Type :=
| NFile (f : file)
| NDir (d : slot).

(** A directory as [iterdir] lists it. *)
Definition listing : Type := list (string * node).

(** What the run asks of its collaborators, and the checkpoints it saves. *)
Inductive event : Type :=
| CallAnalyze (file_id : string)
| CallVisual (file_id : string)
| CallSynthesize (file_ids : list string) (combined : json)
| CallSchema (synthesized : json)
| CallCodegenApi (schema : json)
| CallValidate (code schema : json)
| CallExecuteExtraction (dir : string)
| CallContentAnalysis (samples : list json)
| CallMarkdownGen (retry : bool)
| CallExecuteMarkdown (dir : string)
| SavedCheckpoint (dir : string) (step : string) (data : json).

Record world : Type := mkWorld {
  root : option listing;       (* [Settings.OUTPUT_DIR], when it exists *)
  clock : nat;                 (* advances at every call and time stamp *)
  calls : list event;          (* oldest first *)
  log : list (string * string * list json)
                               (* level, message and its arguments *)
}.

Definition set_root (w : world) (r : option listing) : world :=
  mkWorld r (clock w) (calls w) (log w).

Module Fs.

Fixpoint lookup {A : Type} (name : string) (l : list (string * A))
  : option A :=
  match l with
  | [] => None
  | (n, x) :: r => if String.eqb n name then Some x else lookup name r
  end.

(** Replace the entry [name], or add it at the end. *)
Fixpoint update {A : Type} (name : string) (x : A) (l : list (string * A))
  : list (string * A) :=
  match l with
  | [] => [(name, x)]
  | (n, y) :: r =>
      if String.eqb n name then (n, x) :: r else (n, y) :: update name x r
  end.

Definition insert_at {A : Type} (i : nat) (x : A) (l : list A) : list A :=
  (firstn i l ++ x :: skipn i l)%list.

Definition slot_of (r : option listing) (dir : string) : option slot :=
  match r with
  | None => None
  | Some l =>
      match lookup dir l with
      | Some (NDir d) => Some d
      | _ => None
      end
  end.

Definition put_slot (r : option listing) (dir : string) (d : slot)
  : option listing :=
  match r with
  | None => None
  | Some l => Some (update dir (NDir d) l)
  end.

Definition set_files (d : slot) (f : list (string * file)) : slot :=
  mkSlot f (extraction_results d) (markdown_output d).

Definition set_extraction_results (d : slot) (x : option (list (string * file)))
  : slot :=
  mkSlot (files d) x (markdown_output d).

Definition set_markdown_output (d : slot) (x : option (list (string * file)))
  : slot :=
  mkSlot (files d) (extraction_results d) x.

(** The file [dir/name] of the output root. *)
Definition file_of (r : option listing) (dir name : string) : option file :=
  match slot_of r dir with
  | Some d => lookup name (files d)
  | None => None
  end.

(** The steps of writing a file in place. *)
Inductive op : Type :=
| OpenTruncate (dir name : string)   (* [open(path, 'w')] *)
| Write (dir name text : string).    (* the data reaches the file *)

Definition apply_op (o : op) (r : option listing) : result (option listing) :=
  match o with
  | OpenTruncate dir name =>
      match slot_of r dir with
      | Some d =>
          Ok (put_slot r dir
                (set_files d (update name (Utf8 EmptyString) (files d))))
      | None => Raise (mkExn FileNotFoundError (dir ++ "/" ++ name))
      end
  | Write dir name text =>
      match slot_of r dir with
      | Some d =>
          match lookup name (files d) with
          | Some (Utf8 old) =>
              Ok (put_slot r dir
                    (set_files d (update name (Utf8 (old ++ text)) (files d))))
          | _ => Raise (mkExn FileNotFoundError (dir ++ "/" ++ name))
          end
      | None => Raise (mkExn FileNotFoundError (dir ++ "/" ++ name))
      end
  end.

Fixpoint apply_ops (ops : list op) (r : option listing)
  : result (option listing) :=
  match ops with
  | [] => Ok r
  | o :: rest =>
      match apply_op o r with
      | Ok r' => apply_ops rest r'
      | Raise e => Raise e
      end
  end.

(** [with open(path, 'w') as f: f.write(text)] *)
Definition write_ops (dir name text : string) : list op :=
  [OpenTruncate dir name; Write dir name text].

(** The output root when the process stops after the first [k] steps. *)
Definition crash_after (k : nat) (ops : list op) (r : option listing)
  : result (option listing) :=
  apply_ops (firstn k ops) r.

End Fs.

(** ** Part 5. A monad for code that raises and changes its state *)

Definition M (S A : Type) : Type := S -> result A * S.

Definition ret {S A : Type} (a : A) : M S A := fun s => (Ok a, s).

Definition bind {S A B : Type} (m : M S A) (k : A -> M S B) : M S B :=
  fun s =>
    match m s with
    | (Ok a, s') => k a s'
    | (Raise e, s') => (Raise e, s')
    end.

Definition raise {S A : Type} (e : exn) : M S A := fun s => (Raise e, s).

(** [try: m  except Exception as e: h e] *)
Definition try_except {S A : Type} (m : M S A) (h : exn -> M S A) : M S A :=
  fun s =>
    match m s with
    | (Ok a, s') => (Ok a, s')
    | (Raise e, s') => h e s'
    end.

Definition lift {S A : Type} (r : result A) : M S A := fun s => (r, s).

Definition gets {S A : Type} (f : S -> A) : M S A := fun s => (Ok (f s), s).

Definition modify {S : Type} (f : S -> S) : M S unit :=
  fun s => (Ok tt, f s).

Declare Scope monad_scope.
Delimit Scope monad_scope with monad.
Notation "x <- m ;; k" := (bind m (fun x => k))
  (at level 61, m at next level, right associativity) : monad_scope.
Notation "m ;;; k" := (bind m (fun _ => k))
  (at level 61, right associativity) : monad_scope.
Local Open Scope monad_scope.

(** [for x in l: body x] *)
Fixpoint for_each {S A : Type} (l : list A) (body : A -> M S unit)
  : M S unit :=
  match l with
  | [] => ret tt
  | x :: r => body x ;;; for_each r body
  end.

(** ** Part 6. The collaborators *)

(** The result of [CodeValidatorAgent.validate_code]. *)
Record validation : Type := mkValidation {
  v_valid : bool;
  v_syntax_errors : list (list (string * json));
  v_robustness_issues : list (list (string * json));
  v_interface_issues : list (list (string * json));
  v_suggestions : list string;
  v_fixed_code : option string;
  v_warnings : list (list (string * json))
}.

Definition validation_json (v : validation) : json :=
  JDict [("valid", JBool (v_valid v));
         ("syntax_errors", JList (map JDict (v_syntax_errors v)));
         ("robustness_issues", JList (map JDict (v_robustness_issues v)));
         ("interface_issues", JList (map JDict (v_interface_issues v)));
         ("suggestions", JList (map JStr (v_suggestions v)));
         ("fixed_code",
          match v_fixed_code v with Some c => JStr c | None => JNull end);
         ("warnings", JList (map JDict (v_warnings v)))].

(** What [_execute_extraction_code] leaves in the slot it is given. *)
Record extraction_outcome : Type := mkExtraction {
  eo_results : option (list (string * json));
      (* [extraction_results/] was created, and these files written *)
  eo_summary : option json
      (* [extraction_results_summary.json] *)
}.

(** What the loaded converter leaves in the slot it is given. *)
Record conversion_outcome : Type := mkConversion {
  co_output : option (list (string * string));
      (* [markdown_output/] was created, and these files written *)
  co_summary : option json
      (* [markdown_conversion_summary.json] *)
}.

(** Everything outside the pipeline: the clock, the order in which the
    file system lists a new directory, the AI calls (each takes the clock
    value of the call, so that two calls may answer differently) and the
    execution of generated code. *)
Record env : Type := mkEnv {
  isoformat : nat -> string;
  dir_position : string -> listing -> nat;
  analyze_html_structure : nat -> string -> string -> json;
  analyze_html_visually : nat -> string -> string -> json;
  coordinate_analysis : nat -> list string -> json -> result json;
  generate_final_schema : nat -> json -> json;
  codegen_api : nat -> json -> result string;
  fallback_body : string -> string;
  validate_code : nat -> json -> json -> result validation;
  re_sub_json_booleans : string -> string;
  execute_extraction_code : nat -> option file -> json -> extraction_outcome;
  analyze_content_fields : nat -> list json -> json;
  generate_markdown_converter_code :
    nat -> json -> json -> bool -> result string;
  compile_error : string -> option exn;
  fix_markdown_converter_syntax : string -> exn -> string;
  repr_container : json -> string;
  run_markdown_converter :
    nat -> file -> list (string * file) -> conversion_outcome
}.

(** ** Part 7. Primitive actions on the world *)

Module Act.

Definition tick : M world nat :=
  fun w => (Ok (clock w), mkWorld (root w) (S (clock w)) (calls w) (log w)).

Definition emit (e : event) : M world unit :=
  modify (fun w => mkWorld (root w) (clock w) (calls w ++ [e])%list (log w)).

Definition logger (level msg : string) (args : list json) : M world unit :=
  modify (fun w =>
    mkWorld (root w) (clock w) (calls w) (log w ++ [(level, msg, args)])%list).

(** Run the steps of a write; nothing is undone when one of them raises. *)
Fixpoint run_ops (ops : list Fs.op) : M world unit :=
  match ops with
  | [] => ret tt
  | o :: rest =>
      r <- gets root ;;
      r' <- lift (Fs.apply_op o r) ;;
      modify (fun w => set_root w r') ;;;
      run_ops rest
  end.

(** [with open(dir/name, 'w', encoding='utf-8') as f: f.write(text)] *)
Definition write_text (dir name text : string) : M world unit :=
  run_ops (Fs.write_ops dir name text).

(** [(dir/name).exists()] *)
Definition exists_file (dir name : string) : M world bool :=
  r <- gets root ;;
  ret (match Fs.file_of r dir name with Some _ => true | None => false end).

(** [with open(dir/name, 'r', encoding='utf-8') as f: f.read()] *)
Definition read_text (dir name : string) : M world string :=
  r <- gets root ;;
  match Fs.file_of r dir name with
  | Some (Utf8 t) => ret t
  | Some Undecodable =>
      raise (mkExn UnicodeDecodeError "'utf-8' codec can't decode byte")
  | None => raise (mkExn FileNotFoundError (dir ++ "/" ++ name))
  end.

(** [json.load(f)] on the text of a file *)
Definition json_load (text : string) : M world json :=
  match Json.loads text with
  | Some v => ret v
  | None => raise (mkExn JSONDecodeError "Expecting value")
  end.

(** [Path.mkdir] of the directory [dir] of the output root. *)
Definition mkdir (E : env) (parents : bool) (dir : string) : M world unit :=
  r <- gets root ;;
  match r with
  | None =>
      if parents
      then modify (fun w => set_root w (Some [(dir, NDir empty_slot)]))
      else raise (mkExn FileNotFoundError dir)
  | Some l =>
      match Fs.lookup dir l with
      | Some (NDir _) => ret tt
      | Some (NFile _) => raise (mkExn FileExistsError dir)
      | None =>
          modify (fun w =>
            set_root w
              (Some (Fs.insert_at (dir_position E dir l)
                       (dir, NDir empty_slot) l)))
      end
  end.


End Act.

(** ** Part 8. [Settings]: the run directory allocator *)

Module Settings.
Import Text.

(** The digits of a Python integer literal: single underscores may
    separate digits. *)
Fixpoint int_digits (s : string) (after_digit : bool) : option string :=
  match s with
  | EmptyString => if after_digit then Some EmptyString else None
  | String c r =>
      if is_digit c then
        match int_digits r true with
        | Some ds => Some (String c ds)
        | None => None
        end
      else if Ascii.eqb c "_" && after_digit then int_digits r false
      else None
  end.

(** [int(s)] for a [str]; [None] stands for [ValueError]. *)
Definition py_int (s : string) : option Z :=
  let t := strip s in
  let '(neg, u) :=
    match t with
    | String "-" r => (true, r)
    | String "+" r => (false, r)
    | _ => (false, t)
    end in
  match int_digits u false with
  | Some ds =>
      match N_of_digits ds with
      | Some n => Some (if neg then Z.opp (Z.of_N n) else Z.of_N n)
      | None => None
      end
  | None => None
  end.

(** The flow number of a directory entry: [item.is_dir()],
    [item.name.startswith('flow')] and [int(item.name[4:])] succeed. *)
Definition flow_num (entry : string * node) : option Z :=
  match snd entry with
  | NDir _ =>
      if startswith "flow" (fst entry) then py_int (drop 4 (fst entry))
      else None
  | NFile _ => None
  end.

(** [existing_flows] of [get_next_flow_id] *)
Fixpoint existing_flows (l : listing) : list Z :=
  match l with
  | [] => []
  | entry :: r =>
      match flow_num entry with
      | Some n => n :: existing_flows r
      | None => existing_flows r
      end
  end.

(** [max(l)] of a non-empty list [x :: l] *)
Fixpoint py_max (x : Z) (l : list Z) : Z :=
  match l with
  | [] => x
  | y :: r => py_max (if Z.ltb x y then y else x) r
  end.

(** [Settings.get_next_flow_id] on the state of the output root *)
Definition next_flow_id (r : option listing) : Z :=
  match r with
  | None => 1%Z
  | Some l =>
      match existing_flows l with
      | [] => 1%Z
      | x :: rest => (py_max x rest + 1)%Z
      end
  end.

Definition get_next_flow_id : M world Z :=
  r <- gets root ;; ret (next_flow_id r).

(** [Settings.get_flow_output_dir]: the directory name under the output
    root, created when missing. *)
Definition get_flow_output_dir (E : env) (flow_id : Z) : M world string :=
  let dir := Py.flow_name flow_id in
  Act.mkdir E true dir ;;; ret dir.

(** [Settings.get_next_flow_output_dir] *)
Definition get_next_flow_output_dir (E : env) : M world string :=
  next_flow_id <- get_next_flow_id ;;
  get_flow_output_dir E next_flow_id.

End Settings.

(** ** Part 9. [CheckpointManager]: the artifact store of one slot *)

Module CheckpointManager.
Import Text Act.

Definition CHECKPOINT_FILE : string := "checkpoint.json".

(** [CheckpointManager(output_dir)]: [self.output_dir.mkdir(exist_ok=True)] *)
Definition init (E : env) (output_dir : string) : M world unit :=
  mkdir E false output_dir.

(** The record that [save_checkpoint] serialises. *)
Definition checkpoint_record (step ts : string) (data metadata : json)
  : json :=
  JDict [("step", JStr step);
         ("timestamp", JStr ts);
         ("data", data);
         ("metadata", if Py.truthy metadata then metadata else JDict [])].

(** The file-system steps of [save_checkpoint]. *)
Definition save_checkpoint_ops (dir : string) (checkpoint : json)
  : list Fs.op :=
  Fs.write_ops dir CHECKPOINT_FILE (Json.dumps 2 checkpoint).

Definition save_checkpoint (E : env) (dir step : string)
    (data metadata : json) : M world unit :=
  t <- tick ;;
  let checkpoint := checkpoint_record step (isoformat E t) data metadata in
  try_except
    (run_ops (save_checkpoint_ops dir checkpoint) ;;;
     emit (SavedCheckpoint dir step data) ;;;
     logger "info" "Checkpoint saved: {}" [JStr step])
    (fun e =>
       logger "error" "Failed to save checkpoint: {}" [JStr (exn_msg e)]).

(** [load_checkpoint]: the checkpoint, or [JNull] for Python's [None]. *)
Definition load_checkpoint (dir : string) : M world json :=
  present <- exists_file dir CHECKPOINT_FILE ;;
  if negb present then ret JNull
  else
    try_except
      (text <- read_text dir CHECKPOINT_FILE ;;
       checkpoint <- json_load text ;;
       step <- lift (Py.get checkpoint "step" (JStr "unknown")) ;;
       ts <- lift (Py.get checkpoint "timestamp" (JStr "unknown")) ;;
       logger "info" "Checkpoint loaded: {} from {}" [step; ts] ;;;
       ret checkpoint)
      (fun e =>
         logger "error" "Failed to load checkpoint: {}" [JStr (exn_msg e)] ;;;
         ret JNull).


(** [filename] when given, else [f"{step_name}_result.json"] *)
Definition result_filename (step_name : string) (filename : option string)
  : string :=
  match filename with
  | Some f => f
  | None => step_name ++ "_result.json"
  end.

(** [save_step_result]: the path written, or [None]. *)
Definition save_step_result (dir step_name : string) (result : json)
    (filename : option string) : M world (option string) :=
  let name := result_filename step_name filename in
  try_except
    (match result with
     | JDict _ | JList _ => write_text dir name (Json.dumps 2 result)
     | JStr s => write_text dir name s
     | _ =>
         write_text dir name
           (Json.dumps 2 (JDict [("result", JStr (Py.str_scalar result))]))
     end ;;;
     logger "info" "Step result saved: {}" [JStr (dir ++ "/" ++ name)] ;;;
     ret (Some (dir ++ "/" ++ name)))
    (fun e =>
       logger "error" "Failed to save step result: {}" [JStr (exn_msg e)] ;;;
       ret None).

(** [load_step_result]: the value, or [JNull] for Python's [None]. *)
Definition load_step_result (dir step_name : string)
    (filename : option string) : M world json :=
  let name := result_filename step_name filename in
  present <- exists_file dir name ;;
  if negb present then ret JNull
  else
    try_except
      (if endswith ".json" name
       then text <- read_text dir name ;; json_load text
       else text <- read_text dir name ;; ret (JStr text))
      (fun e =>
         logger "error" "Failed to load step result '{}': {}"
           [JStr step_name; JStr (exn_msg e)] ;;;
         ret JNull).

Definition step_result_exists (dir step_name : string)
    (filename : option string) : M world bool :=
  exists_file dir (result_filename step_name filename).

End CheckpointManager.

(** ** Part 10. [CodeGeneratorAgent.generate_extraction_code] *)

Module CodeGenerator.
Import Text Act.

(** [d.get(k, default)] on the items of a dict *)
Definition item (d : list (string * json)) (k : string) (default : json)
  : json :=
  match Py.lookup k d with
  | Some x => x
  | None => default
  end.

(** One section of [_simplify_schema]. *)
Definition simplify_section (section : json) : result json :=
  match section with
  | JDict d =>
      let base := [("name", item d "name" (JStr ""));
                   ("description", item d "description" (JStr ""));
                   ("xpath", item d "xpath" (JStr ""));
                   ("is_list", item d "is_list" (JBool false))] in
      match Py.lookup "xpath_list" d with
      | None => Ok (JDict base)
      | Some xl =>
          match Py.first xl with
          | Raise e => Raise e
          | Ok x0 =>
              if negb (Py.eqb (item d "xpath" JNull) x0)
              then match Py.first3 xl with
                   | Ok short =>
                       Ok (JDict (base ++ [("xpath_list", short)])%list)
                   | Raise e => Raise e
                   end
              else Ok (JDict base)
          end
      end
  | _ => Raise (Py.attribute_error "get")
  end.

Fixpoint simplify_sections (l : list json) : result (list json) :=
  match l with
  | [] => Ok []
  | s :: r =>
      match simplify_section s with
      | Raise e => Raise e
      | Ok s' =>
          match simplify_sections r with
          | Ok r' => Ok (s' :: r')
          | Raise e => Raise e
          end
      end
  end.

(** [_simplify_schema] *)
Definition simplify_schema (json_schema : json) : result json :=
  match json_schema with
  | JDict d =>
      match Py.iter (item d "sections" (JList [])) with
      | Raise e => Raise e
      | Ok items =>
          match simplify_sections items with
          | Raise e => Raise e
          | Ok simplified =>
              Ok (JDict [("schema_version", item d "schema_version" (JStr "1.0"));
                         ("description", item d "description" (JStr ""));
                         ("sections", JList simplified)])
          end
      end
  | _ => Raise (Py.attribute_error "get")
  end.

(** What [_build_code_generation_prompt] asks of the schema before the
    prompt text is built: [len(json_schema.get('sections', []))]. *)
Definition prompt_sections_count (json_schema : json) : result N :=
  match Py.get json_schema "sections" (JList []) with
  | Ok sections => Py.len sections
  | Raise e => Raise e
  end.

Definition fallback_header : string :=
  "# HTML Content Extraction Code" ++ str1 nl ++
  "# Generated from schema (API generation failed, using fallback template)"
  ++ str1 nl.

(** [_generate_fallback_code]: the two header lines, then the rest of the
    template built around the dump of the sections. *)
Definition generate_fallback_code (E : env) (json_schema : json)
  : result string :=
  match Py.get json_schema "sections" (JList []) with
  | Ok sections =>
      Ok (fallback_header ++ fallback_body E (Json.dumps 8 sections))
  | Raise e => Raise e
  end.

Definition max_retries : nat := 3.

(** One pass of [for attempt in range(max_retries)], with [retries_left]
    passes after it: the answer of the call, another pass when it raises,
    and the fallback template when the last pass raises. *)
Fixpoint attempts (E : env) (retries_left : nat) (json_schema : json)
  : M world string :=
  t <- tick ;;
  emit (CallCodegenApi json_schema) ;;;
  match codegen_api E t json_schema with
  | Ok code => ret code
  | Raise e =>
      match retries_left with
      | S k => attempts E k json_schema
      | O => lift (generate_fallback_code E json_schema)
      end
  end.

Definition SCHEMA_SIZE_THRESHOLD : N := 100000.

Definition generate_extraction_code (E : env) (json_schema : json)
  : M world string :=
  let schema_size := py_len (Json.dumps 2 json_schema) in
  schema <- (if N.ltb SCHEMA_SIZE_THRESHOLD schema_size
             then lift (simplify_schema json_schema)
             else ret json_schema) ;;
  _ <- lift (prompt_sections_count schema) ;;
  attempts E (max_retries - 1) schema.

End CodeGenerator.

(** ** Part 11. The local variables of [_process_html_files] *)

(** The world together with the local variables of the running
    [_process_html_files]; an assignment made inside a [try] block is kept
    when the block raises.  A flow number is [0] until it is assigned. *)
Record frame : Type := mkFrame {
  fw : world;
  analysis_results : json;
  visual_results : json;
  synthesized : json;
  json_schema : json;
  extraction_code : json;
  completed_steps : list (string * Z);
  step1_flow_id : Z;
  step2_flow_id : Z;
  step3_flow_id : Z;
  step4_flow_id : Z;
  step5_flow_id : Z;
  validation_result : json;
  step6_flow_id : Z;
  markdown_converter_code : json;
  content_analysis : json;
  step7_flow_id : Z
}.

Definition set_fw (x : world) (f : frame) : frame :=
  mkFrame x (analysis_results f) (visual_results f) (synthesized f) (json_schema f) (extraction_code f) (completed_steps f) (step1_flow_id f) (step2_flow_id f) (step3_flow_id f) (step4_flow_id f) (step5_flow_id f) (validation_result f) (step6_flow_id f) (markdown_converter_code f) (content_analysis f) (step7_flow_id f).

Definition set_analysis_results (x : json) (f : frame) : frame :=
  mkFrame (fw f) x (visual_results f) (synthesized f) (json_schema f) (extraction_code f) (completed_steps f) (step1_flow_id f) (step2_flow_id f) (step3_flow_id f) (step4_flow_id f) (step5_flow_id f) (validation_result f) (step6_flow_id f) (markdown_converter_code f) (content_analysis f) (step7_flow_id f).

Definition set_visual_results (x : json) (f : frame) : frame :=
  mkFrame (fw f) (analysis_results f) x (synthesized f) (json_schema f) (extraction_code f) (completed_steps f) (step1_flow_id f) (step2_flow_id f) (step3_flow_id f) (step4_flow_id f) (step5_flow_id f) (validation_result f) (step6_flow_id f) (markdown_converter_code f) (content_analysis f) (step7_flow_id f).

Definition set_synthesized (x : json) (f : frame) : frame :=
  mkFrame (fw f) (analysis_results f) (visual_results f) x (json_schema f) (extraction_code f) (completed_steps f) (step1_flow_id f) (step2_flow_id f) (step3_flow_id f) (step4_flow_id f) (step5_flow_id f) (validation_result f) (step6_flow_id f) (markdown_converter_code f) (content_analysis f) (step7_flow_id f).

Definition set_json_schema (x : json) (f : frame) : frame :=
  mkFrame (fw f) (analysis_results f) (visual_results f) (synthesized f) x (extraction_code f) (completed_steps f) (step1_flow_id f) (step2_flow_id f) (step3_flow_id f) (step4_flow_id f) (step5_flow_id f) (validation_result f) (step6_flow_id f) (markdown_converter_code f) (content_analysis f) (step7_flow_id f).

Definition set_extraction_code (x : json) (f : frame) : frame :=
  mkFrame (fw f) (analysis_results f) (visual_results f) (synthesized f) (json_schema f) x (completed_steps f) (step1_flow_id f) (step2_flow_id f) (step3_flow_id f) (step4_flow_id f) (step5_flow_id f) (validation_result f) (step6_flow_id f) (markdown_converter_code f) (content_analysis f) (step7_flow_id f).

Definition set_completed_steps (x : list (string * Z)) (f : frame) : frame :=
  mkFrame (fw f) (analysis_results f) (visual_results f) (synthesized f) (json_schema f) (extraction_code f) x (step1_flow_id f) (step2_flow_id f) (step3_flow_id f) (step4_flow_id f) (step5_flow_id f) (validation_result f) (step6_flow_id f) (markdown_converter_code f) (content_analysis f) (step7_flow_id f).

Definition set_step1_flow_id (x : Z) (f : frame) : frame :=
  mkFrame (fw f) (analysis_results f) (visual_results f) (synthesized f) (json_schema f) (extraction_code f) (completed_steps f) x (step2_flow_id f) (step3_flow_id f) (step4_flow_id f) (step5_flow_id f) (validation_result f) (step6_flow_id f) (markdown_converter_code f) (content_analysis f) (step7_flow_id f).

Definition set_step2_flow_id (x : Z) (f : frame) : frame :=
  mkFrame (fw f) (analysis_results f) (visual_results f) (synthesized f) (json_schema f) (extraction_code f) (completed_steps f) (step1_flow_id f) x (step3_flow_id f) (step4_flow_id f) (step5_flow_id f) (validation_result f) (step6_flow_id f) (markdown_converter_code f) (content_analysis f) (step7_flow_id f).

Definition set_step3_flow_id (x : Z) (f : frame) : frame :=
  mkFrame (fw f) (analysis_results f) (visual_results f) (synthesized f) (json_schema f) (extraction_code f) (completed_steps f) (step1_flow_id f) (step2_flow_id f) x (step4_flow_id f) (step5_flow_id f) (validation_result f) (step6_flow_id f) (markdown_converter_code f) (content_analysis f) (step7_flow_id f).

Definition set_step4_flow_id (x : Z) (f : frame) : frame :=
  mkFrame (fw f) (analysis_results f) (visual_results f) (synthesized f) (json_schema f) (extraction_code f) (completed_steps f) (step1_flow_id f) (step2_flow_id f) (step3_flow_id f) x (step5_flow_id f) (validation_result f) (step6_flow_id f) (markdown_converter_code f) (content_analysis f) (step7_flow_id f).

Definition set_step5_flow_id (x : Z) (f : frame) : frame :=
  mkFrame (fw f) (analysis_results f) (visual_results f) (synthesized f) (json_schema f) (extraction_code f) (completed_steps f) (step1_flow_id f) (step2_flow_id f) (step3_flow_id f) (step4_flow_id f) x (validation_result f) (step6_flow_id f) (markdown_converter_code f) (content_analysis f) (step7_flow_id f).

Definition set_validation_result (x : json) (f : frame) : frame :=
  mkFrame (fw f) (analysis_results f) (visual_results f) (synthesized f) (json_schema f) (extraction_code f) (completed_steps f) (step1_flow_id f) (step2_flow_id f) (step3_flow_id f) (step4_flow_id f) (step5_flow_id f) x (step6_flow_id f) (markdown_converter_code f) (content_analysis f) (step7_flow_id f).

Definition set_step6_flow_id (x : Z) (f : frame) : frame :=
  mkFrame (fw f) (analysis_results f) (visual_results f) (synthesized f) (json_schema f) (extraction_code f) (completed_steps f) (step1_flow_id f) (step2_flow_id f) (step3_flow_id f) (step4_flow_id f) (step5_flow_id f) (validation_result f) x (markdown_converter_code f) (content_analysis f) (step7_flow_id f).

Definition set_markdown_converter_code (x : json) (f : frame) : frame :=
  mkFrame (fw f) (analysis_results f) (visual_results f) (synthesized f) (json_schema f) (extraction_code f) (completed_steps f) (step1_flow_id f) (step2_flow_id f) (step3_flow_id f) (step4_flow_id f) (step5_flow_id f) (validation_result f) (step6_flow_id f) x (content_analysis f) (step7_flow_id f).

Definition set_content_analysis (x : json) (f : frame) : frame :=
  mkFrame (fw f) (analysis_results f) (visual_results f) (synthesized f) (json_schema f) (extraction_code f) (completed_steps f) (step1_flow_id f) (step2_flow_id f) (step3_flow_id f) (step4_flow_id f) (step5_flow_id f) (validation_result f) (step6_flow_id f) (markdown_converter_code f) x (step7_flow_id f).

Definition set_step7_flow_id (x : Z) (f : frame) : frame :=
  mkFrame (fw f) (analysis_results f) (visual_results f) (synthesized f) (json_schema f) (extraction_code f) (completed_steps f) (step1_flow_id f) (step2_flow_id f) (step3_flow_id f) (step4_flow_id f) (step5_flow_id f) (validation_result f) (step6_flow_id f) (markdown_converter_code f) (content_analysis f) x.

(** The frame at the entry of [_process_html_files]. *)
Definition enter (w : world) : frame :=
  mkFrame w JNull JNull JNull JNull JNull [] 0 0 0 0 0 JNull 0 JNull JNull 0.

(** Run an action of the world inside the frame. *)
Definition W {A : Type} (m : M world A) : M frame A :=
  fun f =>
    match m (fw f) with
    | (r, w') => (r, set_fw w' f)
    end.

(** [x = v] *)
Definition assign {X : Type} (set : X -> frame -> frame) (v : X)
  : M frame unit :=
  modify (set v).

(** ** Part 12. [HTMLAgentSystem._process_html_files] *)

(** The calls of [logger] in [main.py] are left out; every other statement
    of the method is below, in the order of the source. *)

Module Pipeline.
Import Text Act.

(** One input document: [url] and [path] may be absent, [content] is read
    by subscript. *)
Record html_file : Type := mkHtml {
  hf_url : option string;
  hf_path : option string;
  hf_content : string
}.

(** [f.get('url', f.get('path', 'unknown'))] *)
Definition file_identifier (f : html_file) : string :=
  match hf_url f with
  | Some u => u
  | None =>
      match hf_path f with
      | Some p => p
      | None => "unknown"
      end
  end.

(** [checkpoint.get('data', {}).get(key, default)] *)
Definition data_get (checkpoint : json) (key : string) (default : json)
  : result json :=
  match Py.get checkpoint "data" (JDict []) with
  | Ok data => Py.get data key default
  | Raise e => Raise e
  end.

(** [completed_steps.get(key, default)] *)
Definition completed_get (cs : list (string * Z)) (key : string)
    (default : Z) : Z :=
  match Fs.lookup key cs with
  | Some n => n
  | None => default
  end.

(** *** The scans of the output root *)

(** The body that the scans share.  For an entry that is a directory
    whose name starts with [flow], inside [try]: [int(item.name[4:])],
    [CheckpointManager(item)], [load_checkpoint()] and, when the
    checkpoint is truthy, [select]; an exception skips the entry. *)
Definition scan_entry {A : Type} (E : env)
    (select : Z -> json -> result (option A)) (entry : string * node)
  : M world (option A) :=
  match snd entry with
  | NDir _ =>
      if startswith "flow" (fst entry) then
        try_except
          (match Settings.py_int (drop 4 (fst entry)) with
           | None => raise (mkExn ValueError "invalid literal for int()")
           | Some flow_num =>
               CheckpointManager.init E (fst entry) ;;;
               checkpoint <- CheckpointManager.load_checkpoint (fst entry) ;;
               if Py.truthy checkpoint
               then lift (select flow_num checkpoint)
               else ret None
           end)
          (fun _ => ret None)
      else ret None
  | NFile _ => ret None
  end.

(** A scan that stops ([break]) at the first entry that [select] takes. *)
Fixpoint scan_first {A : Type} (E : env)
    (select : Z -> json -> result (option A)) (l : listing)
  : M world (option A) :=
  match l with
  | [] => ret None
  | entry :: r =>
      found <- scan_entry E select entry ;;
      match found with
      | Some a => ret (Some a)
      | None => scan_first E select r
      end
  end.

(** A scan that visits every entry. *)
Fixpoint scan_all {A : Type} (E : env)
    (select : Z -> json -> result (option A)) (l : listing)
  : M world (list A) :=
  match l with
  | [] => ret []
  | entry :: r =>
      found <- scan_entry E select entry ;;
      rest <- scan_all E select r ;;
      ret (match found with
           | Some a => a :: rest
           | None => rest
           end)
  end.

(** [Settings.OUTPUT_DIR.iterdir()] when the root exists, else nothing. *)
Definition output_entries : M world listing :=
  r <- gets root ;;
  ret (match r with Some l => l | None => [] end).

(** One entry of [existing_flows]: flow number, checkpoint and step. *)
Definition flow_info : Type := (Z * json * json)%type.

Definition select_any (flow_num : Z) (checkpoint : json)
  : result (option flow_info) :=
  match Py.get checkpoint "step" (JStr "unknown") with
  | Ok step => Ok (Some (flow_num, checkpoint, step))
  | Raise e => Raise e
  end.

(** The key of [completed_steps] that a step identity sets. *)
Definition completed_key (step : json) : option string :=
  if Py.is_str step "text_analysis" then Some "step1"
  else if Py.is_str step "visual_analysis" then Some "step2"
  else if Py.is_str step "synthesized" then Some "step3"
  else if Py.is_str step "schema" then Some "step4"
  else if Py.is_str step "code" then Some "step5"
  else None.

Fixpoint record_completed (flows : list flow_info) (cs : list (string * Z))
  : list (string * Z) :=
  match flows with
  | [] => cs
  | (flow_num, _, step) :: r =>
      record_completed r
        (match completed_key step with
         | Some key => Fs.update key flow_num cs
         | None => cs
         end)
  end.

(** [existing_flows.sort(key=lambda x: x['flow_id'])]: a stable sort. *)
Fixpoint insert_flow (x : flow_info) (l : list flow_info) : list flow_info :=
  match l with
  | [] => [x]
  | y :: r =>
      if Z.ltb (fst (fst x)) (fst (fst y)) then x :: l
      else y :: insert_flow x r
  end.

Definition sort_flows (l : list flow_info) : list flow_info :=
  fold_left (fun acc x => insert_flow x acc) l [].

(** The assignments that one checkpoint makes, by its step. *)
Definition load_flow (info : flow_info) : M frame unit :=
  let checkpoint := snd (fst info) in
  step <- lift (Py.get checkpoint "step" JNull) ;;
  data <- lift (Py.get checkpoint "data" (JDict [])) ;;
  let take (key : string) (set : json -> frame -> frame) : M frame unit :=
    v <- lift (Py.get data key JNull) ;; assign set v in
  if Py.is_str step "text_analysis" then
    take "analysis_results" set_analysis_results
  else if Py.is_str step "visual_analysis" then
    take "visual_results" set_visual_results ;;;
    take "analysis_results" set_analysis_results
  else if Py.is_str step "synthesized" then
    take "synthesized" set_synthesized ;;;
    take "analysis_results" set_analysis_results ;;;
    take "visual_results" set_visual_results
  else if Py.is_str step "schema" then
    take "schema" set_json_schema ;;;
    take "synthesized" set_synthesized ;;;
    take "analysis_results" set_analysis_results ;;;
    take "visual_results" set_visual_results
  else if Py.is_str step "code_generated" then
    take "code" set_extraction_code ;;;
    take "schema" set_json_schema ;;;
    take "synthesized" set_synthesized ;;;
    take "analysis_results" set_analysis_results ;;;
    take "visual_results" set_visual_results
  else if Py.is_str step "code_validated" || Py.is_str step "code" then
    take "code" set_extraction_code ;;;
    take "validation" set_validation_result ;;;
    take "schema" set_json_schema ;;;
    take "synthesized" set_synthesized ;;;
    take "analysis_results" set_analysis_results ;;;
    take "visual_results" set_visual_results
  else ret tt.

(** Lines 699-783: the resume scan. *)
Definition resume_scan (E : env) (resume : bool) : M frame unit :=
  if resume then
    entries <- W output_entries ;;
    existing_flows <- W (scan_all E select_any entries) ;;
    assign set_completed_steps (record_completed existing_flows []) ;;;
    for_each (sort_flows existing_flows) load_flow
  else ret tt.

(** [Settings.get_flow_output_dir(id)] and [CheckpointManager(dir)] *)
Definition open_slot (E : env) (flow_id : Z) : M frame string :=
  W (dir <- Settings.get_flow_output_dir E flow_id ;;
     CheckpointManager.init E dir ;;; ret dir).

(** The same for [Settings.get_next_flow_id()]. *)
Definition open_next_slot (E : env) (set_id : Z -> frame -> frame)
  : M frame string :=
  flow_id <- W Settings.get_next_flow_id ;;
  assign set_id flow_id ;;;
  open_slot E flow_id.

(** [the_var = checkpoint.get('data', {}).get(key, the_var)] *)
Definition refresh (checkpoint : json) (key : string)
    (current : frame -> json) (set : json -> frame -> frame) : M frame unit :=
  old <- gets current ;;
  v <- lift (data_get checkpoint key old) ;;
  assign set v.

(** [checkpoint and checkpoint.get('step') == step] *)
Definition checkpoint_at (checkpoint : json) (step : string) : result bool :=
  if Py.truthy checkpoint then
    match Py.get checkpoint "step" JNull with
    | Ok s => Ok (Py.is_str s step)
    | Raise e => Raise e
    end
  else Ok false.

(** [visual_results if use_visual else []] *)
Definition visual_or_empty (use_visual : bool) (f : frame) : json :=
  if use_visual then visual_results f else JList [].

Definition ids_json (file_identifiers : list string) : json :=
  JList (map JStr file_identifiers).

(** *** Steps 1 to 4 *)

Fixpoint analyze_all (E : env) (html_files : list html_file)
  : M world (list json) :=
  match html_files with
  | [] => ret []
  | f :: r =>
      t <- tick ;;
      emit (CallAnalyze (file_identifier f)) ;;;
      let result :=
        analyze_html_structure E t (hf_content f) (file_identifier f) in
      rest <- analyze_all E r ;;
      ret (result :: rest)
  end.

Fixpoint visual_all (E : env) (html_files : list html_file)
  : M world (list json) :=
  match html_files with
  | [] => ret []
  | f :: r =>
      t <- tick ;;
      emit (CallVisual (file_identifier f)) ;;;
      let result :=
        analyze_html_visually E t (hf_content f) (file_identifier f) in
      rest <- visual_all E r ;;
      ret (result :: rest)
  end.

(** Lines 785-824. *)
Definition step1 (E : env) (html_files : list html_file)
    (file_identifiers : list string) : M frame unit :=
  have <- gets analysis_results ;;
  if negb (Py.is_none have) then
    cs <- gets completed_steps ;;
    assign set_step1_flow_id (completed_get cs "step1" 1) ;;;
    id <- gets step1_flow_id ;;
    _ <- open_slot E id ;;
    ret tt
  else
    dir <- open_next_slot E set_step1_flow_id ;;
    cached <- W (CheckpointManager.step_result_exists dir
                   "step1_text_analysis" None) ;;
    if cached then
      r <- W (CheckpointManager.load_step_result dir
                "step1_text_analysis" None) ;;
      assign set_analysis_results r ;;;
      checkpoint <- W (CheckpointManager.load_checkpoint dir) ;;
      at_step <- lift (checkpoint_at checkpoint "text_analysis") ;;
      if at_step
      then refresh checkpoint "analysis_results"
             analysis_results set_analysis_results
      else ret tt
    else
      results <- W (analyze_all E html_files) ;;
      assign set_analysis_results (JList results) ;;;
      _ <- W (CheckpointManager.save_step_result dir
                "step1_text_analysis" (JList results) None) ;;
      W (CheckpointManager.save_checkpoint E dir "text_analysis"
           (JDict [("analysis_results", JList results);
                   ("file_identifiers", ids_json file_identifiers)])
           JNull).

(** Lines 826-870. *)
Definition step2 (E : env) (html_files : list html_file)
    (file_identifiers : list string) (use_visual : bool) : M frame unit :=
  if use_visual then
    have <- gets visual_results ;;
    if negb (Py.is_none have) then
      cs <- gets completed_steps ;;
      assign set_step2_flow_id (completed_get cs "step2" 2) ;;;
      id <- gets step2_flow_id ;;
      _ <- open_slot E id ;;
      ret tt
    else
      dir <- open_next_slot E set_step2_flow_id ;;
      cached <- W (CheckpointManager.step_result_exists dir
                     "step2_visual_analysis" None) ;;
      if cached then
        r <- W (CheckpointManager.load_step_result dir
                  "step2_visual_analysis" None) ;;
        assign set_visual_results r ;;;
        checkpoint <- W (CheckpointManager.load_checkpoint dir) ;;
        at_step <- lift (checkpoint_at checkpoint "visual_analysis") ;;
        if at_step then
          refresh checkpoint "visual_results"
            visual_results set_visual_results ;;;
          refresh checkpoint "analysis_results"
            analysis_results set_analysis_results
        else ret tt
      else
        results <- W (visual_all E html_files) ;;
        assign set_visual_results (JList results) ;;;
        _ <- W (CheckpointManager.save_step_result dir
                  "step2_visual_analysis" (JList results) None) ;;
        analysis <- gets analysis_results ;;
        W (CheckpointManager.save_checkpoint E dir "visual_analysis"
             (JDict [("analysis_results", analysis);
                     ("visual_results", JList results);
                     ("file_identifiers", ids_json file_identifiers)])
             JNull)
  else assign set_visual_results (JList []).

(** Lines 872-913. *)
Definition step3 (E : env) (file_identifiers : list string)
    (use_visual : bool) : M frame unit :=
  have <- gets synthesized ;;
  if negb (Py.is_none have) then
    cs <- gets completed_steps ;;
    assign set_step3_flow_id (completed_get cs "step3" 3) ;;;
    id <- gets step3_flow_id ;;
    _ <- open_slot E id ;;
    ret tt
  else
    dir <- open_next_slot E set_step3_flow_id ;;
    cached <- W (CheckpointManager.step_result_exists dir
                   "step3_synthesized" None) ;;
    if cached then
      r <- W (CheckpointManager.load_step_result dir
                "step3_synthesized" None) ;;
      assign set_synthesized r ;;;
      checkpoint <- W (CheckpointManager.load_checkpoint dir) ;;
      at_step <- lift (checkpoint_at checkpoint "synthesized") ;;
      if at_step then
        refresh checkpoint "synthesized" synthesized set_synthesized ;;;
        refresh checkpoint "analysis_results"
          analysis_results set_analysis_results ;;;
        refresh checkpoint "visual_results"
          visual_results set_visual_results
      else ret tt
    else
      analysis <- gets analysis_results ;;
      visual <- gets (visual_or_empty use_visual) ;;
      let combined_results :=
        JDict [("text_analysis", analysis); ("visual_analysis", visual)] in
      t <- W tick ;;
      W (emit (CallSynthesize file_identifiers combined_results)) ;;;
      result <- lift (coordinate_analysis E t file_identifiers
                        combined_results) ;;
      assign set_synthesized result ;;;
      _ <- W (CheckpointManager.save_step_result dir
                "step3_synthesized" result None) ;;
      visual' <- gets (visual_or_empty use_visual) ;;
      W (CheckpointManager.save_checkpoint E dir "synthesized"
           (JDict [("analysis_results", analysis);
                   ("visual_results", visual');
                   ("synthesized", result);
                   ("file_identifiers", ids_json file_identifiers)])
           JNull).

Definition SCHEMA_FILE : string := "extraction_schema.json".

(** Lines 915-963. *)
Definition step4 (E : env) (file_identifiers : list string)
    (use_visual : bool) : M frame unit :=
  have <- gets json_schema ;;
  if negb (Py.is_none have) then
    cs <- gets completed_steps ;;
    assign set_step4_flow_id (completed_get cs "step4" 4) ;;;
    id <- gets step4_flow_id ;;
    _ <- open_slot E id ;;
    ret tt
  else
    dir <- open_next_slot E set_step4_flow_id ;;
    cached <- W (CheckpointManager.step_result_exists dir
                   "step4_schema" None) ;;
    schema_file <- W (exists_file dir SCHEMA_FILE) ;;
    if cached || schema_file then
      r <- W (CheckpointManager.load_step_result dir "step4_schema" None) ;;
      assign set_json_schema r ;;;
      (if Py.is_none r then
         again <- W (exists_file dir SCHEMA_FILE) ;;
         if again then
           v <- W (text <- read_text dir SCHEMA_FILE ;; json_load text) ;;
           assign set_json_schema v
         else ret tt
       else ret tt) ;;;
      checkpoint <- W (CheckpointManager.load_checkpoint dir) ;;
      at_step <- lift (checkpoint_at checkpoint "schema") ;;
      if at_step then
        refresh checkpoint "schema" json_schema set_json_schema ;;;
        refresh checkpoint "synthesized" synthesized set_synthesized ;;;
        refresh checkpoint "analysis_results"
          analysis_results set_analysis_results ;;;
        refresh checkpoint "visual_results"
          visual_results set_visual_results
      else ret tt
    else
      synth <- gets synthesized ;;
      t <- W tick ;;
      W (emit (CallSchema synth)) ;;;
      let schema := generate_final_schema E t synth in
      assign set_json_schema schema ;;;
      W (write_text dir SCHEMA_FILE (Json.dumps 2 schema)) ;;;
      _ <- W (CheckpointManager.save_step_result dir
                "step4_schema" schema None) ;;
      analysis <- gets analysis_results ;;
      visual <- gets (visual_or_empty use_visual) ;;
      W (CheckpointManager.save_checkpoint E dir "schema"
           (JDict [("analysis_results", analysis);
                   ("visual_results", visual);
                   ("synthesized", synth);
                   ("schema", schema);
                   ("file_identifiers", ids_json file_identifiers)])
           JNull).

(** *** Step 5: code generation *)

Definition CODE_FILE : string := "extraction_code.py".

(** Lines 991-997: the entry is an incomplete Step 5 when its checkpoint
    is at ["schema"] and its data has a truthy [code_generation_failed]. *)
Definition select_incomplete_step5 (flow_num : Z) (checkpoint : json)
  : result (option Z) :=
  match Py.get checkpoint "step" JNull with
  | Raise e => Raise e
  | Ok step =>
      if Py.is_str step "schema" then
        match data_get checkpoint "code_generation_failed" JNull with
        | Ok flag => Ok (if Py.truthy flag then Some flow_num else None)
        | Raise e => Raise e
        end
      else Ok None
  end.

(** The data of the checkpoint that Step 5 saves on success. *)
Definition step5_data (use_visual : bool) (file_identifiers : list string)
    (f : frame) : json :=
  JDict [("analysis_results", analysis_results f);
         ("visual_results", visual_or_empty use_visual f);
         ("synthesized", synthesized f);
         ("schema", json_schema f);
         ("code", extraction_code f);
         ("file_identifiers", ids_json file_identifiers)].

(** The data of the checkpoint that Step 5 saves when it fails. *)
Definition step5_failure_data (use_visual : bool)
    (file_identifiers : list string) (e : exn) (f : frame) : json :=
  JDict [("analysis_results", analysis_results f);
         ("visual_results", visual_or_empty use_visual f);
         ("synthesized", synthesized f);
         ("schema", json_schema f);
         ("file_identifiers", ids_json file_identifiers);
         ("error", JStr ("Code generation failed: " ++ exn_msg e));
         ("code_generation_failed", JBool true)].

(** [code_path.unlink()] inside its own [try] *)
Definition remove_file (dir name : string) : M world unit :=
  modify (fun w =>
    match Fs.slot_of (root w) dir with
    | Some d =>
        set_root w
          (Fs.put_slot (root w) dir
             (Fs.set_files d
                (filter (fun nf => negb (String.eqb (fst nf) name))
                   (files d))))
    | None => w
    end).

(** Lines 1042-1087: generate, save, and on failure pin the slot. *)
Definition step5_generate (E : env) (dir : string)
    (file_identifiers : list string) (use_visual : bool) : M frame unit :=
  try_except
    (schema <- gets json_schema ;;
     code <- W (CodeGenerator.generate_extraction_code E schema) ;;
     assign set_extraction_code (JStr code) ;;;
     W (write_text dir CODE_FILE code) ;;;
     _ <- W (CheckpointManager.save_step_result dir "step5_code"
               (JStr code) (Some CODE_FILE)) ;;
     data <- gets (step5_data use_visual file_identifiers) ;;
     W (CheckpointManager.save_checkpoint E dir "code_generated" data JNull))
    (fun e =>
       present <- W (exists_file dir CODE_FILE) ;;
       (if present then W (remove_file dir CODE_FILE) else ret tt) ;;;
       data <- gets (step5_failure_data use_visual file_identifiers e) ;;
       W (CheckpointManager.save_checkpoint E dir "schema" data JNull) ;;;
       raise e).

(** Lines 965-1087. *)
Definition step5 (E : env) (file_identifiers : list string)
    (use_visual : bool) : M frame unit :=
  have <- gets extraction_code ;;
  if negb (Py.is_none have) then
    cs <- gets completed_steps ;;
    assign set_step5_flow_id (completed_get cs "step5" 5) ;;;
    id <- gets step5_flow_id ;;
    dir <- open_slot E id ;;
    present <- W (exists_file dir CODE_FILE) ;;
    if present then
      code <- W (read_text dir CODE_FILE) ;;
      assign set_extraction_code (JStr code)
    else ret tt
  else
    entries <- W output_entries ;;
    existing_flow5_id <- W (scan_first E select_incomplete_step5 entries) ;;
    dir <- match existing_flow5_id with
           | Some id => assign set_step5_flow_id id ;;; open_slot E id
           | None => open_next_slot E set_step5_flow_id
           end ;;
    step5_checkpoint_data <- W (CheckpointManager.load_checkpoint dir) ;;
    code_completed <-
      (if Py.truthy step5_checkpoint_data then
         checkpoint_step <- lift (Py.get step5_checkpoint_data "step" JNull) ;;
         if Py.is_str checkpoint_step "code_generated" then
           code <- lift (data_get step5_checkpoint_data "code" JNull) ;;
           assign set_extraction_code code ;;;
           refresh step5_checkpoint_data "schema"
             json_schema set_json_schema ;;;
           refresh step5_checkpoint_data "synthesized"
             synthesized set_synthesized ;;;
           refresh step5_checkpoint_data "analysis_results"
             analysis_results set_analysis_results ;;;
           refresh step5_checkpoint_data "visual_results"
             visual_results set_visual_results ;;;
           ret true
         else ret false
       else ret false) ;;
    present <- W (exists_file dir CODE_FILE) ;;
    code_completed <-
      (if present && code_completed then
         code <- gets extraction_code ;;
         (if Py.is_none code then
            text <- W (read_text dir CODE_FILE) ;;
            assign set_extraction_code (JStr text)
          else ret tt) ;;;
         code <- gets extraction_code ;;
         fallback1 <- lift (Py.contains_str "API generation failed" code) ;;
         fallback <-
           (if fallback1 then ret true
            else lift (Py.contains_str "fallback template" code)) ;;
         if fallback then
           assign set_extraction_code JNull ;;; ret false
         else ret true
       else ret code_completed) ;;
    if negb code_completed
    then step5_generate E dir file_identifiers use_visual
    else ret tt.

(** *** Step 6: code validation, and Step 6.5 *)

(** Lines 1105-1114: the entry holds validated code. *)
Definition select_validated (flow_num : Z) (checkpoint : json)
  : result (option (Z * json * json)) :=
  match Py.get checkpoint "step" JNull with
  | Raise e => Raise e
  | Ok step =>
      if Py.is_str step "code_validated" || Py.is_str step "code" then
        match data_get checkpoint "code" JNull,
              data_get checkpoint "validation" JNull with
        | Ok code, Ok validation => Ok (Some (flow_num, code, validation))
        | Raise e, _ => Raise e
        | _, Raise e => Raise e
        end
      else Ok None
  end.

Definition encode_files (l : list (string * json)) : list (string * file) :=
  map (fun nf => (fst nf, Utf8 (Json.dumps 2 (snd nf)))) l.

Fixpoint write_all (new old : list (string * file)) : list (string * file) :=
  match new with
  | [] => old
  | (n, x) :: r => write_all r (Fs.update n x old)
  end.

Definition SUMMARY_FILE : string := "extraction_results_summary.json".

(** What [_execute_extraction_code] does to the slot. *)
Definition apply_extraction (o : extraction_outcome) (d : slot) : slot :=
  let d1 :=
    match eo_results o with
    | Some fs =>
        Fs.set_extraction_results d
          (Some (write_all (encode_files fs)
                   (match extraction_results d with
                    | Some old => old
                    | None => []
                    end)))
    | None => d
    end in
  match eo_summary o with
  | Some j =>
      Fs.set_files d1
        (Fs.update SUMMARY_FILE (Utf8 (Json.dumps 2 j)) (files d1))
  | None => d1
  end.

Definition update_slot (dir : string) (g : slot -> slot) : M world unit :=
  modify (fun w =>
    match Fs.slot_of (root w) dir with
    | Some d => set_root w (Fs.put_slot (root w) dir (g d))
    | None => w
    end).

(** Step 6.5: [_execute_extraction_code(dir/extraction_code.py, dir,
    json_schema)] inside [try]; a failure is logged and dropped. *)
Definition step6_5 (E : env) (dir : string) : M frame unit :=
  schema <- gets json_schema ;;
  W (t <- tick ;;
     emit (CallExecuteExtraction dir) ;;;
     r <- gets root ;;
     update_slot dir
       (apply_extraction
          (execute_extraction_code E t (Fs.file_of r dir CODE_FILE) schema))).

(** [CodeValidatorAgent.fix_code] *)
Definition fix_code (E : env) (code validation : json) : result json :=
  match Py.as_str code with
  | Raise e => Raise e
  | Ok text =>
      match Py.get validation "fixed_code" JNull with
      | Raise e => Raise e
      | Ok fixed =>
          if Py.truthy fixed then Py.getitem validation "fixed_code"
          else Ok (JStr (re_sub_json_booleans E text))
      end
  end.

Definition validation_marker : string :=
  "# This code has been validated and verified" ++ str1 nl.

(** The number of leading lines that start, once stripped, with [#]. *)
Fixpoint header_lines (lines : list string) : nat :=
  match lines with
  | [] => O
  | line :: r =>
      if startswith "#" (strip line) then S (header_lines r) else O
  end.

(** Lines 1212-1228. *)
Definition add_validation_marker (code : string) : string :=
  if startswith "#" code then
    let lines := split_lines code in
    join_lines (Fs.insert_at (header_lines lines) validation_marker lines)
  else validation_marker ++ code.

Definition call_validate (E : env) (code schema : json) : M frame json :=
  t <- W tick ;;
  W (emit (CallValidate code schema)) ;;;
  v <- lift (validate_code E t code schema) ;;
  ret (validation_json v).

(** [len(v.get(key, []))] *)
Definition count_of (v : json) (key : string) : result N :=
  match Py.get v key (JList []) with
  | Ok l => Py.len l
  | Raise e => Raise e
  end.

(** The data of the checkpoint that Step 6 saves on success. *)
Definition step6_data (use_visual : bool) (file_identifiers : list string)
    (f : frame) : json :=
  JDict [("analysis_results", analysis_results f);
         ("visual_results", visual_or_empty use_visual f);
         ("synthesized", synthesized f);
         ("schema", json_schema f);
         ("code", extraction_code f);
         ("validation", validation_result f);
         ("file_identifiers", ids_json file_identifiers)].

(** The data of the checkpoint that Step 6 saves when it fails. *)
Definition step6_failure_data (use_visual : bool)
    (file_identifiers : list string) (e : exn) (f : frame) : json :=
  JDict [("analysis_results", analysis_results f);
         ("visual_results", visual_or_empty use_visual f);
         ("synthesized", synthesized f);
         ("schema", json_schema f);
         ("code", extraction_code f);
         ("file_identifiers", ids_json file_identifiers);
         ("error", JStr ("Code validation failed: " ++ exn_msg e));
         ("validation_failed", JBool true)].

Definition VALIDATION_FILE : string := "code_validation_result.json".

(** Lines 1149-1269: the body of the [try] of Step 6. *)
Definition step6_body (E : env) (dir : string)
    (file_identifiers : list string) (use_visual : bool) : M frame unit :=
  code <- gets extraction_code ;;
  schema <- gets json_schema ;;
  v <- call_validate E code schema ;;
  assign set_validation_result v ;;;
  syntax_errors <- lift (count_of v "syntax_errors") ;;
  robustness_issues <- lift (count_of v "robustness_issues") ;;
  interface_issues <- lift (count_of v "interface_issues") ;;
  _ <- lift (Py.get v "warnings" (JList [])) ;;
  let has_issues :=
    N.ltb 0 syntax_errors || N.ltb 0 robustness_issues
    || N.ltb 0 interface_issues in
  (if has_issues then
     fixed <- lift (Py.get v "fixed_code" JNull) ;;
     if Py.truthy fixed then
       code' <- lift (fix_code E code v) ;;
       assign set_extraction_code code' ;;;
       revalidation <- call_validate E code' schema ;;
       remaining_syntax <- lift (count_of revalidation "syntax_errors") ;;
       remaining_robustness <-
         lift (count_of revalidation "robustness_issues") ;;
       remaining_interface <-
         lift (count_of revalidation "interface_issues") ;;
       if N.eqb remaining_syntax 0 && N.eqb remaining_robustness 0
          && N.eqb remaining_interface 0
       then ret tt
       else assign set_validation_result revalidation
     else ret tt
   else ret tt) ;;;
  v <- gets validation_result ;;
  fixed <- lift (Py.get v "fixed_code" JNull) ;;
  (if negb (Py.truthy fixed) then
     code <- gets extraction_code ;;
     text <- lift (match code with
                   | JStr t => Ok t
                   | _ => Raise (Py.attribute_error "startswith")
                   end) ;;
     assign set_extraction_code (JStr (add_validation_marker text))
   else ret tt) ;;;
  v <- gets validation_result ;;
  W (write_text dir VALIDATION_FILE (Json.dumps 2 v)) ;;;
  code <- gets extraction_code ;;
  text <- lift (Py.as_str code) ;;
  W (write_text dir CODE_FILE text) ;;;
  data <- gets (step6_data use_visual file_identifiers) ;;
  W (CheckpointManager.save_checkpoint E dir "code_validated" data JNull) ;;;
  step6_5 E dir.

(** Lines 1142-1286: a new slot, the [try] and its handler. *)
Definition step6_validate (E : env) (file_identifiers : list string)
    (use_visual : bool) : M frame unit :=
  dir <- open_next_slot E set_step6_flow_id ;;
  try_except (step6_body E dir file_identifiers use_visual)
    (fun e =>
       data <- gets (step6_failure_data use_visual file_identifiers e) ;;
       W (CheckpointManager.save_checkpoint E dir "code_generated"
            data JNull) ;;;
       raise e).

(** Lines 1089-1286. *)
Definition step6 (E : env) (file_identifiers : list string)
    (use_visual : bool) : M frame unit :=
  assign set_validation_result JNull ;;;
  entries <- W output_entries ;;
  found <- W (scan_first E select_validated entries) ;;
  match found with
  | Some (flow_num, validated_code, validation) =>
      assign set_validation_result validation ;;;
      if negb (Py.is_none validated_code) && negb (Py.is_none validation)
      then
        assign set_step6_flow_id flow_num ;;;
        assign set_extraction_code validated_code ;;;
        dir <- open_slot E flow_num ;;
        step6_5 E dir
      else step6_validate E file_identifiers use_visual
  | None => step6_validate E file_identifiers use_visual
  end.

(** *** The intermediate results of Steps 1 to 6 (lines 1288-1377) *)

Definition INTERMEDIATE_FILE : string := "intermediate_results.json".

Definition write_json (dir name : string) (v : json) : M frame unit :=
  W (write_text dir name (Json.dumps 2 v)).

Definition save_intermediate_results (file_identifiers : list string)
    (use_visual : bool) : M frame unit :=
  f <- gets (fun f => f) ;;
  let ids := ids_json file_identifiers in
  let dir_of (id : Z) := Py.flow_name id in
  write_json (dir_of (step1_flow_id f)) INTERMEDIATE_FILE
    (JDict [("html_files", ids);
            ("analysis_results", analysis_results f);
            ("step", JStr "step1_text_analysis");
            ("flow_id", JNum (step1_flow_id f))]) ;;;
  (if use_visual && Py.truthy (visual_results f) then
     write_json (dir_of (step2_flow_id f)) INTERMEDIATE_FILE
       (JDict [("html_files", ids);
               ("analysis_results", analysis_results f);
               ("visual_results", visual_results f);
               ("step", JStr "step2_visual_analysis");
               ("flow_id", JNum (step2_flow_id f))])
   else ret tt) ;;;
  write_json (dir_of (step3_flow_id f)) INTERMEDIATE_FILE
    (JDict [("html_files", ids);
            ("analysis_results", analysis_results f);
            ("visual_results", visual_or_empty use_visual f);
            ("synthesized", synthesized f);
            ("step", JStr "step3_synthesized");
            ("flow_id", JNum (step3_flow_id f))]) ;;;
  write_json (dir_of (step4_flow_id f)) INTERMEDIATE_FILE
    (JDict [("html_files", ids);
            ("analysis_results", analysis_results f);
            ("visual_results", visual_or_empty use_visual f);
            ("synthesized", synthesized f);
            ("schema", json_schema f);
            ("step", JStr "step4_schema");
            ("flow_id", JNum (step4_flow_id f))]) ;;;
  write_json (dir_of (step5_flow_id f)) INTERMEDIATE_FILE
    (JDict [("html_files", ids);
            ("analysis_results", analysis_results f);
            ("visual_results", visual_or_empty use_visual f);
            ("synthesized", synthesized f);
            ("schema", json_schema f);
            ("code", extraction_code f);
            ("step", JStr "step5_code_generated");
            ("flow_id", JNum (step5_flow_id f))]) ;;;
  write_json (dir_of (step6_flow_id f)) INTERMEDIATE_FILE
    (JDict [("html_files", ids);
            ("analysis_results", analysis_results f);
            ("visual_results", visual_or_empty use_visual f);
            ("synthesized", synthesized f);
            ("schema", json_schema f);
            ("code", extraction_code f);
            ("validation", validation_result f);
            ("step", JStr "step6_code_validated");
            ("flow_directories",
             JDict [("step1", JStr (dir_of (step1_flow_id f)));
                    ("step2", if use_visual
                              then JStr (dir_of (step2_flow_id f))
                              else JNull);
                    ("step3", JStr (dir_of (step3_flow_id f)));
                    ("step4", JStr (dir_of (step4_flow_id f)));
                    ("step5", JStr (dir_of (step5_flow_id f)));
                    ("step6", JStr (dir_of (step6_flow_id f)))])]).

(** *** Step 7: Markdown conversion, and Step 7.5 *)

Definition CONVERTER_FILE : string := "markdown_converter.py".
Definition CONVERSION_SUMMARY_FILE : string :=
  "markdown_conversion_summary.json".

(** Lines 1396-1403: the entry holds a Markdown converter. *)
Definition select_converted (flow_num : Z) (checkpoint : json)
  : result (option (Z * json * json)) :=
  match Py.get checkpoint "step" JNull with
  | Raise e => Raise e
  | Ok step =>
      if Py.is_str step "markdown_converted" then
        match data_get checkpoint "markdown_converter_code" JNull,
              data_get checkpoint "content_analysis" JNull with
        | Ok code, Ok analysis => Ok (Some (flow_num, code, analysis))
        | Raise e, _ => Raise e
        | _, Raise e => Raise e
        end
      else Ok None
  end.

(** [dir.glob('*.json')] *)
Definition glob_json (l : list (string * file)) : list (string * file) :=
  filter (fun nf => endswith ".json" (fst nf)
                    && negb (startswith "." (fst nf))) l.

(** What the loaded converter does to the slot. *)
Definition apply_conversion (o : conversion_outcome) (d : slot) : slot :=
  let d1 :=
    match co_output o with
    | Some fs =>
        Fs.set_markdown_output d
          (Some (write_all (map (fun nf => (fst nf, Utf8 (snd nf))) fs)
                   (match markdown_output d with
                    | Some old => old
                    | None => []
                    end)))
    | None => d
    end in
  match co_summary o with
  | Some j =>
      Fs.set_files d1
        (Fs.update CONVERSION_SUMMARY_FILE (Utf8 (Json.dumps 2 j)) (files d1))
  | None => d1
  end.

(** Step 7.5: [_execute_markdown_conversion(dir/markdown_converter.py,
    results_dir/extraction_results, dir)] inside [try]. *)
Definition step7_5 (E : env) (dir results_dir : string) : M frame unit :=
  W (t <- tick ;;
     emit (CallExecuteMarkdown dir) ;;;
     r <- gets root ;;
     match Fs.file_of r dir CONVERTER_FILE with
     | None => ret tt
     | Some converter =>
         match Fs.slot_of r results_dir with
         | Some results_slot =>
             match extraction_results results_slot with
             | None => ret tt
             | Some results =>
                 match glob_json results with
                 | [] => ret tt
                 | json_files =>
                     update_slot dir
                       (apply_conversion
                          (run_markdown_converter E t converter json_files))
                 end
             end
         | None => ret tt
         end
     end).

(** [json_results]: the files among the first five that load. *)
Fixpoint load_samples (l : list (string * file)) : list json :=
  match l with
  | [] => []
  | (_, Utf8 text) :: r =>
      match Json.loads text with
      | Some v => v :: load_samples r
      | None => load_samples r
      end
  | (_, Undecodable) :: r => load_samples r
  end.

Definition call_markdown_gen (E : env) (analysis sample : json)
    (retry : bool) : M frame string :=
  t <- W tick ;;
  W (emit (CallMarkdownGen retry)) ;;;
  lift (generate_markdown_converter_code E t analysis sample retry).

Definition markdown_max_retries : nat := 2.

(** Lines 1486-1510: [while retry_count <= max_retries], entered with
    [retry_count = max_retries + 1 - remaining]. *)
Fixpoint syntax_loop (E : env) (remaining : nat) (analysis sample : json)
  : M frame unit :=
  match remaining with
  | O => ret tt
  | S k =>
      code <- gets markdown_converter_code ;;
      text <- lift (Py.as_str code) ;;
      match compile_error E text with
      | None => ret tt
      | Some e =>
          match exn_kind e with
          | SyntaxError =>
              let retry_count := markdown_max_retries + 1 - remaining in
              if Nat.eqb retry_count 0 then
                assign set_markdown_converter_code
                  (JStr (fix_markdown_converter_syntax E text e)) ;;;
                syntax_loop E k analysis sample
              else if Nat.eqb retry_count 1 then
                code' <- call_markdown_gen E analysis sample true ;;
                assign set_markdown_converter_code (JStr code') ;;;
                syntax_loop E k analysis sample
              else
                raise (mkExn ValueError
                         ("Generated code has unfixable syntax errors after 2 attempts: "
                          ++ exn_msg e))
          | _ => raise e
          end
      end
  end.

(** The data of the checkpoint that Step 7 saves on success. *)
Definition step7_data (json_files_count : nat)
    (file_identifiers : list string) (f : frame) : json :=
  JDict [("content_analysis", content_analysis f);
         ("markdown_converter_code", markdown_converter_code f);
         ("json_files_count", JNum (Z.of_nat json_files_count));
         ("file_identifiers", ids_json file_identifiers)].

(** The data of the checkpoint that Step 7 saves when it fails. *)
Definition step7_failure_data (e : exn) : json :=
  JDict [("error", JStr ("Markdown conversion failed: " ++ exn_msg e));
         ("markdown_conversion_failed", JBool true)].

(** Lines 1437-1543: the body of the [try] of Step 7. *)
Definition step7_body (E : env) (dir results_dir : string)
    (file_identifiers : list string) : M frame unit :=
  r <- W (gets root) ;;
  match match Fs.slot_of r results_dir with
        | Some results_slot => extraction_results results_slot
        | None => None
        end with
  | None => ret tt
  | Some results =>
      let json_files := glob_json results in
      match json_files with
      | [] => ret tt
      | _ =>
          let json_results := load_samples (firstn 5 json_files) in
          match json_results with
          | [] => ret tt
          | sample_json :: _ =>
              t <- W tick ;;
              W (emit (CallContentAnalysis json_results)) ;;;
              let analysis := analyze_content_fields E t json_results in
              assign set_content_analysis analysis ;;;
              failed <- lift (Py.contains_str "error" analysis) ;;
              (if failed then
                 err <- lift (Py.get analysis "error" JNull) ;;
                 raise (mkExn ValueError
                          ("Content analysis failed: "
                           ++ Py.str_value (repr_container E) err))
               else ret tt) ;;;
              _ <- lift (Py.get analysis "main_content_fields" (JList [])) ;;
              code <- call_markdown_gen E analysis sample_json false ;;
              assign set_markdown_converter_code (JStr code) ;;;
              syntax_loop E (S markdown_max_retries) analysis sample_json ;;;
              code <- gets markdown_converter_code ;;
              text <- lift (Py.as_str code) ;;
              W (write_text dir CONVERTER_FILE text) ;;;
              data <- gets (step7_data (List.length json_files)
                              file_identifiers) ;;
              W (CheckpointManager.save_checkpoint E dir
                   "markdown_converted" data JNull) ;;;
              step7_5 E dir results_dir
          end
      end
  end.

(** Lines 1429-1554: a new slot, the [try] and its handler, which saves
    a checkpoint and does not raise. *)
Definition step7_convert (E : env) (results_dir : string)
    (file_identifiers : list string) : M frame string :=
  dir <- open_next_slot E set_step7_flow_id ;;
  try_except (step7_body E dir results_dir file_identifiers)
    (fun e =>
       W (CheckpointManager.save_checkpoint E dir "code_validated"
            (step7_failure_data e) JNull)) ;;;
  ret dir.

(** Lines 1379-1566. *)
Definition step7 (E : env) (file_identifiers : list string)
  : M frame unit :=
  assign set_markdown_converter_code JNull ;;;
  assign set_content_analysis JNull ;;;
  results_dir <- gets (fun f => Py.flow_name (step6_flow_id f)) ;;
  entries <- W output_entries ;;
  found <- W (scan_first E select_converted entries) ;;
  dir <-
    match found with
    | Some (flow_num, code, analysis) =>
        assign set_markdown_converter_code code ;;;
        assign set_content_analysis analysis ;;;
        if negb (Py.is_none code) && negb (Py.is_none analysis) then
          assign set_step7_flow_id flow_num ;;;
          dir <- open_slot E flow_num ;;
          step7_5 E dir results_dir ;;;
          ret dir
        else step7_convert E results_dir file_identifiers
    | None => step7_convert E results_dir file_identifiers
    end ;;
  f <- gets (fun f => f) ;;
  write_json dir INTERMEDIATE_FILE
    (JDict [("content_analysis", content_analysis f);
            ("markdown_converter_code", markdown_converter_code f);
            ("step", JStr "step7_markdown_converted");
            ("flow_id", JNum (step7_flow_id f))]).

(** *** The method *)

(** The value that [_process_html_files] returns, without its path
    strings. *)
Definition outcome (use_visual : bool) (f : frame) : json :=
  JDict [("success", JBool true);
         ("schema", json_schema f);
         ("code", extraction_code f);
         ("flow_directories",
          JDict [("step1", JStr (Py.flow_name (step1_flow_id f)));
                 ("step2", if use_visual
                           then JStr (Py.flow_name (step2_flow_id f))
                           else JNull);
                 ("step3", JStr (Py.flow_name (step3_flow_id f)));
                 ("step4", JStr (Py.flow_name (step4_flow_id f)));
                 ("step5", JStr (Py.flow_name (step5_flow_id f)));
                 ("step6", JStr (Py.flow_name (step6_flow_id f)));
                 ("step7", JStr (Py.flow_name (step7_flow_id f)))])].

Definition process_html_files_body (E : env) (html_files : list html_file)
    (use_visual resume : bool) : M frame json :=
  let file_identifiers := map file_identifier html_files in
  resume_scan E resume ;;;
  step1 E html_files file_identifiers ;;;
  step2 E html_files file_identifiers use_visual ;;;
  step3 E file_identifiers use_visual ;;;
  step4 E file_identifiers use_visual ;;;
  step5 E file_identifiers use_visual ;;;
  step6 E file_identifiers use_visual ;;;
  save_intermediate_results file_identifiers use_visual ;;;
  step7 E file_identifiers ;;;
  gets (outcome use_visual).

(** [_process_html_files(html_files, use_visual, resume)] run in the world
    [w]: what it returns or raises, and the world it leaves. *)
Definition process_html_files (E : env) (html_files : list html_file)
    (use_visual resume : bool) (w : world) : result json * world :=
  match process_html_files_body E html_files use_visual resume (enter w) with
  | (r, f) => (r, fw f)
  end.

End Pipeline.

(** ** Part 13. Predicates used by the statements *)

Module Spec.
Import Text.

Fixpoint distinct (l : list string) : bool :=
  match l with
  | [] => true
  | x :: r => negb (existsb (String.eqb x) r) && distinct r
  end.

(** A value that Python can hold as a [dict], [list], [str], [int],
    [bool] or [None]: the keys of every dict are distinct, and there is no
    floating-point number in it. *)
Fixpoint well_formed (v : json) : bool :=
  match v with
  | JFloat _ => false
  | JList l =>
      (fix all (l : list json) : bool :=
         match l with
         | [] => true
         | x :: r => well_formed x && all r
         end) l
  | JDict kv =>
      distinct (map fst kv)
      && (fix all (l : list (string * json)) : bool :=
            match l with
            | [] => true
            | (_, x) :: r => well_formed x && all r
            end) kv
  | _ => true
  end.

(** A bound on the fuel that parsing the dump of a value takes. *)
Fixpoint json_size (v : json) : nat :=
  match v with
  | JList l =>
      S ((fix sum (l : list json) : nat :=
            match l with
            | [] => O
            | x :: r => S (json_size x) + sum r
            end) l)
  | JDict kv =>
      S ((fix sum (l : list (string * json)) : nat :=
            match l with
            | [] => O
            | (_, x) :: r => S (json_size x) + sum r
            end) kv)
  | _ => 1
  end.

(** What may follow a number: the end, or a character that cannot
    continue it. *)
Definition delimited (rest : string) : bool :=
  match rest with
  | EmptyString => true
  | String c _ =>
      negb (is_digit c || Ascii.eqb c "." || Ascii.eqb c "e"
            || Ascii.eqb c "E")
  end.

(** The text starts a value: not white space, and no closing bracket. *)
Definition starts_value (s : string) : bool :=
  match s with
  | EmptyString => false
  | String c _ =>
      negb (Json.is_ws c || Ascii.eqb c "]" || Ascii.eqb c "}")
  end.

(** The items of a list after the first, as [dump] writes them. *)
Fixpoint items_text (indent level : nat) (l : list json) : string :=
  match l with
  | [] => EmptyString
  | y :: ys =>
      "," ++ Json.newline_indent indent level
      ++ Json.dump indent level y ++ items_text indent level ys
  end.

(** The members of a dict after the first, as [dump] writes them. *)
Fixpoint members_text (indent level : nat) (l : list (string * json))
  : string :=
  match l with
  | [] => EmptyString
  | (k, y) :: ys =>
      "," ++ Json.newline_indent indent level
      ++ Json.encode_basestring k ++ ": "
      ++ Json.dump indent level y ++ members_text indent level ys
  end.

Fixpoint sum_sizes (l : list json) : nat :=
  match l with
  | [] => O
  | x :: r => S (json_size x) + sum_sizes r
  end.

Fixpoint all_well_formed (l : list json) : bool :=
  match l with
  | [] => true
  | x :: r => well_formed x && all_well_formed r
  end.



(** What a file holds when it is read as JSON. *)
Definition decoded (f : file) : option json :=
  match f with
  | Utf8 text => Json.loads text
  | Undecodable => None
  end.

Definition add_log (w : world) (entry : string * string * list json)
  : world :=
  mkWorld (root w) (clock w) (calls w) (log w ++ [entry])%list.

(** Why a checkpoint file fails to load. *)
Definition load_failure (f : file) : string :=
  match f with
  | Undecodable => "'utf-8' codec can't decode byte"
  | Utf8 text =>
      match Json.loads text with
      | None => "Expecting value"
      | Some _ => exn_msg (Py.attribute_error "get")
      end
  end.

(** What [load_checkpoint] returns and leaves, by the state of the
    checkpoint file. *)
Definition load_checkpoint_outcome (w : world) (f : option file)
  : result json * world :=
  match f with
  | None => (Ok JNull, w)
  | Some f =>
      match decoded f with
      | Some (JDict d) =>
          (Ok (JDict d),
           add_log w ("info", "Checkpoint loaded: {} from {}",
                      [CodeGenerator.item d "step" (JStr "unknown");
                       CodeGenerator.item d "timestamp" (JStr "unknown")]))
      | _ =>
          (Ok JNull,
           add_log w ("error", "Failed to load checkpoint: {}",
                      [JStr (load_failure f)]))
      end
  end.

(** The output root after [dir/name] has been written with [text]. *)
Definition written (r : option listing) (dir name : string) (text : string)
  : option listing :=
  match Fs.slot_of r dir with
  | Some d =>
      Fs.put_slot r dir
        (Fs.set_files d (Fs.update name (Utf8 text) (files d)))
  | None => r
  end.

(** The text that [save_step_result] writes for a value. *)
Definition step_result_text (v : json) : string :=
  match v with
  | JDict _ | JList _ => Json.dumps 2 v
  | JStr s => s
  | _ => Json.dumps 2 (JDict [("result", JStr (Py.str_scalar v))])
  end.

(** The checkpoint that [load_checkpoint] finds in a slot, or [JNull]. *)
Definition checkpoint_of (r : option listing) (dir : string) : json :=
  match Fs.file_of r dir CheckpointManager.CHECKPOINT_FILE with
  | Some f =>
      match decoded f with
      | Some (JDict d) => JDict d
      | _ => JNull
      end
  | None => JNull
  end.

(** What a scan takes from a directory entry of the output root [r]: the
    entry is a directory named [flow] and an integer, its checkpoint
    loads and is not empty, and [select] takes it. *)
Definition selection {A : Type} (select : Z -> json -> result (option A))
    (r : option listing) (entry : string * node) : option A :=
  match Settings.flow_num entry with
  | Some flow_num =>
      match Fs.slot_of r (fst entry) with
      | Some _ =>
          let checkpoint := checkpoint_of r (fst entry) in
          if Py.truthy checkpoint then
            match select flow_num checkpoint with
            | Ok found => found
            | Raise _ => None
            end
          else None
      | None => None
      end
  | None => None
  end.

(** Every character of the text is a decimal digit. *)
Fixpoint all_digits (s : string) : bool :=
  match s with
  | EmptyString => true
  | String c r => is_digit c && all_digits r
  end.

(** No character of the text is white space. *)
Fixpoint no_space (s : string) : bool :=
  match s with
  | EmptyString => true
  | String c r => negb (is_space c) && no_space r
  end.

(** The output root has a directory of that name. *)
Definition is_slot (r : option listing) (dir : string) : bool :=
  match Fs.slot_of r dir with
  | Some _ => true
  | None => false
  end.

(** The output root has an entry of that name that is not a directory. *)
Definition is_plain_file (r : option listing) (name : string) : bool :=
  match r with
  | Some l =>
      match Fs.lookup name l with
      | Some (NFile _) => true
      | _ => false
      end
  | None => false
  end.

(** [key in data] for a dict *)
Definition has_key (data : json) (key : string) : bool :=
  match data with
  | JDict d => match Py.lookup key d with Some _ => true | None => false end
  | _ => false
  end.

(** The outputs that belong to a step identity: those of the stages up
    to it for the identities of Steps 1 to 6, and those of Step 7 alone for
    [markdown_converted]. *)
Definition stage_keys (step : string) : option (list string) :=
  if String.eqb step "text_analysis" then
    Some ["analysis_results"]
  else if String.eqb step "visual_analysis" then
    Some ["analysis_results"; "visual_results"]
  else if String.eqb step "synthesized" then
    Some ["analysis_results"; "visual_results"; "synthesized"]
  else if String.eqb step "schema" then
    Some ["analysis_results"; "visual_results"; "synthesized"; "schema"]
  else if String.eqb step "code_generated" then
    Some ["analysis_results"; "visual_results"; "synthesized"; "schema";
          "code"]
  else if String.eqb step "code_validated" then
    Some ["analysis_results"; "visual_results"; "synthesized"; "schema";
          "code"; "validation"]
  else if String.eqb step "markdown_converted" then
    Some ["content_analysis"; "markdown_converter_code"]
  else None.

(** A saved checkpoint has one of the seven identities, and its data
    hold the outputs that belong to it; the marker of a failed Step 7
    holds none of them. *)
Definition checkpoint_shape (e : event) : bool :=
  match e with
  | SavedCheckpoint _ step data =>
      match stage_keys step with
      | Some keys =>
          (String.eqb step "code_validated"
           && has_key data "markdown_conversion_failed")
          || (forallb (has_key data) keys && has_key data "file_identifiers")
      | None => false
      end
  | _ => true
  end.

(** The visual analysis appears as an empty list, where it appears: in
    the data of a saved checkpoint and in the input of the synthesis; the
    visual analyser is not called. *)
Definition visual_is_empty (e : event) : bool :=
  match e with
  | SavedCheckpoint _ _ data =>
      match data with
      | JDict d =>
          match Py.lookup "visual_results" d with
          | Some (JList []) | None => true
          | Some _ => false
          end
      | _ => false
      end
  | CallSynthesize _ combined =>
      match combined with
      | JDict d =>
          match Py.lookup "visual_analysis" d with
          | Some (JList []) => true
          | _ => false
          end
      | _ => false
      end
  | CallVisual _ => false
  | _ => true
  end.

(** Both, the second when the visual analysis is disabled. *)
Definition event_ok (use_visual : bool) (e : event) : bool :=
  checkpoint_shape e && (use_visual || visual_is_empty e).

(** The four fields that [_simplify_schema] keeps of a section. *)
Definition essential_fields (d : list (string * json))
  : list (string * json) :=
  [("name", CodeGenerator.item d "name" (JStr ""));
   ("description", CodeGenerator.item d "description" (JStr ""));
   ("xpath", CodeGenerator.item d "xpath" (JStr ""));
   ("is_list", CodeGenerator.item d "is_list" (JBool false))].

(** [simple] is a section reduced to its essential fields, with the
    first three entries of its [xpath_list] or without the list. *)
Definition simplified (section simple : json) : Prop :=
  exists d,
    section = JDict d
    /\ (simple = JDict (essential_fields d)
        \/ exists xl short,
             Py.lookup "xpath_list" d = Some xl
             /\ Py.first3 xl = Ok short
             /\ simple
                = JDict (essential_fields d ++ [("xpath_list", short)])%list).


End Spec.

(** ** Part 14. A small run, used to evaluate the model *)

Module Example.
Import Text.

Definition api_down : exn := mkExn RuntimeError "502 Bad Gateway".

Definition clean_validation : validation :=
  mkValidation true [] [] [] [] None [].

Definition schema_doc : json :=
  JDict [("schema_version", JStr "1.0");
         ("sections",
          JList [JDict [("name", JStr "title"); ("xpath", JStr "//h1")]])].

(** An environment in which every collaborator answers, except those
    switched off: [synthesis], [codegen] and [converter] say whether the
    synthesis call, the code-generation API and the generation of the
    Markdown converter answer at a given clock value. *)
Definition make_env (synthesis codegen converter : nat -> bool) : env :=
  mkEnv
    (fun t => "T" ++ str_of_N (N.of_nat t))
    (fun _ l => List.length l)
    (fun _ _ id => JDict [("file", JStr id); ("sections", JList [])])
    (fun _ _ id => JDict [("layout", JStr "single column")])
    (fun t _ _ =>
       if synthesis t then Ok (JDict [("common_patterns", JList [])])
       else Raise api_down)
    (fun _ _ => schema_doc)
    (fun t _ =>
       if codegen t then Ok "class HTMLExtractor: pass" else Raise api_down)
    (fun sections => "sections = " ++ sections)
    (fun _ _ _ => Ok clean_validation)
    (fun code => code)
    (fun _ _ _ =>
       mkExtraction (Some [("page1.json", JDict [("title", JStr "Hello")])])
         (Some (JDict [("total_files", JNum 1)])))
    (fun _ _ => JDict [("main_content_fields", JList [JStr "title"])])
    (fun t _ _ _ =>
       if converter t then Ok "class MarkdownConverter: pass"
       else Raise api_down)
    (fun _ => None)
    (fun code _ => code)
    (fun _ => "<value>")
    (fun _ _ _ =>
       mkConversion (Some [("page1.md", "# Hello")])
         (Some (JDict [("total_files", JNum 1)]))).

Definition always (t : nat) : bool := true.
Definition never (t : nat) : bool := false.

Definition env_ok : env := make_env always always always.
Definition env_synthesis_down : env := make_env never always always.
Definition env_codegen_down : env := make_env always never always.

(** The same as [env_ok], with a validator that does not answer. *)
Definition env_validator_down : env :=
  mkEnv (isoformat env_ok) (dir_position env_ok)
    (analyze_html_structure env_ok) (analyze_html_visually env_ok)
    (coordinate_analysis env_ok) (generate_final_schema env_ok)
    (codegen_api env_ok) (fallback_body env_ok)
    (fun _ _ _ => Raise api_down)
    (re_sub_json_booleans env_ok) (execute_extraction_code env_ok)
    (analyze_content_fields env_ok)
    (generate_markdown_converter_code env_ok) (compile_error env_ok)
    (fix_markdown_converter_syntax env_ok) (repr_container env_ok)
    (run_markdown_converter env_ok).

(** An existing, empty output root. *)
Definition fresh : world := mkWorld (Some []) 0 [] [].


(** A world with one empty slot, and a value to store in it. *)
Definition one_slot : world :=
  mkWorld (Some [("flow1", NDir empty_slot)]) 0 [] [].

Definition sample_value : json :=
  JDict [("sections", JList [JStr "title"; JNum 2])].

(** A slot that holds a checkpoint, and the record of a later one. *)
Definition old_checkpoint : json :=
  CheckpointManager.checkpoint_record "schema" "T1"
    (JDict [("schema", schema_doc)]) JNull.

Definition new_checkpoint : json :=
  CheckpointManager.checkpoint_record "code_generated" "T2"
    (JDict [("schema", schema_doc); ("code", JStr "pass")]) JNull.

Definition slot_with (checkpoint : json) : slot :=
  mkSlot [("checkpoint.json", Utf8 (Json.dumps 2 checkpoint))] None None.

Definition checkpointed_root : option listing :=
  Some [("flow1", NDir (slot_with old_checkpoint))].

(** Two slots that both hold validated code, listed with the higher
    number first. *)
Definition validated (code : string) : json :=
  CheckpointManager.checkpoint_record "code_validated" "T0"
    (JDict [("code", JStr code);
            ("validation", validation_json clean_validation);
            ("schema", schema_doc)]) JNull.

Definition two_validated : world :=
  mkWorld
    (Some [("flow7", NDir (slot_with (validated "later attempt")));
           ("flow3", NDir (slot_with (validated "earlier attempt")))])
    0 [] [].

(** Two slots that both hold a schema checkpoint, listed in ascending
    order. *)
Definition schema_at (name : string) : json :=
  CheckpointManager.checkpoint_record "schema" "T0"
    (JDict [("schema", JDict [("description", JStr name)])]) JNull.

Definition two_schemas : world :=
  mkWorld
    (Some [("flow3", NDir (slot_with (schema_at "earlier attempt")));
           ("flow7", NDir (slot_with (schema_at "later attempt")))])
    0 [] [].

(** A slot that holds a Markdown converter. *)
Definition converted : json :=
  CheckpointManager.checkpoint_record "markdown_converted" "T0"
    (JDict [("content_analysis",
             JDict [("main_content_fields", JList [JStr "title"])]);
            ("markdown_converter_code", JStr "class MarkdownConverter: pass");
            ("json_files_count", JNum 1)]) JNull.

Definition one_converted : world :=
  mkWorld (Some [("flow7", NDir (slot_with converted))]) 0 [] [].

End Example.

(** * Properties *)

(** ** Part 14. Text and JSON: the round trip of [dumps] and [loads] *)

Section JsonInduction.

Variable P : json -> Prop.
Hypothesis Hnull : P JNull.
Hypothesis Hbool : forall b, P (JBool b).
Hypothesis Hnum : forall z, P (JNum z).
Hypothesis Hfloat : forall lit, P (JFloat lit).
Hypothesis Hstr : forall s, P (JStr s).
Hypothesis Hlist : forall l, Forall P l -> P (JList l).
Hypothesis Hdict :
  forall kv, Forall (fun e => P (snd e)) kv -> P (JDict kv).

(** Induction on a value, with the property for the items of a list and
    for the values of a dict. *)
Fixpoint json_induction (v : json) : P v :=
  match v with
  | JNull => Hnull
  | JBool b => Hbool b
  | JNum z => Hnum z
  | JFloat lit => Hfloat lit
  | JStr s => Hstr s
  | JList l =>
      Hlist l
        ((fix go (l : list json) : Forall P l :=
            match l with
            | [] => Forall_nil P
            | x :: r => Forall_cons x (json_induction x) (go r)
            end) l)
  | JDict kv =>
      Hdict kv
        ((fix go (l : list (string * json))
            : Forall (fun e => P (snd e)) l :=
            match l with
            | [] => Forall_nil _
            | e :: r =>
                Forall_cons (P := fun e => P (snd e)) e
                  (json_induction (snd e)) (go r)
            end) kv)
  end.

End JsonInduction.

Lemma append_assoc (a b c : string) : (a ++ b) ++ c = a ++ (b ++ c).
Proof.
  induction a as [|x a IH]; simpl; [reflexivity|]. now rewrite IH.
Qed.

Lemma append_empty_r (a : string) : a ++ EmptyString = a.
Proof.
  induction a as [|x a IH]; simpl; [reflexivity|]. now rewrite IH.
Qed.

Lemma length_append (a b : string) :
  String.length (a ++ b) = String.length a + String.length b.
Proof.
  induction a as [|x a IH]; simpl; [reflexivity|]. now rewrite IH.
Qed.

Lemma skip_ws_spaces (n : nat) (s : string) :
  Json.skip_ws (Text.spaces n ++ s) = Json.skip_ws s.
Proof.
  induction n as [|n IH]; simpl; [reflexivity|]. exact IH.
Qed.

Lemma skip_ws_newline_indent (indent level : nat) (s : string) :
  Json.skip_ws (Json.newline_indent indent level ++ s) = Json.skip_ws s.
Proof.
  unfold Json.newline_indent. simpl. apply skip_ws_spaces.
Qed.

(** Scanning one escaped character gives the character back. *)
Lemma scan_escape_char (c : ascii) (t : string) :
  Json.scan_string (Json.escape_char c ++ t) =
  match Json.scan_string t with
  | Some (u, r) => Some (String c u, r)
  | None => None
  end.
Proof.
  destruct c as [[] [] [] [] [] [] [] []]; reflexivity.
Qed.

Lemma scan_escape (s rest : string) :
  Json.scan_string (Json.escape s ++ String Text.dq rest) = Some (s, rest).
Proof.
  induction s as [|c s IH].
  - reflexivity.
  - cbn [Json.escape]. rewrite append_assoc, scan_escape_char, IH.
    reflexivity.
Qed.

Lemma scan_encoded (s rest : string) :
  Json.scan_string
    (match Json.encode_basestring s ++ rest with
     | String _ r => r
     | EmptyString => EmptyString
     end) = Some (s, rest).
Proof.
  unfold Json.encode_basestring. cbn [append].
  rewrite append_assoc. apply scan_escape.
Qed.

(** *** Numbers *)

Lemma digit_cases (c : ascii) :
  Text.is_digit c = true ->
  In c ["0"; "1"; "2"; "3"; "4"; "5"; "6"; "7"; "8"; "9"]%char.
Proof.
  destruct c as [[] [] [] [] [] [] [] []]; cbv; intros H;
    try discriminate H; tauto.
Qed.

Lemma span_digits_uint (u : Decimal.uint) (rest : string) :
  Text.starts_with_digit rest = false ->
  Text.span_digits (NilEmpty.string_of_uint u ++ rest)
  = (NilEmpty.string_of_uint u, rest).
Proof.
  intros Hrest. induction u; cbn [NilEmpty.string_of_uint append];
    try (cbn [Text.span_digits];
         change (Text.is_digit _) with true; cbv iota;
         rewrite IHu; reflexivity).
  destruct rest as [|c r]; [reflexivity|].
  cbn in Hrest |- *. rewrite Hrest. reflexivity.
Qed.

Lemma N_of_digits_str (n : N) : Text.N_of_digits (Text.str_of_N n) = Some n.
Proof.
  unfold Text.N_of_digits, Text.str_of_N.
  rewrite NilEmpty.usu, DecimalN.Unsigned.of_to. reflexivity.
Qed.

(** The decimal form of a positive number starts with a non-zero digit. *)
Lemma str_of_pos_head (p : positive) :
  exists c t, Text.str_of_N (Npos p) = String c t
              /\ Text.is_digit c = true /\ Ascii.eqb c "0" = false.
Proof.
  unfold Text.str_of_N. cbn [N.to_uint].
  pose proof (DecimalPos.Unsigned.to_uint_nonnil p) as Hnil.
  pose proof (DecimalPos.Unsigned.to_uint_nonzero p) as Hzero.
  assert (Hnorm : Decimal.unorm (Pos.to_uint p) = Pos.to_uint p).
  { rewrite <- (DecimalPos.Unsigned.to_of (Pos.to_uint p)).
    rewrite DecimalPos.Unsigned.of_to. reflexivity. }
  destruct (Pos.to_uint p) as [|u|u|u|u|u|u|u|u|u|u] eqn:Hu;
    try (eexists; eexists; repeat split; reflexivity).
  - contradiction.
  - exfalso. rewrite DecimalFacts.unorm_D0 in Hnorm.
    unfold Decimal.unorm in Hnorm.
    destruct (Decimal.nzhead u) eqn:Hz;
      apply (DecimalFacts.nzhead_nonzero u u); congruence.
Qed.

Lemma delimited_no_digit (rest : string) :
  Spec.delimited rest = true -> Text.starts_with_digit rest = false.
Proof.
  destruct rest as [|c r]; [reflexivity|]. cbn.
  destruct (Text.is_digit c); [discriminate|reflexivity].
Qed.

Lemma scan_number_tail_delimited (neg : bool) (ds rest : string) :
  Spec.delimited rest = true ->
  Json.scan_number_tail neg ds rest =
  match Text.N_of_digits ds with
  | Some n => Some (JNum (if neg then Z.opp (Z.of_N n) else Z.of_N n), rest)
  | None => None
  end.
Proof.
  destruct rest as [|c r]; [reflexivity|].
  destruct c as [[] [] [] [] [] [] [] []]; intros H;
    try discriminate H; reflexivity.
Qed.

Lemma scan_digits (neg : bool) (p : positive) (rest : string) :
  Spec.delimited rest = true ->
  match Text.str_of_N (Npos p) ++ rest with
  | String c r =>
      if Ascii.eqb c "0" then Json.scan_number_tail neg "0" r
      else if Text.is_digit c then
        let (ds, r') := Text.span_digits (Text.str_of_N (Npos p) ++ rest) in
        Json.scan_number_tail neg ds r'
      else None
  | EmptyString => None
  end = Some (JNum (if neg then Zneg p else Zpos p), rest).
Proof.
  intros Hrest.
  destruct (str_of_pos_head p) as (c & t & Hs & Hd & Hz).
  rewrite Hs at 1. cbn [append]. rewrite Hz, Hd.
  unfold Text.str_of_N at 1.
  rewrite span_digits_uint by (apply delimited_no_digit; exact Hrest).
  rewrite scan_number_tail_delimited by exact Hrest.
  fold (Text.str_of_N (Npos p)). rewrite N_of_digits_str.
  destruct neg; reflexivity.
Qed.

Lemma scan_number_str (z : Z) (rest : string) :
  Spec.delimited rest = true ->
  Json.scan_number (Text.str_of_Z z ++ rest) = Some (JNum z, rest).
Proof.
  intros Hrest. destruct z as [|p|p].
  - cbn. rewrite scan_number_tail_delimited by exact Hrest. reflexivity.
  - cbn [Text.str_of_Z]. unfold Json.scan_number.
    destruct (str_of_pos_head p) as (c & t & Hs & Hd & Hz).
    assert (Hminus : Json.starts_with_char "-"
                       (Text.str_of_N (Npos p) ++ rest) = false).
    { rewrite Hs. cbn.
      destruct (digit_cases c Hd) as [<-|[<-|[<-|[<-|[<-|[<-|[<-|[<-|[<-|[<-|[]]]]]]]]]]];
        reflexivity. }
    rewrite Hminus. cbv zeta. apply (scan_digits false). exact Hrest.
  - cbn [Text.str_of_Z append]. unfold Json.scan_number.
    cbn [Json.starts_with_char Json.tail]. rewrite Ascii.eqb_refl. cbv zeta.
    apply (scan_digits true). exact Hrest.
Qed.

Lemma str_of_Z_head (z : Z) :
  exists c t, Text.str_of_Z z = String c t
              /\ (Text.is_digit c = true \/ c = "-"%char).
Proof.
  destruct z as [|p|p].
  - exists "0"%char, EmptyString. split; [reflexivity|left; reflexivity].
  - destruct (str_of_pos_head p) as (c & t & Hs & Hd & _).
    exists c, t. split; [exact Hs|left; exact Hd].
  - eexists; eexists. split; [reflexivity|right; reflexivity].
Qed.

Lemma parse_value_number (f : nat) (c : ascii) (t : string) :
  Text.is_digit c = true \/ c = "-"%char ->
  Json.parse_value (S f) (String c t) =
  match Json.scan_number (String c t) with
  | Some res => Some res
  | None => Json.scan_constant (String c t)
  end.
Proof.
  intros [Hd| ->]; [|reflexivity].
  destruct (digit_cases c Hd) as [<-|[<-|[<-|[<-|[<-|[<-|[<-|[<-|[<-|[<-|[]]]]]]]]]]];
    reflexivity.
Qed.

Lemma parse_value_num (f : nat) (z : Z) (rest : string) :
  Spec.delimited rest = true ->
  Json.parse_value (S f) (Text.str_of_Z z ++ rest) = Some (JNum z, rest).
Proof.
  intros Hrest.
  destruct (str_of_Z_head z) as (c & t & Hs & Hc).
  pose proof (scan_number_str z rest Hrest) as Hscan.
  rewrite Hs in Hscan |- *. cbn [append] in Hscan |- *.
  rewrite parse_value_number by exact Hc. rewrite Hscan. reflexivity.
Qed.

(** *** Lists and dicts *)

Lemma dump_list_eq (indent level : nat) (x : json) (xs : list json) :
  Json.dump indent level (JList (x :: xs)) =
  "[" ++ Json.newline_indent indent (S level)
  ++ Json.dump indent (S level) x
  ++ Spec.items_text indent (S level) xs
  ++ Json.newline_indent indent level ++ "]".
Proof.
  cbn [Json.dump]. do 3 f_equal. f_equal.
  induction xs as [|y ys IH]; [reflexivity|].
  cbn [Spec.items_text]. rewrite <- IH. reflexivity.
Qed.

Lemma dump_dict_eq (indent level : nat) (k : string) (x : json)
    (kv : list (string * json)) :
  Json.dump indent level (JDict ((k, x) :: kv)) =
  "{" ++ Json.newline_indent indent (S level)
  ++ Json.encode_basestring k ++ ": "
  ++ Json.dump indent (S level) x
  ++ Spec.members_text indent (S level) kv
  ++ Json.newline_indent indent level ++ "}".
Proof.
  cbn [Json.dump]. do 5 f_equal. f_equal.
  induction kv as [|[k' y] ys IH]; [reflexivity|].
  cbn [Spec.members_text]. rewrite <- IH. reflexivity.
Qed.

Lemma json_size_list (l : list json) :
  Spec.json_size (JList l) = S (Spec.sum_sizes l).
Proof.
  reflexivity.
Qed.

Lemma json_size_dict (kv : list (string * json)) :
  Spec.json_size (JDict kv) = S (Spec.sum_sizes (map snd kv)).
Proof.
  cbn [Spec.json_size]. f_equal.
  induction kv as [|[k x] r IH]; [reflexivity|].
  cbn [Spec.sum_sizes map snd]. rewrite <- IH. reflexivity.
Qed.

Lemma well_formed_list (l : list json) :
  Spec.well_formed (JList l) = Spec.all_well_formed l.
Proof.
  cbn [Spec.well_formed].
  induction l as [|x r IH]; [reflexivity|].
  cbn [Spec.all_well_formed]. rewrite <- IH. reflexivity.
Qed.

Lemma well_formed_dict (kv : list (string * json)) :
  Spec.well_formed (JDict kv) =
  Spec.distinct (map fst kv) && Spec.all_well_formed (map snd kv).
Proof.
  cbn [Spec.well_formed]. f_equal.
  induction kv as [|[k x] r IH]; [reflexivity|].
  cbn [Spec.all_well_formed map snd]. rewrite <- IH. reflexivity.
Qed.

Lemma json_size_pos (v : json) : 1 <= Spec.json_size v.
Proof.
  destruct v; cbn [Spec.json_size]; lia.
Qed.

(** The dump of a value starts with a character that starts a value. *)
Lemma dump_starts_value (indent level : nat) (v : json) (rest : string) :
  Spec.well_formed v = true ->
  Spec.starts_value (Json.dump indent level v ++ rest) = true.
Proof.
  destruct v as [|[]|z|lit|s|[|x xs]|[|[k x] kv]]; intros Hwf;
    try reflexivity; try discriminate Hwf.
  cbn [Json.dump].
  destruct (str_of_Z_head z) as (c & t & -> & [Hd| ->]); [|reflexivity].
  cbn [append].
  destruct (digit_cases c Hd) as [<-|[<-|[<-|[<-|[<-|[<-|[<-|[<-|[<-|[<-|[]]]]]]]]]]];
    reflexivity.
Qed.

Lemma starts_value_skip_ws (s : string) :
  Spec.starts_value s = true -> Json.skip_ws s = s.
Proof.
  destruct s as [|c r]; [reflexivity|]. cbn.
  destruct (Json.is_ws c); [discriminate|reflexivity].
Qed.

Lemma starts_value_not_bracket (s : string) :
  Spec.starts_value s = true -> Json.starts_with_char "]" s = false.
Proof.
  destruct s as [|c r]; [reflexivity|]. cbn.
  destruct (Json.is_ws c); [discriminate|]. cbn.
  destruct (Ascii.eqb c "]"); [discriminate|reflexivity].
Qed.

Lemma starts_value_not_brace (s : string) :
  Spec.starts_value s = true -> Json.starts_with_char "}" s = false.
Proof.
  destruct s as [|c r]; [reflexivity|]. cbn.
  destruct (Json.is_ws c); [discriminate|]. cbn.
  destruct (Ascii.eqb c "]"); [discriminate|]. cbn.
  destruct (Ascii.eqb c "}"); [discriminate|reflexivity].
Qed.

Lemma delimited_items (indent level level' : nat) (xs : list json)
    (close rest : string) :
  Spec.delimited
    (Spec.items_text indent level xs
     ++ Json.newline_indent indent level' ++ close ++ rest) = true.
Proof.
  destruct xs; reflexivity.
Qed.

Lemma delimited_members (indent level level' : nat)
    (kv : list (string * json)) (close rest : string) :
  Spec.delimited
    (Spec.members_text indent level kv
     ++ Json.newline_indent indent level' ++ close ++ rest) = true.
Proof.
  destruct kv as [|[k x] kv]; reflexivity.
Qed.

(** The statement of the round trip for one value. *)
Definition parses_back (v : json) : Prop :=
  Spec.well_formed v = true ->
  forall indent level fuel rest,
    Spec.json_size v <= fuel ->
    Spec.delimited rest = true ->
    Json.parse_value fuel (Json.dump indent level v ++ rest) = Some (v, rest).

Lemma items_text_cons (indent level : nat) (y : json) (ys : list json)
    (r : string) :
  Spec.items_text indent level (y :: ys) ++ r =
  String "," (Json.newline_indent indent level
              ++ Json.dump indent level y
              ++ Spec.items_text indent level ys ++ r).
Proof.
  cbn [Spec.items_text]. rewrite !append_assoc. reflexivity.
Qed.

Lemma members_text_cons (indent level : nat) (k : string) (y : json)
    (ys : list (string * json)) (r : string) :
  Spec.members_text indent level ((k, y) :: ys) ++ r =
  String "," (Json.newline_indent indent level
              ++ Json.encode_basestring k ++ ": "
              ++ Json.dump indent level y
              ++ Spec.members_text indent level ys ++ r).
Proof.
  cbn [Spec.members_text]. rewrite !append_assoc. reflexivity.
Qed.

Lemma parse_items_text (indent level : nat) (rest : string) :
  forall xs, Forall parses_back xs -> Spec.all_well_formed xs = true ->
  forall f acc x,
    parses_back x -> Spec.well_formed x = true ->
    Spec.sum_sizes (x :: xs) <= f ->
    Json.parse_items f
      (Json.dump indent (S level) x
       ++ Spec.items_text indent (S level) xs
       ++ Json.newline_indent indent level ++ "]" ++ rest) acc
    = Some (JList (rev acc ++ x :: xs)%list, rest).
Proof.
  induction xs as [|y ys IH]; intros Hall Hwfs f acc x Hx Hwf Hf;
    (destruct f as [|f]; [cbn in Hf; lia|]);
    cbn [Json.parse_items];
    rewrite (Hx Hwf) by (cbn in Hf; first [lia | apply delimited_items]);
    cbv zeta.
  - cbn [Spec.items_text append].
    change (String Text.nl (Text.spaces (indent * level) ++ String "]" rest))
      with (Json.newline_indent indent level ++ String "]" rest).
    rewrite skip_ws_newline_indent. reflexivity.
  - rewrite items_text_cons.
    change (Json.skip_ws (String "," ?s)) with (String "," s).
    cbn [Json.starts_with_char Json.tail].
    change (Ascii.eqb "," "]") with false.
    change (Ascii.eqb "," ",") with true. cbv iota.
    rewrite skip_ws_newline_indent.
    rewrite starts_value_skip_ws.
    2:{ apply dump_starts_value. cbn [Spec.all_well_formed] in Hwfs.
        apply andb_prop in Hwfs. tauto. }
    inversion Hall as [|? ? Hy Hys]; subst.
    cbn [Spec.all_well_formed] in Hwfs.
    apply andb_prop in Hwfs as [Hwy Hwys].
    rewrite (IH Hys Hwys f (x :: acc) y Hy Hwy).
    + cbn [rev]. rewrite <- List.app_assoc. reflexivity.
    + cbn [Spec.sum_sizes] in Hf |- *. lia.
Qed.

Lemma dict_set_fresh (k : string) (v : json) (d : list (string * json)) :
  existsb (String.eqb k) (map fst d) = false ->
  Json.dict_set k v d = (d ++ [(k, v)])%list.
Proof.
  induction d as [|[k' v'] r IH]; [reflexivity|].
  cbn [map fst existsb Json.dict_set app]. intros H.
  apply orb_false_elim in H as [Hk Hr].
  rewrite String.eqb_sym, Hk. rewrite IH by exact Hr. reflexivity.
Qed.

Lemma existsb_app_false (k : string) (a b : list string) :
  existsb (String.eqb k) (a ++ b)%list = false <->
  existsb (String.eqb k) a = false /\ existsb (String.eqb k) b = false.
Proof.
  rewrite existsb_app. apply orb_false_iff.
Qed.

(** [dict(pairs)] keeps a list of pairs whose keys are distinct. *)
Lemma dict_of_pairs_distinct (l : list (string * json)) :
  Spec.distinct (map fst l) = true -> Json.dict_of_pairs l = l.
Proof.
  unfold Json.dict_of_pairs.
  assert (H : forall acc,
             Spec.distinct (map fst l) = true ->
             (forall k, In k (map fst l) ->
                        existsb (String.eqb k) (map fst acc) = false) ->
             fold_left (fun d kv => Json.dict_set (fst kv) (snd kv) d) l acc
             = (acc ++ l)%list).
  { induction l as [|[k v] r IH]; intros acc Hd Hfresh.
    - cbn. now rewrite List.app_nil_r.
    - cbn [fold_left fst snd]. cbn [map fst Spec.distinct] in Hd.
      apply andb_prop in Hd as [Hk Hr].
      rewrite dict_set_fresh by (apply Hfresh; left; reflexivity).
      rewrite IH.
      + rewrite <- List.app_assoc. reflexivity.
      + exact Hr.
      + intros k' Hin. rewrite map_app. apply existsb_app_false. split.
        * apply Hfresh. right. exact Hin.
        * cbn. rewrite orb_false_r.
          destruct (String.eqb_spec k' k) as [->|]; [|reflexivity].
          apply negb_true_iff in Hk.
          exfalso. rewrite <- not_true_iff_false in Hk. apply Hk.
          apply existsb_exists. exists k. split; [exact Hin|].
          apply String.eqb_refl. }
  intros Hd. apply (H [] Hd). reflexivity.
Qed.

Lemma member_text_head (k : string) (r : string) :
  Json.encode_basestring k ++ ": " ++ r =
  String Text.dq
    (Json.escape k ++ String Text.dq (String ":" (String " " r))).
Proof.
  unfold Json.encode_basestring. cbn [append].
  rewrite append_assoc. reflexivity.
Qed.

Lemma parse_members_text (indent level : nat) (rest : string) :
  forall kv,
    Forall (fun e => parses_back (snd e)) kv ->
    Spec.all_well_formed (map snd kv) = true ->
  forall f acc k x,
    parses_back x -> Spec.well_formed x = true ->
    Spec.sum_sizes (x :: map snd kv) <= f ->
    Json.parse_members f
      (Json.encode_basestring k ++ ": "
       ++ Json.dump indent (S level) x
       ++ Spec.members_text indent (S level) kv
       ++ Json.newline_indent indent level ++ "}" ++ rest) acc
    = Some (JDict (Json.dict_of_pairs (rev acc ++ (k, x) :: kv)%list), rest).
Proof.
  induction kv as [|[k' y] ys IH]; intros Hall Hwfs f acc k x Hx Hwf Hf;
    (destruct f as [|f]; [cbn in Hf; lia|]);
    rewrite member_text_head;
    cbn [Json.parse_members Json.starts_with_char Json.tail];
    rewrite Ascii.eqb_refl, scan_escape;
    cbv zeta;
    change (Json.skip_ws (String ":" ?s)) with (String ":" s);
    cbn [Json.starts_with_char Json.tail];
    change (Ascii.eqb ":" ":") with true; cbv iota;
    change (Json.skip_ws (String " " ?s)) with (Json.skip_ws s);
    rewrite starts_value_skip_ws by (apply dump_starts_value; exact Hwf);
    rewrite (Hx Hwf) by (cbn in Hf; first [lia | apply delimited_members]).
  - cbn [Spec.members_text append].
    change (String Text.nl (Text.spaces (indent * level) ++ String "}" rest))
      with (Json.newline_indent indent level ++ String "}" rest).
    rewrite skip_ws_newline_indent.
    cbn [Json.skip_ws Json.is_ws Json.starts_with_char Json.tail].
    cbn. reflexivity.
  - rewrite members_text_cons.
    change (Json.skip_ws (String "," ?s)) with (String "," s).
    cbn [Json.starts_with_char Json.tail].
    change (Ascii.eqb "," "}") with false.
    change (Ascii.eqb "," ",") with true. cbv iota.
    rewrite skip_ws_newline_indent.
    change (Json.skip_ws (Json.encode_basestring k' ++ ?s))
      with (Json.encode_basestring k' ++ s).
    inversion Hall as [|? ? Hy Hys]; subst. cbn [snd] in Hy.
    cbn [Spec.all_well_formed map snd] in Hwfs.
    apply andb_prop in Hwfs as [Hwy Hwys].
    rewrite (IH Hys Hwys f ((k, x) :: acc) k' y Hy Hwy).
    + cbn [rev]. rewrite <- List.app_assoc. reflexivity.
    + cbn [Spec.sum_sizes map snd] in Hf |- *. lia.
Qed.

(** Parsing the dump of a value gives the value and what followed it. *)
Lemma parse_dump (v : json) : parses_back v.
Proof.
  induction v using json_induction; unfold parses_back;
    intros Hwf indent level fuel rest Hfuel Hrest.
  - destruct fuel; [cbn in Hfuel; lia|]. reflexivity.
  - destruct fuel; [cbn in Hfuel; lia|]. destruct b; reflexivity.
  - destruct fuel; [cbn in Hfuel; lia|].
    apply parse_value_num. exact Hrest.
  - discriminate Hwf.
  - destruct fuel; [cbn in Hfuel; lia|].
    unfold Json.dump, Json.encode_basestring.
    cbn [append Json.parse_value]. rewrite Ascii.eqb_refl.
    rewrite append_assoc. cbn [append Text.str1].
    rewrite scan_escape. reflexivity.
  - destruct l as [|x xs].
    + destruct fuel; [cbn in Hfuel; lia|]. reflexivity.
    + rewrite json_size_list in Hfuel.
      destruct fuel as [|f]; [lia|].
      rewrite well_formed_list in Hwf. cbn [Spec.all_well_formed] in Hwf.
      apply andb_prop in Hwf as [Hwx Hwxs].
      inversion H as [|? ? Hx Hxs]; subst.
      rewrite dump_list_eq, !append_assoc.
      cbn [append Json.parse_value].
      change (Ascii.eqb "[" Text.dq) with false.
      change (Ascii.eqb "[" "{") with false.
      change (Ascii.eqb "[" "[") with true. cbv iota zeta.
      rewrite skip_ws_newline_indent.
      rewrite starts_value_skip_ws by (apply dump_starts_value; exact Hwx).
      rewrite starts_value_not_bracket
        by (apply dump_starts_value; exact Hwx).
      apply (parse_items_text indent level rest xs Hxs Hwxs f [] x Hx Hwx).
      lia.
  - destruct kv as [|[k x] kv].
    + destruct fuel; [cbn in Hfuel; lia|]. reflexivity.
    + rewrite json_size_dict in Hfuel.
      destruct fuel as [|f]; [lia|].
      rewrite well_formed_dict in Hwf.
      apply andb_prop in Hwf as [Hkeys Hwf].
      cbn [Spec.all_well_formed map snd] in Hwf.
      apply andb_prop in Hwf as [Hwx Hwxs].
      inversion H as [|? ? Hx Hxs]; subst. cbn [snd] in Hx.
      rewrite dump_dict_eq, !append_assoc.
      cbn [append Json.parse_value].
      change (Ascii.eqb "{" Text.dq) with false.
      change (Ascii.eqb "{" "{") with true. cbv iota zeta.
      rewrite skip_ws_newline_indent.
      change (Json.skip_ws (Json.encode_basestring k ++ ?s))
        with (Json.encode_basestring k ++ s).
      change (Json.starts_with_char "}" (Json.encode_basestring k ++ ?s))
        with false. cbv iota.
      assert (Hle : Spec.sum_sizes (x :: map snd kv) <= f)
        by (cbn [map snd] in Hfuel; lia).
      pose proof (parse_members_text indent level rest kv Hxs Hwxs f [] k x
                    Hx Hwx Hle) as Hm.
      cbn [append] in Hm |- *. rewrite Hm.
      cbn [rev app]. rewrite dict_of_pairs_distinct by exact Hkeys.
      reflexivity.
Qed.

Lemma length_newline_indent (indent level : nat) :
  1 <= String.length (Json.newline_indent indent level).
Proof.
  unfold Json.newline_indent. cbn [String.length]. lia.
Qed.

(** The dump of a value is at least as long as the fuel it needs. *)
Lemma json_size_le_length (v : json) :
  Spec.well_formed v = true ->
  forall indent level,
    Spec.json_size v <= String.length (Json.dump indent level v).
Proof.
  induction v using json_induction; intros Hwf indent level.
  - cbn. lia.
  - destruct b; cbn; lia.
  - cbn [Json.dump Spec.json_size].
    destruct (str_of_Z_head z) as (c & t & -> & _). cbn. lia.
  - discriminate Hwf.
  - cbn. lia.
  - destruct l as [|x xs]; [cbn; lia|].
    rewrite json_size_list, dump_list_eq, !length_append.
    rewrite well_formed_list in Hwf. cbn [Spec.all_well_formed] in Hwf.
    apply andb_prop in Hwf as [Hwx Hwxs].
    inversion H as [|? ? Hx Hxs]; subst.
    assert (Hitems : Spec.sum_sizes xs
                     <= String.length (Spec.items_text indent (S level) xs)).
    { clear Hx Hwx H. induction xs as [|y ys IH]; [cbn; lia|].
      cbn [Spec.all_well_formed] in Hwxs.
      apply andb_prop in Hwxs as [Hwy Hwys].
      inversion Hxs as [|? ? Hy Hys]; subst.
      cbn [Spec.sum_sizes Spec.items_text]. rewrite !length_append.
      specialize (IH Hwys Hys). specialize (Hy Hwy indent (S level)).
      pose proof (length_newline_indent indent (S level)).
      cbn [String.length]. lia. }
    specialize (Hx Hwx indent (S level)).
    cbn [Spec.sum_sizes String.length]. lia.
  - destruct kv as [|[k x] kv]; [cbn; lia|].
    rewrite json_size_dict, dump_dict_eq, !length_append.
    rewrite well_formed_dict in Hwf.
    apply andb_prop in Hwf as [_ Hwf].
    cbn [Spec.all_well_formed map snd] in Hwf.
    apply andb_prop in Hwf as [Hwx Hwxs].
    inversion H as [|? ? Hx Hxs]; subst. cbn [snd] in Hx.
    assert (Hmembers : Spec.sum_sizes (map snd kv)
                       <= String.length
                            (Spec.members_text indent (S level) kv)).
    { clear Hx Hwx H. induction kv as [|[k' y] ys IH]; [cbn; lia|].
      cbn [Spec.all_well_formed map snd] in Hwxs.
      apply andb_prop in Hwxs as [Hwy Hwys].
      inversion Hxs as [|? ? Hy Hys]; subst. cbn [snd] in Hy.
      cbn [Spec.sum_sizes Spec.members_text map snd].
      rewrite !length_append.
      specialize (IH Hwys Hys). specialize (Hy Hwy indent (S level)).
      cbn [String.length]. lia. }
    specialize (Hx Hwx indent (S level)).
    cbn [Spec.sum_sizes String.length map snd]. lia.
Qed.

(** [json.loads(json.dumps(v, indent=k, ensure_ascii=False)) == v] *)
Lemma loads_dumps (indent : nat) (v : json) :
  Spec.well_formed v = true -> Json.loads (Json.dumps indent v) = Some v.
Proof.
  intros Hwf. unfold Json.loads, Json.dumps.
  pose proof (dump_starts_value indent 0 v EmptyString Hwf) as Hstart.
  rewrite append_empty_r in Hstart.
  rewrite starts_value_skip_ws by exact Hstart.
  pose proof (parse_dump v Hwf indent 0
                (S (String.length (Json.dump indent 0 v))) EmptyString) as Hp.
  rewrite append_empty_r in Hp. rewrite Hp.
  - reflexivity.
  - pose proof (json_size_le_length v Hwf indent 0). lia.
  - reflexivity.
Qed.

(** ** Part 15. The run directory allocator *)

Lemma existing_flows_in (l : listing) (n : Z) :
  In n (Settings.existing_flows l) <->
  exists name d,
    In (name, NDir d) l /\ Text.startswith "flow" name = true
    /\ Settings.py_int (Text.drop 4 name) = Some n.
Proof.
  induction l as [|[name nd] r IH].
  - cbn. split; [tauto|]. intros (name & d & [] & _).
  - cbn [Settings.existing_flows]. unfold Settings.flow_num at 1.
    cbn [fst snd]. split.
    + intros Hin.
      assert (Hrest : In n (Settings.existing_flows r) ->
                      exists name0 d,
                        In (name0, NDir d) ((name, nd) :: r)
                        /\ Text.startswith "flow" name0 = true
                        /\ Settings.py_int (Text.drop 4 name0) = Some n).
      { intros Hr. apply IH in Hr as (name' & d & Hin' & Hs & Hi).
        exists name', d. repeat split; auto. right. exact Hin'. }
      destruct nd as [f|d]; [auto|].
      destruct (Text.startswith "flow" name) eqn:Hs; [|auto].
      destruct (Settings.py_int (Text.drop 4 name)) as [m|] eqn:Hi; [|auto].
      destruct Hin as [<-|Hin]; [|auto].
      exists name, d. repeat split; auto. left. reflexivity.
    + intros (name' & d' & Hin & Hs & Hi).
      destruct Hin as [Heq|Hin].
      * inversion Heq; subst. rewrite Hs, Hi. left. reflexivity.
      * assert (Hr : In n (Settings.existing_flows r)).
        { apply IH. exists name', d'. repeat split; auto. }
        destruct nd as [f|d]; [exact Hr|].
        destruct (Text.startswith "flow" name); [|exact Hr].
        destruct (Settings.py_int (Text.drop 4 name)); [|exact Hr].
        right. exact Hr.
Qed.


Lemma py_max_spec (l : list Z) :
  forall x, In (Settings.py_max x l) (x :: l)
            /\ forall y, In y (x :: l) -> (y <= Settings.py_max x l)%Z.
Proof.
  induction l as [|z r IH]; intros x.
  - cbn. split; [left; reflexivity|]. intros y [<-|[]]. lia.
  - cbn [Settings.py_max].
    destruct (IH (if Z.ltb x z then z else x)) as [Hin Hmax]. split.
    + destruct Hin as [Heq|Hin].
      * rewrite <- Heq. destruct (Z.ltb x z); [right; left|left]; reflexivity.
      * right. right. exact Hin.
    + intros y Hy.
      assert (Hx : ((if Z.ltb x z then z else x)
                    <= Settings.py_max (if Z.ltb x z then z else x) r)%Z)
        by (apply Hmax; left; reflexivity).
      destruct Hy as [Hy|[Hy|Hy]].
      * subst y. revert Hx. destruct (Z.ltb_spec x z); lia.
      * subst y. revert Hx. destruct (Z.ltb_spec x z); lia.
      * apply Hmax. right. exact Hy.
Qed.


(** ** Part 16. The artifact store *)

(** Unfold the monad on a computation that has been reduced to its
    primitive actions. *)
Ltac run_monad :=
  cbv beta iota zeta delta
    [bind ret raise try_except lift gets modify W assign
     Act.tick Act.emit Act.logger Act.exists_file Act.read_text
     Act.json_load].

Lemma load_checkpoint_eq (dir : string) (w : world) :
  CheckpointManager.load_checkpoint dir w =
  Spec.load_checkpoint_outcome w
    (Fs.file_of (root w) dir CheckpointManager.CHECKPOINT_FILE).
Proof.
  unfold CheckpointManager.load_checkpoint, Spec.load_checkpoint_outcome.
  run_monad.
  destruct (Fs.file_of (root w) dir CheckpointManager.CHECKPOINT_FILE)
    as [[text|]|] eqn:Hfile;
    cbn [negb Spec.decoded Spec.load_failure]; cbv beta iota;
    rewrite ?Hfile; try reflexivity.
  destruct (Json.loads text) as [v|] eqn:Hload; [|reflexivity].
  destruct v as [|b|z|lit|s|l|kv]; try reflexivity.
  cbn [Py.get]. unfold CodeGenerator.item.
  destruct (Py.lookup "step" kv), (Py.lookup "timestamp" kv); reflexivity.
Qed.


(** *** The files of a slot *)

Lemma lookup_update_eq {A : Type} (n : string) (x : A)
    (l : list (string * A)) :
  Fs.lookup n (Fs.update n x l) = Some x.
Proof.
  induction l as [|[m y] r IH]; cbn.
  - now rewrite String.eqb_refl.
  - destruct (String.eqb m n) eqn:E; cbn; rewrite E; auto.
Qed.

Lemma lookup_update_ne {A : Type} (n m : string) (x : A)
    (l : list (string * A)) :
  n <> m -> Fs.lookup m (Fs.update n x l) = Fs.lookup m l.
Proof.
  intros Hne. induction l as [|[k y] r IH]; cbn.
  - apply String.eqb_neq in Hne. now rewrite Hne.
  - destruct (String.eqb k n) eqn:E; cbn.
    + apply String.eqb_eq in E. subst k.
      apply String.eqb_neq in Hne. now rewrite Hne.
    + destruct (String.eqb k m); auto.
Qed.

Lemma update_update {A : Type} (n : string) (x y : A)
    (l : list (string * A)) :
  Fs.update n y (Fs.update n x l) = Fs.update n y l.
Proof.
  induction l as [|[m z] r IH]; cbn.
  - now rewrite String.eqb_refl.
  - destruct (String.eqb m n) eqn:E; cbn; rewrite E; [reflexivity|].
    now rewrite IH.
Qed.

Lemma slot_of_some (r : option listing) (dir : string) (d : slot) :
  Fs.slot_of r dir = Some d ->
  exists l, r = Some l /\ Fs.lookup dir l = Some (NDir d).
Proof.
  unfold Fs.slot_of. destruct r as [l|]; [|discriminate].
  destruct (Fs.lookup dir l) as [[f|d']|] eqn:Hl; try discriminate.
  intros [= ->]. exists l. split; [reflexivity|exact Hl].
Qed.

Lemma slot_of_put_slot_eq (r : option listing) (dir : string) (d d' : slot) :
  Fs.slot_of r dir = Some d ->
  Fs.slot_of (Fs.put_slot r dir d') dir = Some d'.
Proof.
  intros H. apply slot_of_some in H as (l & -> & _).
  unfold Fs.slot_of, Fs.put_slot. now rewrite lookup_update_eq.
Qed.

Lemma slot_of_put_slot_ne (r : option listing) (dir other : string)
    (d' : slot) :
  dir <> other ->
  Fs.slot_of (Fs.put_slot r dir d') other = Fs.slot_of r other.
Proof.
  intros Hne. destruct r as [l|]; [|reflexivity].
  unfold Fs.slot_of, Fs.put_slot. now rewrite lookup_update_ne.
Qed.

Lemma apply_write_ops (r : option listing) (dir name text : string)
    (d : slot) :
  Fs.slot_of r dir = Some d ->
  Fs.apply_ops (Fs.write_ops dir name text) r
  = Ok (Spec.written r dir name text).
Proof.
  intros Hd. unfold Fs.write_ops, Spec.written. cbn [Fs.apply_ops Fs.apply_op].
  rewrite Hd. rewrite (slot_of_put_slot_eq r dir d _ Hd).
  cbn [files Fs.set_files]. rewrite lookup_update_eq. cbn [append].
  apply slot_of_some in Hd as (l & -> & Hl).
  unfold Fs.put_slot. rewrite update_update.
  cbn [Fs.set_files files extraction_results markdown_output].
  rewrite update_update. reflexivity.
Qed.

Lemma apply_write_ops_missing (r : option listing) (dir name text : string) :
  Fs.slot_of r dir = None ->
  Fs.apply_ops (Fs.write_ops dir name text) r
  = Raise (mkExn FileNotFoundError (dir ++ "/" ++ name)).
Proof.
  intros Hd. unfold Fs.write_ops. cbn [Fs.apply_ops Fs.apply_op].
  rewrite Hd. reflexivity.
Qed.

Lemma write_text_ok (dir name text : string) (w : world) (d : slot) :
  Fs.slot_of (root w) dir = Some d ->
  Act.write_text dir name text w
  = (Ok tt, set_root w (Spec.written (root w) dir name text)).
Proof.
  intros Hd. pose proof (apply_write_ops _ dir name text d Hd) as Hops.
  unfold Act.write_text, Fs.write_ops in *.
  cbn [Fs.apply_ops] in Hops. cbn [Act.run_ops]. run_monad.
  destruct (Fs.apply_op (Fs.OpenTruncate dir name) (root w)) as [r1|e];
    [|discriminate Hops].
  cbn [root set_root].
  destruct (Fs.apply_op (Fs.Write dir name text) r1) as [r2|e];
    [|discriminate Hops].
  inversion Hops; subst. reflexivity.
Qed.

Lemma write_text_missing (dir name text : string) (w : world) :
  Fs.slot_of (root w) dir = None ->
  Act.write_text dir name text w
  = (Raise (mkExn FileNotFoundError (dir ++ "/" ++ name)), w).
Proof.
  intros Hd. unfold Act.write_text, Fs.write_ops.
  cbn [Act.run_ops Fs.apply_op]. run_monad.
  cbn [Fs.apply_op]. rewrite Hd. reflexivity.
Qed.

Lemma file_of_written_eq (r : option listing) (dir name text : string)
    (d : slot) :
  Fs.slot_of r dir = Some d ->
  Fs.file_of (Spec.written r dir name text) dir name = Some (Utf8 text).
Proof.
  intros Hd. unfold Spec.written, Fs.file_of. rewrite Hd.
  rewrite (slot_of_put_slot_eq r dir d _ Hd).
  cbn [files Fs.set_files]. apply lookup_update_eq.
Qed.



Lemma save_step_result_eq (dir step_name : string) (v : json)
    (filename : option string) (w : world) :
  let name := CheckpointManager.result_filename step_name filename in
  CheckpointManager.save_step_result dir step_name v filename w =
  match Fs.slot_of (root w) dir with
  | Some _ =>
      (Ok (Some (dir ++ "/" ++ name)),
       Spec.add_log
         (set_root w
            (Spec.written (root w) dir name (Spec.step_result_text v)))
         ("info", "Step result saved: {}", [JStr (dir ++ "/" ++ name)]))
  | None =>
      (Ok None,
       Spec.add_log w
         ("error", "Failed to save step result: {}",
          [JStr (dir ++ "/" ++ name)]))
  end.
Proof.
  intros name. unfold CheckpointManager.save_step_result. fold name.
  assert (Hw : forall text,
             Act.write_text dir name text w =
             match Fs.slot_of (root w) dir with
             | Some _ =>
                 (Ok tt, set_root w (Spec.written (root w) dir name text))
             | None =>
                 (Raise (mkExn FileNotFoundError (dir ++ "/" ++ name)), w)
             end).
  { intros text. destruct (Fs.slot_of (root w) dir) as [d|] eqn:Hd.
    - apply (write_text_ok dir name text w d Hd).
    - apply (write_text_missing dir name text w Hd). }
  unfold try_except, bind at 1.
  destruct v; unfold bind at 1; rewrite Hw;
    destruct (Fs.slot_of (root w) dir); reflexivity.
Qed.

Lemma load_step_result_eq (dir step_name : string)
    (filename : option string) (w : world) :
  let name := CheckpointManager.result_filename step_name filename in
  CheckpointManager.load_step_result dir step_name filename w =
  match Fs.file_of (root w) dir name with
  | None => (Ok JNull, w)
  | Some (Utf8 text) =>
      if Text.endswith ".json" name then
        match Json.loads text with
        | Some v => (Ok v, w)
        | None =>
            (Ok JNull,
             Spec.add_log w
               ("error", "Failed to load step result '{}': {}",
                [JStr step_name; JStr "Expecting value"]))
        end
      else (Ok (JStr text), w)
  | Some Undecodable =>
      (Ok JNull,
       Spec.add_log w
         ("error", "Failed to load step result '{}': {}",
          [JStr step_name; JStr "'utf-8' codec can't decode byte"]))
  end.
Proof.
  intros name. unfold CheckpointManager.load_step_result. fold name.
  run_monad.
  destruct (Fs.file_of (root w) dir name) as [[text|]|] eqn:Hfile;
    cbn [negb]; cbv beta iota; [| |destruct w; reflexivity].
  - destruct (Text.endswith ".json" name); cbv beta iota;
      rewrite Hfile; [|destruct w; reflexivity].
    destruct (Json.loads text); [destruct w|]; reflexivity.
  - destruct (Text.endswith ".json" name); cbv beta iota;
      rewrite Hfile; reflexivity.
Qed.



(** A str that is not JSON text is stored and comes back as [None]; one
    that is JSON text comes back parsed. *)
Example step_result_of_text :
  fst (CheckpointManager.load_step_result "flow1" "step5_code" None
         (snd (CheckpointManager.save_step_result "flow1" "step5_code"
                 (JStr "class HTMLExtractor: pass") None Example.one_slot)))
  = Ok JNull
  /\ fst (CheckpointManager.load_step_result "flow1" "step5_code" None
            (snd (CheckpointManager.save_step_result "flow1" "step5_code"
                    (JStr "[1, 2]") None Example.one_slot)))
     = Ok (JList [JNum 1; JNum 2]).
Proof.
  split; vm_compute; reflexivity.
Qed.

(** *** Writing a checkpoint *)

Lemma file_of_written_ne (r : option listing) (dir name other : string)
    (text : string) :
  name <> other ->
  Fs.file_of (Spec.written r dir name text) dir other
  = Fs.file_of r dir other.
Proof.
  intros Hne. unfold Spec.written, Fs.file_of.
  destruct (Fs.slot_of r dir) as [d|] eqn:Hd; [|now rewrite Hd].
  rewrite (slot_of_put_slot_eq r dir d _ Hd).
  cbn [files Fs.set_files]. now apply lookup_update_ne.
Qed.

Lemma file_of_written_other_dir (r : option listing)
    (dir name dir' other : string) (text : string) :
  dir <> dir' ->
  Fs.file_of (Spec.written r dir name text) dir' other
  = Fs.file_of r dir' other.
Proof.
  intros Hne. unfold Spec.written, Fs.file_of.
  destruct (Fs.slot_of r dir) as [d|] eqn:Hd; [|reflexivity].
  now rewrite slot_of_put_slot_ne.
Qed.

(** C2, as the code has it.  [save_checkpoint] writes [checkpoint.json] in
    place, in two steps: [open(path, 'w')] empties the file, then the
    serialised record is written to it; no other file of the slot is
    touched (there is no temporary file and no rename).  A process that
    stops between the two steps leaves an empty checkpoint file, whatever
    the slot held before, and [load_checkpoint] then returns [None]; a
    process that completes both steps leaves exactly the new record. *)
Theorem save_checkpoint_in_place (dir : string) (checkpoint : json)
    (r : option listing) (d : slot) :
  Fs.slot_of r dir = Some d ->
  let ops := CheckpointManager.save_checkpoint_ops dir checkpoint in
  let file := CheckpointManager.CHECKPOINT_FILE in
  Fs.crash_after 0 ops r = Ok r
  /\ (exists r1,
        Fs.crash_after 1 ops r = Ok r1
        /\ Fs.file_of r1 dir file = Some (Utf8 EmptyString)
        /\ (forall w, root w = r1 ->
              exists w', CheckpointManager.load_checkpoint dir w
                         = (Ok JNull, w'))
        /\ (forall name, file <> name ->
              Fs.file_of r1 dir name = Fs.file_of r dir name))
  /\ (exists r2,
        (forall k, 2 <= k -> Fs.crash_after k ops r = Ok r2)
        /\ Fs.file_of r2 dir file = Some (Utf8 (Json.dumps 2 checkpoint))
        /\ (forall name, file <> name ->
              Fs.file_of r2 dir name = Fs.file_of r dir name)).
Proof.
  intros Hd ops file. split; [reflexivity|]. split.
  - exists (Spec.written r dir file EmptyString). repeat split.
    + unfold ops, CheckpointManager.save_checkpoint_ops, Fs.write_ops.
      cbn [Fs.crash_after firstn Fs.apply_ops Fs.apply_op].
      fold file. rewrite Hd. unfold Spec.written. rewrite Hd. reflexivity.
    + apply (file_of_written_eq r dir file EmptyString d Hd).
    + intros w Hw. rewrite load_checkpoint_eq. fold file. rewrite Hw.
      rewrite (file_of_written_eq r dir file EmptyString d Hd).
      eexists. reflexivity.
    + intros name Hne. now apply file_of_written_ne.
  - exists (Spec.written r dir file (Json.dumps 2 checkpoint)). repeat split.
    + intros k Hk. destruct k as [|[|k]]; try lia.
      unfold ops, CheckpointManager.save_checkpoint_ops, Fs.crash_after.
      fold file. unfold Fs.write_ops. cbn [firstn].
      replace (firstn k (@nil Fs.op)) with (@nil Fs.op)
        by (destruct k; reflexivity).
      apply (apply_write_ops r dir file _ d Hd).
    + apply (file_of_written_eq r dir file _ d Hd).
    + intros name Hne. now apply file_of_written_ne.
Qed.

Lemma save_checkpoint_in_place_witness :
  exists r1,
    Fs.crash_after 1
      (CheckpointManager.save_checkpoint_ops "flow1" Example.new_checkpoint)
      Example.checkpointed_root = Ok r1
    /\ Fs.file_of r1 "flow1" CheckpointManager.CHECKPOINT_FILE
       = Some (Utf8 EmptyString).
Proof.
  destruct (save_checkpoint_in_place "flow1" Example.new_checkpoint
              Example.checkpointed_root
              (Example.slot_with Example.old_checkpoint) eq_refl)
    as (_ & (r1 & H1 & H2 & _) & _).
  exists r1. split; assumption.
Defined.

(** C2, as the claim states it, fails: when the process stops after
    [open(path, 'w')], the checkpoint that the slot held is neither left
    intact nor replaced by the new one; the file is empty, and a later
    [load_checkpoint] finds no checkpoint where there was one. *)
Lemma save_checkpoint_not_atomic :
  exists r1,
    Fs.crash_after 1
      (CheckpointManager.save_checkpoint_ops "flow1" Example.new_checkpoint)
      Example.checkpointed_root = Ok r1
    /\ Fs.file_of r1 "flow1" "checkpoint.json"
       <> Fs.file_of Example.checkpointed_root "flow1" "checkpoint.json"
    /\ Fs.file_of r1 "flow1" "checkpoint.json"
       <> Some (Utf8 (Json.dumps 2 Example.new_checkpoint))
    /\ fst (CheckpointManager.load_checkpoint "flow1"
              (mkWorld Example.checkpointed_root 0 [] []))
       = Ok Example.old_checkpoint
    /\ fst (CheckpointManager.load_checkpoint "flow1" (mkWorld r1 0 [] []))
       = Ok JNull.
Proof.
  eexists. split; [vm_compute; reflexivity|].
  repeat split; vm_compute; congruence.
Qed.

(** ** Part 17. The scans of the output root *)

(** A world that differs from [w] at most by its log. *)
Definition same_but_log (w w' : world) : Prop :=
  root w' = root w /\ clock w' = clock w /\ calls w' = calls w.

Lemma same_but_log_refl (w : world) : same_but_log w w.
Proof. repeat split. Qed.

Lemma same_but_log_trans (a b c : world) :
  same_but_log a b -> same_but_log b c -> same_but_log a c.
Proof.
  unfold same_but_log. intros (? & ? & ?) (? & ? & ?).
  repeat split; congruence.
Qed.

Lemma load_checkpoint_result (dir : string) (w : world) :
  exists w',
    CheckpointManager.load_checkpoint dir w
    = (Ok (Spec.checkpoint_of (root w) dir), w')
    /\ same_but_log w w'.
Proof.
  rewrite load_checkpoint_eq.
  unfold Spec.load_checkpoint_outcome, Spec.checkpoint_of.
  destruct (Fs.file_of (root w) dir CheckpointManager.CHECKPOINT_FILE)
    as [f|].
  - destruct (Spec.decoded f) as [[|b|z|lit|s|l|kv]|];
      eexists; split; try reflexivity; repeat split.
  - exists w. split; [reflexivity|apply same_but_log_refl].
Qed.

Lemma mkdir_existing (E : env) (parents : bool) (dir : string) (w : world)
    (d : slot) :
  Fs.slot_of (root w) dir = Some d ->
  Act.mkdir E parents dir w = (Ok tt, w).
Proof.
  intros Hd. apply slot_of_some in Hd as (l & Hr & Hl).
  unfold Act.mkdir. run_monad. rewrite Hr, Hl. reflexivity.
Qed.

Lemma lookup_in {A : Type} (n : string) (x : A) (l : list (string * A)) :
  In (n, x) l -> exists y, Fs.lookup n l = Some y.
Proof.
  induction l as [|[m z] r IH]; [intros []|].
  intros [Heq|Hin]; cbn.
  - inversion Heq; subst. rewrite String.eqb_refl. eauto.
  - destruct (String.eqb m n); eauto.
Qed.

(** One entry of a scan: the selection, and nothing changed but the log,
    when the entry is one of the output root. *)
Lemma scan_entry_spec {A : Type} (E : env)
    (select : Z -> json -> result (option A)) (entry : string * node)
    (w : world) (l : listing) :
  root w = Some l -> In entry l ->
  exists w',
    Pipeline.scan_entry E select entry w
    = (Ok (Spec.selection select (root w) entry), w')
    /\ same_but_log w w'.
Proof.
  intros Hroot Hin. destruct entry as [name nd].
  unfold Pipeline.scan_entry, Spec.selection, Settings.flow_num.
  cbn [fst snd].
  destruct nd as [f|d];
    [exists w; split; [reflexivity|apply same_but_log_refl]|].
  destruct (Text.startswith "flow" name);
    [|exists w; split; [reflexivity|apply same_but_log_refl]].
  destruct (Settings.py_int (Text.drop 4 name)) as [n|];
    [|exists w; split; [reflexivity|apply same_but_log_refl]].
  unfold try_except, bind at 1, CheckpointManager.init.
  destruct (Fs.slot_of (root w) name) as [d'|] eqn:Hslot.
  - rewrite (mkdir_existing E false name w d' Hslot).
    unfold bind at 1.
    destruct (load_checkpoint_result name w) as (w' & Hload & Hsame).
    rewrite Hload.
    destruct (Py.truthy (Spec.checkpoint_of (root w) name)).
    + unfold lift. destruct (select n (Spec.checkpoint_of (root w) name));
        exists w'; split; try reflexivity; exact Hsame.
    + exists w'. split; [reflexivity|exact Hsame].
  - destruct (lookup_in name (NDir d) l Hin) as (y & Hy).
    unfold Fs.slot_of in Hslot. rewrite Hroot, Hy in Hslot.
    destruct y as [f|d']; [|discriminate Hslot].
    unfold Act.mkdir. run_monad. rewrite Hroot, Hy.
    exists w. split; [reflexivity|apply same_but_log_refl].
Qed.

(** A scan that stops at its first match takes the first entry, in the
    order of the listing, that it selects. *)
Lemma scan_first_spec {A : Type} (E : env)
    (select : Z -> json -> result (option A)) (w : world)
    (l0 l : listing) :
  root w = Some l0 -> incl l l0 ->
  exists found w',
    Pipeline.scan_first E select l w = (Ok found, w')
    /\ same_but_log w w'
    /\ match found with
       | Some a =>
           exists before entry after,
             l = (before ++ entry :: after)%list
             /\ Spec.selection select (root w) entry = Some a
             /\ forall e, In e before ->
                   Spec.selection select (root w) e = None
       | None =>
           forall e, In e l -> Spec.selection select (root w) e = None
       end.
Proof.
  intros Hroot. revert w Hroot.
  induction l as [|entry rest IH]; intros w Hroot Hincl.
  - exists None, w. repeat split. intros e [].
  - cbn [Pipeline.scan_first]. unfold bind at 1.
    destruct (scan_entry_spec E select entry w l0 Hroot) as (w1 & He & Hs1).
    { apply Hincl. left. reflexivity. }
    rewrite He.
    destruct (Spec.selection select (root w) entry) as [a|] eqn:Hsel.
    + exists (Some a), w1. split; [reflexivity|]. split; [exact Hs1|].
      exists [], entry, rest. repeat split; [exact Hsel|]. intros e [].
    + assert (Hroot1 : root w1 = Some l0)
        by (destruct Hs1 as (-> & _); exact Hroot).
      destruct (IH w1 Hroot1) as (found & w2 & Hscan & Hs2 & Hfound).
      { intros e Hin. apply Hincl. right. exact Hin. }
      exists found, w2. split; [exact Hscan|].
      split; [exact (same_but_log_trans _ _ _ Hs1 Hs2)|].
      assert (Hr : root w1 = root w) by (destruct Hs1; assumption).
      rewrite Hr in Hfound. destruct found as [a|].
      * destruct Hfound as (before & e & after & -> & Hsel' & Hbefore).
        exists (entry :: before), e, after. repeat split; [exact Hsel'|].
        intros e' [<-|Hin]; [exact Hsel|apply Hbefore; exact Hin].
      * intros e [<-|Hin]; [exact Hsel|apply Hfound; exact Hin].
Qed.

(** *** The order in which the resume scan applies the checkpoints *)

Definition flow_key (x : Pipeline.flow_info) : Z := fst (fst x).

Lemma insert_flow_last (x : Pipeline.flow_info)
    (l : list Pipeline.flow_info) :
  (forall y, In y l -> (flow_key y < flow_key x)%Z) ->
  Pipeline.insert_flow x l = (l ++ [x])%list.
Proof.
  induction l as [|y r IH]; intros Hlt; [reflexivity|].
  cbn [Pipeline.insert_flow app].
  assert (Hy : (flow_key y < flow_key x)%Z) by (apply Hlt; left; reflexivity).
  unfold flow_key in Hy.
  destruct (Z.ltb_spec (fst (fst x)) (fst (fst y))); [lia|].
  rewrite IH; [reflexivity|]. intros z Hz. apply Hlt. right. exact Hz.
Qed.

Lemma insert_flow_before_last (x y : Pipeline.flow_info)
    (l : list Pipeline.flow_info) :
  (flow_key y < flow_key x)%Z ->
  Pipeline.insert_flow y (l ++ [x])%list
  = (Pipeline.insert_flow y l ++ [x])%list.
Proof.
  intros Hlt. unfold flow_key in Hlt.
  induction l as [|z r IH]; cbn [Pipeline.insert_flow app].
  - destruct (Z.ltb_spec (fst (fst y)) (fst (fst x))); [reflexivity|lia].
  - destruct (Z.ltb (fst (fst y)) (fst (fst z))); [reflexivity|].
    now rewrite IH.
Qed.

Lemma fold_insert_before_last (x : Pipeline.flow_info)
    (b acc : list Pipeline.flow_info) :
  (forall y, In y b -> (flow_key y < flow_key x)%Z) ->
  fold_left (fun acc y => Pipeline.insert_flow y acc) b (acc ++ [x])%list
  = (fold_left (fun acc y => Pipeline.insert_flow y acc) b acc ++ [x])%list.
Proof.
  revert acc. induction b as [|y r IH]; intros acc Hlt; [reflexivity|].
  cbn [fold_left]. rewrite insert_flow_before_last
    by (apply Hlt; left; reflexivity).
  apply IH. intros z Hz. apply Hlt. right. exact Hz.
Qed.

Lemma in_insert_flow (x y : Pipeline.flow_info)
    (l : list Pipeline.flow_info) :
  In y (Pipeline.insert_flow x l) -> y = x \/ In y l.
Proof.
  induction l as [|z r IH]; cbn [Pipeline.insert_flow].
  - intros [<-|[]]. left. reflexivity.
  - destruct (Z.ltb (fst (fst x)) (fst (fst z))).
    + intros [<-|H]; [left; reflexivity|right; exact H].
    + intros [<-|H]; [right; left; reflexivity|].
      destruct (IH H) as [->|H']; [left; reflexivity|right; right; exact H'].
Qed.

Lemma in_fold_insert (y : Pipeline.flow_info)
    (l acc : list Pipeline.flow_info) :
  In y (fold_left (fun acc x => Pipeline.insert_flow x acc) l acc) ->
  In y l \/ In y acc.
Proof.
  revert acc. induction l as [|x r IH]; intros acc; cbn [fold_left].
  - intros H. right. exact H.
  - intros H. destruct (IH _ H) as [H'|H'].
    + left. right. exact H'.
    + destruct (in_insert_flow _ _ _ H') as [->|H''];
        [left; left; reflexivity|right; exact H''].
Qed.

(** The checkpoint with the largest flow number is sorted last. *)
Lemma sort_flows_largest_last (a b : list Pipeline.flow_info)
    (x : Pipeline.flow_info) :
  (forall y, In y (a ++ b)%list -> (flow_key y < flow_key x)%Z) ->
  Pipeline.sort_flows (a ++ x :: b)%list
  = (Pipeline.sort_flows (a ++ b)%list ++ [x])%list.
Proof.
  intros Hlt. unfold Pipeline.sort_flows.
  rewrite !fold_left_app. cbn [fold_left].
  rewrite insert_flow_last.
  - apply fold_insert_before_last.
    intros y Hy. apply Hlt. apply in_or_app. right. exact Hy.
  - intros y Hy. apply in_fold_insert in Hy as [Hy|[]].
    apply Hlt. apply in_or_app. left. exact Hy.
Qed.

Lemma for_each_app {S A : Type} (l1 l2 : list A) (body : A -> M S unit)
    (s : S) :
  for_each (l1 ++ l2)%list body s
  = bind (for_each l1 body) (fun _ => for_each l2 body) s.
Proof.
  revert s. induction l1 as [|x r IH]; intros s; cbn [for_each app].
  - reflexivity.
  - unfold bind. destruct (body x s) as [[[]|e] s']; [|reflexivity].
    rewrite IH. unfold bind. reflexivity.
Qed.

(** C5, as the code has it.  A scan that stops at its first match (the
    scans of Steps 5, 6 and 7) takes the first entry, in the order in
    which the directory is listed, that it selects: every entry listed
    before it is one that the scan does not select, whatever its number;
    the scan never raises and changes nothing but the log.  The resume
    scan sorts the checkpoints it found by flow number and applies them in
    ascending order, so the checkpoint with the largest number is applied
    last and its data prevail. *)
Theorem scans_follow_listing_order {A : Type} (E : env)
    (select : Z -> json -> result (option A)) (w : world)
    (l0 l : listing) (a b : list Pipeline.flow_info)
    (x : Pipeline.flow_info) :
  root w = Some l0 -> incl l l0 ->
  (forall y, In y (a ++ b)%list -> (fst (fst y) < fst (fst x))%Z) ->
  (exists found w',
     Pipeline.scan_first E select l w = (Ok found, w')
     /\ root w' = root w /\ clock w' = clock w /\ calls w' = calls w
     /\ match found with
        | Some r =>
            exists before entry after,
              l = (before ++ entry :: after)%list
              /\ Spec.selection select (root w) entry = Some r
              /\ forall e, In e before ->
                    Spec.selection select (root w) e = None
        | None =>
            forall e, In e l -> Spec.selection select (root w) e = None
        end)
  /\ (forall f,
        for_each (Pipeline.sort_flows (a ++ x :: b)%list) Pipeline.load_flow f
        = bind (for_each (Pipeline.sort_flows (a ++ b)%list)
                  Pipeline.load_flow)
            (fun _ => Pipeline.load_flow x) f).
Proof.
  intros Hroot Hincl Hlt. split.
  - destruct (scan_first_spec E select w l0 l Hroot Hincl)
      as (found & w' & Hscan & (Hr & Hc & Hk) & Hfound).
    exists found, w'. repeat split; assumption.
  - intros f. rewrite sort_flows_largest_last by exact Hlt.
    rewrite for_each_app. unfold bind.
    destruct (for_each (Pipeline.sort_flows (a ++ b)%list)
                Pipeline.load_flow f) as [[[]|e] f']; [|reflexivity].
    cbn [for_each]. unfold bind.
    destruct (Pipeline.load_flow x f') as [[[]|e] f'']; reflexivity.
Qed.

Lemma scans_follow_listing_order_witness :
  exists found w',
    Pipeline.scan_first Example.env_ok Pipeline.select_validated
      [("flow7", NDir (Example.slot_with (Example.validated "later attempt")));
       ("flow3", NDir (Example.slot_with (Example.validated "earlier attempt")))]
      Example.two_validated = (Ok found, w')
    /\ root w' = root Example.two_validated.
Proof.
  assert (Hlt : forall y : Pipeline.flow_info,
             In y ([] ++ [(3%Z, JNull, JNull)])%list ->
             (fst (fst y) < fst (fst (7%Z, JNull, JNull)))%Z).
  { intros y [<-|[]]. reflexivity. }
  destruct (scans_follow_listing_order Example.env_ok
              Pipeline.select_validated Example.two_validated
              _ _ [] [(3%Z, JNull, JNull)] (7%Z, JNull, JNull)
              eq_refl (incl_refl _) Hlt)
    as ((found & w' & Hscan & Hroot & _) & _).
  exists found, w'. split; assumption.
Defined.

(** C5, as the claim states it, fails.  Two slots hold validated code and
    the directory lists [flow7] before [flow3]: Step 6 resumes from slot 7,
    although slot 3 qualifies as well.  Two slots hold a schema
    checkpoint: the resume scan ends with the schema of slot 7, and
    records slot 7 as the slot of Step 4. *)
Lemma lowest_slot_not_selected :
  (let f := snd (Pipeline.step6 Example.env_ok ["a.html"] true
                   (enter Example.two_validated)) in
   step6_flow_id f = 7%Z
   /\ extraction_code f = JStr "later attempt")
  /\ Spec.selection Pipeline.select_validated (root Example.two_validated)
       ("flow3",
        NDir (Example.slot_with (Example.validated "earlier attempt")))
     = Some (3%Z, JStr "earlier attempt",
             validation_json Example.clean_validation)
  /\ (let g := snd (Pipeline.resume_scan Example.env_ok true
                      (enter Example.two_schemas)) in
      json_schema g = JDict [("description", JStr "later attempt")]
      /\ Pipeline.completed_get (completed_steps g) "step4" 4 = 7%Z).
Proof.
  repeat split; vm_compute; reflexivity.
Qed.

(** ** Part 18. What a computation adds to the record of calls *)

Section Emits.

(** The property that every added event is to have. *)
Variable Q : event -> Prop.

(** An action of the world adds only events that have [Q]. *)
Definition emits_w {A : Type} (m : M world A) : Prop :=
  forall w, exists new,
    calls (snd (m w)) = (calls w ++ new)%list /\ Forall Q new.

(** Run from the frame [f], the computation adds only events that have
    [Q]. *)
Definition emits_at {A : Type} (f : frame) (m : M frame A) : Prop :=
  exists new,
    calls (fw (snd (m f))) = (calls (fw f) ++ new)%list /\ Forall Q new.

Lemma ew_ret {A : Type} (a : A) : emits_w (ret a).
Proof. intros w. exists []. cbn. now rewrite List.app_nil_r. Qed.

Lemma ew_raise {A : Type} (e : exn) : emits_w (@raise world A e).
Proof. intros w. exists []. cbn. now rewrite List.app_nil_r. Qed.

Lemma ew_lift {A : Type} (r : result A) : emits_w (lift r).
Proof. intros w. exists []. cbn. now rewrite List.app_nil_r. Qed.

Lemma ew_gets {A : Type} (g : world -> A) : emits_w (gets g).
Proof. intros w. exists []. cbn. now rewrite List.app_nil_r. Qed.

Lemma ew_modify (g : world -> world) :
  (forall w, calls (g w) = calls w) -> emits_w (modify g).
Proof.
  intros H w. exists []. cbn. now rewrite H, List.app_nil_r.
Qed.

Lemma ew_emit (e : event) : Q e -> emits_w (Act.emit e).
Proof.
  intros H w. exists [e]. cbn. split; [reflexivity|]. now constructor.
Qed.

Lemma ew_bind {A B : Type} (m : M world A) (k : A -> M world B) :
  emits_w m -> (forall a, emits_w (k a)) -> emits_w (bind m k).
Proof.
  intros Hm Hk w. unfold bind. destruct (Hm w) as (n1 & H1 & Q1).
  destruct (m w) as [[a|e] w1]; cbn [snd] in *.
  - destruct (Hk a w1) as (n2 & H2 & Q2). exists (n1 ++ n2)%list.
    rewrite H2, H1, List.app_assoc. split; [reflexivity|].
    apply Forall_app. now split.
  - exists n1. now split.
Qed.

Lemma ew_try {A : Type} (m : M world A) (h : exn -> M world A) :
  emits_w m -> (forall e, emits_w (h e)) -> emits_w (try_except m h).
Proof.
  intros Hm Hh w. unfold try_except. destruct (Hm w) as (n1 & H1 & Q1).
  destruct (m w) as [[a|e] w1]; cbn [snd] in *.
  - exists n1. now split.
  - destruct (Hh e w1) as (n2 & H2 & Q2). exists (n1 ++ n2)%list.
    rewrite H2, H1, List.app_assoc. split; [reflexivity|].
    apply Forall_app. now split.
Qed.

Lemma at_ret {A : Type} (f : frame) (a : A) : emits_at f (ret a).
Proof. exists []. cbn. now rewrite List.app_nil_r. Qed.

Lemma at_raise {A : Type} (f : frame) (e : exn) :
  emits_at f (@raise frame A e).
Proof. exists []. cbn. now rewrite List.app_nil_r. Qed.

Lemma at_W {A : Type} (f : frame) (m : M world A) :
  emits_w m -> emits_at f (W m).
Proof.
  intros Hm. destruct (Hm (fw f)) as (new & H & HQ). exists new.
  unfold W. destruct (m (fw f)) as [r w']. cbn in *. now split.
Qed.

Lemma at_bind {A B : Type} (f : frame) (m : M frame A)
    (k : A -> M frame B) :
  emits_at f m ->
  (forall a f1, m f = (Ok a, f1) -> emits_at f1 (k a)) ->
  emits_at f (bind m k).
Proof.
  intros (n1 & H1 & Q1) Hk. unfold emits_at, bind.
  destruct (m f) as [[a|e] f1] eqn:Hm; cbn [snd] in *.
  - destruct (Hk a f1 eq_refl) as (n2 & H2 & Q2). exists (n1 ++ n2)%list.
    rewrite H2, H1, List.app_assoc. split; [reflexivity|].
    apply Forall_app. now split.
  - exists n1. now split.
Qed.

Lemma at_try {A : Type} (f : frame) (m : M frame A)
    (h : exn -> M frame A) :
  emits_at f m ->
  (forall e f1, m f = (Raise e, f1) -> emits_at f1 (h e)) ->
  emits_at f (try_except m h).
Proof.
  intros (n1 & H1 & Q1) Hh. unfold emits_at, try_except.
  destruct (m f) as [[a|e] f1] eqn:Hm; cbn [snd] in *.
  - exists n1. now split.
  - destruct (Hh e f1 eq_refl) as (n2 & H2 & Q2). exists (n1 ++ n2)%list.
    rewrite H2, H1, List.app_assoc. split; [reflexivity|].
    apply Forall_app. now split.
Qed.

Lemma at_gets {A B : Type} (f : frame) (g : frame -> A)
    (k : A -> M frame B) :
  emits_at f (k (g f)) -> emits_at f (bind (gets g) k).
Proof. intros H. exact H. Qed.

Lemma at_assign {X B : Type} (f : frame) (set : X -> frame -> frame)
    (v : X) (k : unit -> M frame B) :
  calls (fw (set v f)) = calls (fw f) ->
  emits_at (set v f) (k tt) -> emits_at f (bind (assign set v) k).
Proof.
  intros Hc (new & H & HQ). exists new. unfold bind, assign, modify.
  rewrite <- Hc. now split.
Qed.

Lemma at_assign_last {X : Type} (f : frame) (set : X -> frame -> frame)
    (v : X) :
  calls (fw (set v f)) = calls (fw f) -> emits_at f (assign set v).
Proof.
  intros Hc. exists []. unfold assign, modify. cbn [snd].
  now rewrite Hc, List.app_nil_r.
Qed.

Lemma at_lift {A B : Type} (f : frame) (r : result A)
    (k : A -> M frame B) :
  (forall a, r = Ok a -> emits_at f (k a)) ->
  emits_at f (bind (lift r) k).
Proof.
  intros H. unfold bind, lift. destruct r as [a|e].
  - exact (H a eq_refl).
  - exists []. cbn. now rewrite List.app_nil_r.
Qed.

End Emits.

(** ** Part 19. More on the artifact store *)

Lemma run_ops_write (dir name text : string) (w : world) :
  Act.run_ops (Fs.write_ops dir name text) w =
  match Fs.slot_of (root w) dir with
  | Some _ => (Ok tt, set_root w (Spec.written (root w) dir name text))
  | None => (Raise (mkExn FileNotFoundError (dir ++ "/" ++ name)), w)
  end.
Proof.
  destruct (Fs.slot_of (root w) dir) as [d|] eqn:Hd.
  - apply (write_text_ok dir name text w d Hd).
  - apply (write_text_missing dir name text w Hd).
Qed.

(** What [save_checkpoint] returns and leaves. *)
Lemma save_checkpoint_eq (E : env) (dir step : string) (data metadata : json)
    (w : world) :
  CheckpointManager.save_checkpoint E dir step data metadata w =
  match Fs.slot_of (root w) dir with
  | Some _ =>
      (Ok tt,
       mkWorld
         (Spec.written (root w) dir CheckpointManager.CHECKPOINT_FILE
            (Json.dumps 2
               (CheckpointManager.checkpoint_record step
                  (isoformat E (clock w)) data metadata)))
         (S (clock w))
         (calls w ++ [SavedCheckpoint dir step data])%list
         (log w ++ [("info", "Checkpoint saved: {}", [JStr step])])%list)
  | None =>
      (Ok tt,
       mkWorld (root w) (S (clock w)) (calls w)
         (log w ++
          [("error", "Failed to save checkpoint: {}",
            [JStr (dir ++ "/" ++ CheckpointManager.CHECKPOINT_FILE)])])%list)
  end.
Proof.
  unfold CheckpointManager.save_checkpoint,
    CheckpointManager.save_checkpoint_ops.
  unfold bind at 1. unfold Act.tick at 1.
  unfold try_except, bind at 1. rewrite run_ops_write. cbn [root].
  destruct (Fs.slot_of (root w) dir); reflexivity.
Qed.

Lemma well_formed_checkpoint_record (step ts : string) (data metadata : json) :
  Spec.well_formed data = true -> Spec.well_formed metadata = true ->
  Spec.well_formed (CheckpointManager.checkpoint_record step ts data metadata)
  = true.
Proof.
  intros Hd Hm. unfold CheckpointManager.checkpoint_record.
  rewrite well_formed_dict. cbn [map fst snd Spec.all_well_formed].
  rewrite Hd. destruct (Py.truthy metadata); [rewrite Hm|]; reflexivity.
Qed.

(** A checkpoint that has been saved is the one that is loaded: after
    [save_checkpoint(step, data, metadata)] in a slot that exists,
    [load_checkpoint()] returns the record with that step, the time of the
    save, that data, and the metadata (an empty dict when none was given),
    for data and metadata that hold no float and no repeated key. *)
Theorem checkpoint_round_trip (E : env) (dir step : string)
    (data metadata : json) (w : world) (d : slot) :
  Fs.slot_of (root w) dir = Some d ->
  Spec.well_formed data = true -> Spec.well_formed metadata = true ->
  exists w2,
    CheckpointManager.load_checkpoint dir
      (snd (CheckpointManager.save_checkpoint E dir step data metadata w))
    = (Ok (JDict [("step", JStr step);
                  ("timestamp", JStr (isoformat E (clock w)));
                  ("data", data);
                  ("metadata",
                   if Py.truthy metadata then metadata else JDict [])]),
       w2).
Proof.
  intros Hd Hdata Hmeta. rewrite save_checkpoint_eq, Hd. cbn [snd].
  rewrite load_checkpoint_eq. cbn [root].
  rewrite (file_of_written_eq _ _ _ _ d Hd).
  unfold Spec.load_checkpoint_outcome, Spec.decoded.
  rewrite loads_dumps
    by (apply well_formed_checkpoint_record; assumption).
  unfold CheckpointManager.checkpoint_record. eexists. reflexivity.
Qed.

Lemma checkpoint_round_trip_witness :
  exists w2,
    CheckpointManager.load_checkpoint "flow1"
      (snd (CheckpointManager.save_checkpoint Example.env_ok "flow1"
              "schema" Example.sample_value JNull Example.one_slot))
    = (Ok (JDict [("step", JStr "schema");
                  ("timestamp", JStr "T0");
                  ("data", Example.sample_value);
                  ("metadata", JDict [])]),
       w2).
Proof.
  apply (checkpoint_round_trip Example.env_ok "flow1" "schema"
           Example.sample_value JNull Example.one_slot empty_slot);
    reflexivity.
Defined.

(** [save_checkpoint] never raises.  When the directory of the slot is
    missing, the failure is caught: nothing is written, no checkpoint is
    recorded as saved, and one error is logged. *)
Theorem save_checkpoint_never_raises (E : env) (dir step : string)
    (data metadata : json) (w : world) :
  exists w',
    CheckpointManager.save_checkpoint E dir step data metadata w = (Ok tt, w')
    /\ (Fs.slot_of (root w) dir = None ->
        root w' = root w /\ calls w' = calls w
        /\ exists msg,
             log w' = (log w ++
               [("error", "Failed to save checkpoint: {}", [JStr msg])])%list).
Proof.
  rewrite save_checkpoint_eq.
  destruct (Fs.slot_of (root w) dir) as [d|].
  - eexists. split; [reflexivity|]. discriminate.
  - eexists. split; [reflexivity|]. intros _. cbn [root calls log].
    repeat split. eexists. reflexivity.
Qed.

Lemma lookup_filter_eq {A : Type} (n : string) (l : list (string * A)) :
  Fs.lookup n (filter (fun nf => negb (String.eqb (fst nf) n)) l) = None.
Proof.
  induction l as [|[m y] r IH]; [reflexivity|].
  cbn [filter fst]. destruct (String.eqb m n) eqn:E; cbn [negb]; [exact IH|].
  cbn [Fs.lookup]. now rewrite E.
Qed.







(** ** Part 20. More on the run directory allocator *)

Lemma all_digits_uint (u : Decimal.uint) :
  Spec.all_digits (NilEmpty.string_of_uint u) = true.
Proof.
  induction u; cbn [NilEmpty.string_of_uint Spec.all_digits];
    try reflexivity; exact IHu.
Qed.

Lemma digit_not_space (c : ascii) :
  Text.is_digit c = true -> Text.is_space c = false.
Proof.
  intros Hd.
  destruct (digit_cases c Hd)
    as [<-|[<-|[<-|[<-|[<-|[<-|[<-|[<-|[<-|[<-|[]]]]]]]]]]]; reflexivity.
Qed.

Lemma all_digits_no_space (s : string) :
  Spec.all_digits s = true -> Spec.no_space s = true.
Proof.
  induction s as [|c r IH]; [reflexivity|].
  cbn [Spec.all_digits Spec.no_space]. intros H.
  apply andb_true_iff in H as [Hc Hr].
  rewrite (digit_not_space c Hc), (IH Hr). reflexivity.
Qed.

Lemma rev_string_rev_string (s a b : string) :
  Text.rev_string (Text.rev_string s a) b = Text.rev_string a (s ++ b).
Proof.
  revert a b. induction s as [|c r IH]; intros a b; [reflexivity|].
  cbn [Text.rev_string append]. rewrite IH. reflexivity.
Qed.

Lemma no_space_rev_string (s a : string) :
  Spec.no_space s = true -> Spec.no_space a = true ->
  Spec.no_space (Text.rev_string s a) = true.
Proof.
  revert a. induction s as [|c r IH]; intros a Hs Ha; [exact Ha|].
  cbn [Spec.no_space] in Hs. apply andb_true_iff in Hs as [Hc Hr].
  cbn [Text.rev_string]. apply IH; [exact Hr|].
  cbn [Spec.no_space]. now rewrite Hc, Ha.
Qed.

Lemma lstrip_no_space (s : string) :
  Spec.no_space s = true -> Text.lstrip s = s.
Proof.
  destruct s as [|c r]; [reflexivity|]. cbn [Spec.no_space Text.lstrip].
  intros H. apply andb_true_iff in H as [Hc _].
  apply negb_true_iff in Hc. now rewrite Hc.
Qed.

(** [s.strip()] of a text without white space is the text. *)
Lemma strip_no_space (s : string) :
  Spec.no_space s = true -> Text.strip s = s.
Proof.
  intros H. unfold Text.strip, Text.rstrip.
  rewrite (lstrip_no_space s H).
  rewrite lstrip_no_space by (apply no_space_rev_string; [exact H|reflexivity]).
  rewrite rev_string_rev_string. cbn [Text.rev_string].
  apply append_empty_r.
Qed.

Lemma int_digits_all (s : string) (after_digit : bool) :
  Spec.all_digits s = true ->
  s <> EmptyString \/ after_digit = true ->
  Settings.int_digits s after_digit = Some s.
Proof.
  revert after_digit. induction s as [|c r IH]; intros a Hs Hne.
  - destruct Hne as [Hne| ->]; [contradiction|reflexivity].
  - cbn [Spec.all_digits] in Hs. apply andb_true_iff in Hs as [Hc Hr].
    cbn [Settings.int_digits]. rewrite Hc.
    rewrite (IH true Hr) by (right; reflexivity). reflexivity.
Qed.

Lemma py_int_str_of_pos (p : positive) :
  Settings.py_int (Text.str_of_N (Npos p)) = Some (Zpos p).
Proof.
  assert (Hall : Spec.all_digits (Text.str_of_N (Npos p)) = true)
    by apply all_digits_uint.
  unfold Settings.py_int.
  rewrite strip_no_space by (apply all_digits_no_space; exact Hall).
  destruct (str_of_pos_head p) as (c & t & Hs & Hd & _).
  assert (Hsplit :
    match Text.str_of_N (Npos p) with
    | String "-" r => (true, r)
    | String "+" r => (false, r)
    | _ => (false, Text.str_of_N (Npos p))
    end = (false, Text.str_of_N (Npos p))).
  { rewrite Hs.
    destruct (digit_cases c Hd)
      as [<-|[<-|[<-|[<-|[<-|[<-|[<-|[<-|[<-|[<-|[]]]]]]]]]]]; reflexivity. }
  rewrite Hsplit.
  rewrite int_digits_all; [|exact Hall|left; rewrite Hs; discriminate].
  rewrite N_of_digits_str. reflexivity.
Qed.

(** [int(str(n)) == n] *)
Lemma py_int_str_of_Z (z : Z) :
  Settings.py_int (Text.str_of_Z z) = Some z.
Proof.
  destruct z as [|p|p].
  - reflexivity.
  - apply py_int_str_of_pos.
  - assert (Hall : Spec.all_digits (Text.str_of_N (Npos p)) = true)
      by apply all_digits_uint.
    cbn [Text.str_of_Z]. unfold Settings.py_int.
    rewrite strip_no_space
      by (cbn [Spec.no_space]; rewrite all_digits_no_space by exact Hall;
          reflexivity).
    destruct (str_of_pos_head p) as (c & t & Hs & Hd & _).
    rewrite int_digits_all; [|exact Hall|left; rewrite Hs; discriminate].
    rewrite N_of_digits_str. reflexivity.
Qed.

Lemma startswith_append (p s : string) : Text.startswith p (p ++ s) = true.
Proof.
  induction p as [|c r IH]; [reflexivity|].
  cbn [append Text.startswith]. now rewrite Ascii.eqb_refl, IH.
Qed.

(** The directory of flow [n] is counted as flow [n]. *)
Lemma flow_num_flow_name (n : Z) (d : slot) :
  Settings.flow_num (Py.flow_name n, NDir d) = Some n.
Proof.
  unfold Settings.flow_num, Py.flow_name. cbn [fst snd].
  rewrite startswith_append. cbn [append Text.drop].
  apply py_int_str_of_Z.
Qed.

Lemma lookup_some_in {A : Type} (n : string) (x : A)
    (l : list (string * A)) :
  Fs.lookup n l = Some x -> In (n, x) l.
Proof.
  induction l as [|[m y] r IH]; [discriminate|]. cbn [Fs.lookup].
  destruct (String.eqb m n) eqn:E.
  - apply String.eqb_eq in E. intros [= ->]. left. now subst.
  - intros H. right. exact (IH H).
Qed.

Lemma in_insert_at {A : Type} (i : nat) (x y : A) (l : list A) :
  In y (Fs.insert_at i x l) <-> y = x \/ In y l.
Proof.
  unfold Fs.insert_at. rewrite in_app_iff. cbn [In].
  assert (Hl : In y l <-> In y (firstn i l) \/ In y (skipn i l)).
  { rewrite <- in_app_iff. now rewrite firstn_skipn. }
  rewrite Hl. intuition congruence.
Qed.

Lemma lookup_insert_at_ne {A : Type} (i : nat) (n m : string) (x : A)
    (l : list (string * A)) :
  n <> m -> Fs.lookup m (Fs.insert_at i (n, x) l) = Fs.lookup m l.
Proof.
  intros Hne. apply String.eqb_neq in Hne. unfold Fs.insert_at.
  revert i. induction l as [|[k y] r IH]; intros [|i];
    cbn [firstn skipn app Fs.lookup]; rewrite ?Hne; try reflexivity.
  destruct (String.eqb k m); [reflexivity|apply IH].
Qed.

Lemma lookup_insert_at_fresh {A : Type} (i : nat) (n : string) (x : A)
    (l : list (string * A)) :
  Fs.lookup n l = None -> Fs.lookup n (Fs.insert_at i (n, x) l) = Some x.
Proof.
  unfold Fs.insert_at. revert i.
  induction l as [|[k y] r IH]; intros [|i];
    cbn [firstn skipn app Fs.lookup]; rewrite ?String.eqb_refl;
    try reflexivity.
  destruct (String.eqb k n); [discriminate|apply IH].
Qed.

(** The flow numbers after the directory of flow [id] has been added. *)
Lemma existing_flows_insert (i : nat) (id : Z) (d : slot) (l : listing)
    (k : Z) :
  In k (Settings.existing_flows
          (Fs.insert_at i (Py.flow_name id, NDir d) l))
  <-> k = id \/ In k (Settings.existing_flows l).
Proof.
  rewrite !existing_flows_in. split.
  - intros (name & d' & Hin & Hs & Hi).
    apply in_insert_at in Hin as [Heq|Hin].
    + left. inversion Heq; subst.
      pose proof (flow_num_flow_name id d) as Hf.
      unfold Settings.flow_num in Hf. cbn [fst snd] in Hf.
      rewrite Hs in Hf. congruence.
    + right. exists name, d'. auto.
  - intros [->|(name & d' & Hin & Hs & Hi)].
    + exists (Py.flow_name id), d.
      pose proof (flow_num_flow_name id d) as Hf.
      unfold Settings.flow_num in Hf. cbn [fst snd] in Hf.
      split; [apply in_insert_at; left; reflexivity|].
      destruct (Text.startswith "flow" (Py.flow_name id));
        [split; [reflexivity|exact Hf]|discriminate Hf].
    + exists name, d'. split; [apply in_insert_at; right; exact Hin|auto].
Qed.

Lemma next_flow_id_above (l : listing) (k : Z) :
  In k (Settings.existing_flows l) ->
  (k < Settings.next_flow_id (Some l))%Z.
Proof.
  unfold Settings.next_flow_id.
  destruct (Settings.existing_flows l) as [|x rest]; [intros []|].
  intros Hk. destruct (py_max_spec rest x) as [_ Hmax].
  specialize (Hmax k Hk). lia.
Qed.

Lemma next_flow_id_insert (i : nat) (d : slot) (l : listing) :
  Settings.next_flow_id
    (Some (Fs.insert_at i
             (Py.flow_name (Settings.next_flow_id (Some l)), NDir d) l))
  = (Settings.next_flow_id (Some l) + 1)%Z.
Proof.
  set (id := Settings.next_flow_id (Some l)).
  pose proof (existing_flows_insert i id d l) as Hflows.
  unfold Settings.next_flow_id at 1.
  destruct (Settings.existing_flows
              (Fs.insert_at i (Py.flow_name id, NDir d) l))
    as [|x rest] eqn:Hl'.
  - exfalso. apply (proj2 (Hflows id)). left. reflexivity.
  - destruct (py_max_spec rest x) as [Hin Hmax].
    assert (Hle : (Settings.py_max x rest <= id)%Z).
    { apply Hflows in Hin as [->|Hin]; [lia|].
      apply next_flow_id_above in Hin. fold id in Hin. lia. }
    assert (Hge : (id <= Settings.py_max x rest)%Z).
    { apply Hmax. apply Hflows. left. reflexivity. }
    lia.
Qed.

(** [get_next_flow_output_dir] allocates a directory that did not exist.
    It raises [FileExistsError], and changes nothing, when the output root
    holds a file with the name of the next flow.  Otherwise it creates the
    directory of the next flow, empty, wherever the file system lists it,
    and leaves every other directory as it was; the flow number that
    [get_next_flow_id] then returns is one more, so that no number is
    allocated twice. *)
Theorem next_flow_output_dir_is_fresh (E : env) (w : world) :
  let id := Settings.next_flow_id (root w) in
  let dir := Py.flow_name id in
  if Spec.is_plain_file (root w) dir then
    Settings.get_next_flow_output_dir E w
    = (Raise (mkExn FileExistsError dir), w)
  else
    exists w',
      Settings.get_next_flow_output_dir E w = (Ok dir, w')
      /\ Fs.slot_of (root w) dir = None
      /\ Fs.slot_of (root w') dir = Some empty_slot
      /\ (forall other, other <> dir ->
            Fs.slot_of (root w') other = Fs.slot_of (root w) other)
      /\ Settings.get_next_flow_id w' = (Ok (id + 1)%Z, w')
      /\ clock w' = clock w /\ calls w' = calls w /\ log w' = log w.
Proof.
  intros id dir.
  unfold Settings.get_next_flow_output_dir, Settings.get_next_flow_id,
    Settings.get_flow_output_dir, Act.mkdir.
  run_monad. fold id. fold dir. unfold Spec.is_plain_file.
  destruct (root w) as [l|] eqn:Hroot.
  - destruct (Fs.lookup dir l) as [[f|d]|] eqn:Hl.
    + reflexivity.
    + exfalso. apply lookup_some_in in Hl.
      assert (Hin : In id (Settings.existing_flows l)).
      { apply existing_flows_in. exists dir, d.
        pose proof (flow_num_flow_name id d) as Hf.
        unfold Settings.flow_num in Hf. cbn [fst snd] in Hf. fold dir in Hf.
        split; [exact Hl|].
        destruct (Text.startswith "flow" dir);
          [split; [reflexivity|exact Hf]|discriminate Hf]. }
      apply next_flow_id_above in Hin. fold id in Hin. lia.
    + eexists. split; [reflexivity|]. cbn [root set_root clock calls log].
      unfold Fs.slot_of. rewrite Hl.
      rewrite lookup_insert_at_fresh by exact Hl.
      repeat split.
      * intros other Hne. rewrite lookup_insert_at_ne by congruence.
        reflexivity.
      * unfold dir, id. rewrite next_flow_id_insert. reflexivity.
  - eexists. split; [reflexivity|]. cbn [root set_root clock calls log].
    unfold Fs.slot_of. cbn [Fs.lookup]. rewrite String.eqb_refl.
    repeat split.
    intros other Hne. apply not_eq_sym in Hne.
    apply String.eqb_neq in Hne. now rewrite Hne.
Qed.

(** ** Part 21. The code generator *)

(** The retry loop: the calls it makes, and what it returns. *)
Lemma attempts_spec (E : env) (k : nat) (schema : json) (w : world) :
  exists n,
    1 <= n <= S k
    /\ calls (snd (CodeGenerator.attempts E k schema w))
       = (calls w ++ repeat (CallCodegenApi schema) n)%list
    /\ clock (snd (CodeGenerator.attempts E k schema w)) = clock w + n
    /\ root (snd (CodeGenerator.attempts E k schema w)) = root w
    /\ log (snd (CodeGenerator.attempts E k schema w)) = log w
    /\ (forall i, i < n - 1 ->
          exists e, codegen_api E (clock w + i) schema = Raise e)
    /\ match codegen_api E (clock w + (n - 1)) schema with
       | Ok code => fst (CodeGenerator.attempts E k schema w) = Ok code
       | Raise _ =>
           n = S k
           /\ fst (CodeGenerator.attempts E k schema w)
              = CodeGenerator.generate_fallback_code E schema
       end.
Proof.
  revert w. induction k as [|k IH]; intros w.
  - exists 1. cbn [CodeGenerator.attempts]. run_monad.
    cbn [root clock calls log].
    replace (clock w + (1 - 1)) with (clock w) by lia.
    destruct (codegen_api E (clock w) schema) as [code|e] eqn:Hapi;
      cbn [fst snd root clock calls log repeat];
      (split; [lia|]); (split; [reflexivity|]); (split; [lia|]);
      (split; [reflexivity|]); (split; [reflexivity|]);
      (split; [intros i Hi; lia|]); [reflexivity|split; reflexivity].
  - cbn [CodeGenerator.attempts]. run_monad. cbn [root clock calls log].
    destruct (codegen_api E (clock w) schema) as [code|e] eqn:Hapi.
    + exists 1. cbn [fst snd root clock calls log repeat].
      replace (clock w + (1 - 1)) with (clock w) by lia. rewrite Hapi.
      split; [lia|]. split; [reflexivity|]. split; [lia|].
      split; [reflexivity|]. split; [reflexivity|].
      split; [intros i Hi; lia|reflexivity].
    + set (w1 := mkWorld (root w) (S (clock w))
                   (calls w ++ [CallCodegenApi schema])%list (log w)).
      destruct (IH w1) as (n & Hn & Hcalls & Hclock & Hroot & Hlog & Hfail & Hlast).
      exists (S n). split; [lia|].
      rewrite Hcalls, Hclock, Hroot, Hlog. unfold w1. cbn [root clock calls log].
      split; [rewrite <- List.app_assoc; reflexivity|].
      split; [lia|]. split; [reflexivity|]. split; [reflexivity|]. split.
      * intros i Hi. destruct i as [|i].
        -- rewrite Nat.add_0_r. eauto.
        -- destruct (Hfail i) as (e' & He'); [lia|].
           exists e'. unfold w1 in He'. cbn [clock] in He'.
           replace (clock w + S i) with (S (clock w) + i) by lia. exact He'.
      * unfold w1 in Hlast. cbn [clock] in Hlast.
        replace (clock w + (S n - 1)) with (S (clock w) + (n - 1)) by lia.
        destruct (codegen_api E (S (clock w) + (n - 1)) schema);
          [exact Hlast|].
        destruct Hlast as [-> Hfb]. split; [reflexivity|exact Hfb].
Qed.

(** [generate_extraction_code] raises only before it calls the API, and
    then leaves the world as it was.  Once it has called the API it
    returns code: it calls at most three times, one clock tick apart, each
    call after a failed one, with the same schema, and returns the answer
    of the first call that succeeds; when the third call fails as well
    it returns the fallback template, which starts with the two header
    lines. *)
Theorem generate_extraction_code_spec (E : env) (schema : json) (w : world) :
  match CodeGenerator.generate_extraction_code E schema w with
  | (Raise e, w') => w' = w
  | (Ok code, w') =>
      exists n prompt_schema,
        1 <= n <= 3
        /\ calls w'
           = (calls w ++ repeat (CallCodegenApi prompt_schema) n)%list
        /\ clock w' = clock w + n /\ root w' = root w /\ log w' = log w
        /\ (forall i, i < n - 1 ->
              exists e, codegen_api E (clock w + i) prompt_schema = Raise e)
        /\ (codegen_api E (clock w + (n - 1)) prompt_schema = Ok code
            \/ (n = 3
                /\ (exists e,
                      codegen_api E (clock w + 2) prompt_schema = Raise e)
                /\ exists sections,
                     code = CodeGenerator.fallback_header
                            ++ fallback_body E sections))
  end.
Proof.
  unfold CodeGenerator.generate_extraction_code.
  assert (Hloop : forall prompt_schema,
    match bind (lift (CodeGenerator.prompt_sections_count prompt_schema))
            (fun _ => CodeGenerator.attempts E (CodeGenerator.max_retries - 1)
                        prompt_schema) w with
    | (Raise e, w') => w' = w
    | (Ok code, w') =>
      exists n prompt_schema,
        1 <= n <= 3
        /\ calls w'
           = (calls w ++ repeat (CallCodegenApi prompt_schema) n)%list
        /\ clock w' = clock w + n /\ root w' = root w /\ log w' = log w
        /\ (forall i, i < n - 1 ->
              exists e, codegen_api E (clock w + i) prompt_schema = Raise e)
        /\ (codegen_api E (clock w + (n - 1)) prompt_schema = Ok code
            \/ (n = 3
                /\ (exists e,
                      codegen_api E (clock w + 2) prompt_schema = Raise e)
                /\ exists sections,
                     code = CodeGenerator.fallback_header
                            ++ fallback_body E sections))
    end).
  { intros ps. unfold bind, lift.
    destruct (CodeGenerator.prompt_sections_count ps) as [count|e] eqn:Hcount;
      [|reflexivity].
    assert (Hfb : exists sections,
               CodeGenerator.generate_fallback_code E ps
               = Ok (CodeGenerator.fallback_header
                     ++ fallback_body E sections)).
    { unfold CodeGenerator.prompt_sections_count in Hcount.
      unfold CodeGenerator.generate_fallback_code.
      destruct (Py.get ps "sections" (JList [])); [|discriminate Hcount].
      eexists. reflexivity. }
    destruct Hfb as (sections & Hfb).
    change (CodeGenerator.max_retries - 1) with 2.
    destruct (attempts_spec E 2 ps w)
      as (n & Hn & Hcalls & Hclock & Hroot & Hlog & Hfail & Hlast).
    destruct (CodeGenerator.attempts E 2 ps w) as [[code|e] w'];
      cbn [fst snd] in *.
    - exists n, ps. repeat split; try assumption; try lia.
      destruct (codegen_api E (clock w + (n - 1)) ps) as [code'|e] eqn:Hapi.
      + left. congruence.
      + right. destruct Hlast as [-> Hcode]. split; [reflexivity|].
        split; [exists e; exact Hapi|]. exists sections. congruence.
    - exfalso.
      destruct (codegen_api E (clock w + (n - 1)) ps);
        [discriminate Hlast|].
      destruct Hlast as [_ Hcode]. congruence. }
  destruct (N.ltb CodeGenerator.SCHEMA_SIZE_THRESHOLD
              (Text.py_len (Json.dumps 2 schema))).
  - unfold bind at 1, lift at 1.
    destruct (CodeGenerator.simplify_schema schema) as [simple|e];
      [|reflexivity].
    apply Hloop.
  - unfold bind at 1, ret at 1. apply Hloop.
Qed.

Lemma contains_startswith (p s : string) :
  Text.startswith p s = true -> Text.contains p s = true.
Proof.
  intros H. destruct s; cbn [Text.contains]; now rewrite H.
Qed.

Lemma contains_append_r (p a b : string) :
  Text.contains p a = true -> Text.contains p (a ++ b) = true.
Proof.
  assert (Hstart : forall p a, Text.startswith p a = true ->
                     Text.startswith p (a ++ b) = true).
  { clear. induction p as [|c p IH]; intros a; [reflexivity|].
    destruct a as [|c' a]; [discriminate|]. cbn [append Text.startswith].
    intros H. apply andb_true_iff in H as [Hc Hp].
    now rewrite Hc, (IH a Hp). }
  induction a as [|c r IH]; cbn [append].
  - destruct p; [intros _; destruct b; reflexivity|discriminate].
  - cbn [Text.contains]. intros H. apply orb_true_iff in H as [H|H].
    + pose proof (Hstart _ (String c r) H) as Hs. cbn [append] in Hs.
      now rewrite Hs.
    + rewrite (IH H). apply orb_true_r.
Qed.

(** The fallback template is the one that Step 5 looks for: whatever the
    schema, the code that [_generate_fallback_code] returns contains both
    ["API generation failed"] and ["fallback template"], the two phrases
    by which Step 5 tells a fallback from generated code. *)
Theorem fallback_code_is_recognised (E : env) (schema : json)
    (code : string) :
  CodeGenerator.generate_fallback_code E schema = Ok code ->
  Py.contains_str "API generation failed" (JStr code) = Ok true
  /\ Py.contains_str "fallback template" (JStr code) = Ok true.
Proof.
  unfold CodeGenerator.generate_fallback_code.
  destruct (Py.get schema "sections" (JList [])) as [sections|e];
    [|discriminate].
  intros [= <-]. cbn [Py.contains_str].
  split; f_equal; apply contains_append_r; vm_compute; reflexivity.
Qed.

Lemma fallback_code_is_recognised_witness :
  Py.contains_str "API generation failed"
    (JStr (CodeGenerator.fallback_header
           ++ fallback_body Example.env_ok
                (Json.dumps 8 (JList [])))) = Ok true
  /\ Py.contains_str "fallback template"
       (JStr (CodeGenerator.fallback_header
              ++ fallback_body Example.env_ok
                   (Json.dumps 8 (JList [])))) = Ok true.
Proof.
  apply (fallback_code_is_recognised Example.env_ok (JDict [])).
  reflexivity.
Defined.

(** ** Part 22. What the pipeline adds to the record of calls *)

Section EmitsFrame.

Variable Q : event -> Prop.

(** From every frame, the computation adds only events that have [Q]. *)
Definition emits_f {A : Type} (m : M frame A) : Prop :=
  forall f, emits_at Q f m.

Lemma ef_ret {A : Type} (a : A) : emits_f (ret a).
Proof. intros f. apply at_ret. Qed.

Lemma ef_raise {A : Type} (e : exn) : emits_f (@raise frame A e).
Proof. intros f. apply at_raise. Qed.

Lemma ef_lift {A : Type} (r : result A) : emits_f (lift r).
Proof. intros f. exists []. cbn. now rewrite List.app_nil_r. Qed.

Lemma ef_gets {A : Type} (g : frame -> A) : emits_f (gets g).
Proof. intros f. exists []. cbn. now rewrite List.app_nil_r. Qed.

Lemma ef_assign {X : Type} (set : X -> frame -> frame) (v : X) :
  (forall f, fw (set v f) = fw f) -> emits_f (assign set v).
Proof.
  intros H f. apply at_assign_last. now rewrite H.
Qed.

Lemma ef_W {A : Type} (m : M world A) : emits_w Q m -> emits_f (W m).
Proof. intros H f. now apply at_W. Qed.

Lemma ef_bind {A B : Type} (m : M frame A) (k : A -> M frame B) :
  emits_f m -> (forall a, emits_f (k a)) -> emits_f (bind m k).
Proof.
  intros Hm Hk f. apply at_bind; [apply Hm|]. intros a f1 _. apply Hk.
Qed.

Lemma ef_try {A : Type} (m : M frame A) (h : exn -> M frame A) :
  emits_f m -> (forall e, emits_f (h e)) -> emits_f (try_except m h).
Proof.
  intros Hm Hh f. apply at_try; [apply Hm|]. intros e f1 _. apply Hh.
Qed.

Lemma ef_for_each {A : Type} (l : list A) (body : A -> M frame unit) :
  (forall x, emits_f (body x)) -> emits_f (for_each l body).
Proof.
  intros H. induction l as [|x r IH]; cbn [for_each].
  - apply ef_ret.
  - apply ef_bind; [apply H|]. intros _. exact IH.
Qed.

Lemma ew_tick : emits_w Q Act.tick.
Proof. intros w. exists []. cbn. now rewrite List.app_nil_r. Qed.

Lemma ew_logger (level msg : string) (args : list json) :
  emits_w Q (Act.logger level msg args).
Proof. apply ew_modify. reflexivity. Qed.

Lemma ew_set_root (r : option listing) :
  emits_w Q (modify (fun w => set_root w r)).
Proof. apply ew_modify. reflexivity. Qed.

Lemma ew_run_ops (ops : list Fs.op) : emits_w Q (Act.run_ops ops).
Proof.
  induction ops as [|o rest IH]; cbn [Act.run_ops].
  - apply ew_ret.
  - apply ew_bind; [apply ew_gets|]. intros r.
    apply ew_bind; [apply ew_lift|]. intros r'.
    apply ew_bind; [apply ew_set_root|]. intros _. exact IH.
Qed.

End EmitsFrame.

Create HintDb emits.

#[local] Hint Resolve ew_ret ew_raise ew_lift ew_gets ew_tick ew_logger
  ew_set_root ew_run_ops ef_ret ef_raise ef_lift ef_gets : emits.

(** One step of a proof that a computation adds only events that have a
    given property: a known computation, or the rule of the construct at
    its head. *)
Ltac emits_step :=
  match goal with
  | |- _ => solve [auto 1 with emits nocore]
  | |- emits_w _ (bind _ _) => apply ew_bind; [|intros ?]
  | |- emits_w _ (try_except _ _) => apply ew_try; [|intros ?]
  | |- emits_w _ (Act.emit _) => apply ew_emit
  | |- emits_w _ (modify _) =>
      apply ew_modify; intros ?;
      repeat match goal with
             | |- context [match ?x with _ => _ end] => destruct x
             end; reflexivity
  | |- emits_f _ (bind _ _) => apply ef_bind; [|intros ?]
  | |- emits_f _ (try_except _ _) => apply ef_try; [|intros ?]
  | |- emits_f _ (W _) => apply ef_W
  | |- emits_f _ (assign _ _) => apply ef_assign; intros ?; reflexivity
  | |- emits_f _ (for_each _ _) => apply ef_for_each; intros ?
  | |- emits_w _ (match ?x with _ => _ end) => destruct x
  | |- emits_f _ (match ?x with _ => _ end) => destruct x
  end.

Ltac emits := repeat emits_step.

Lemma ew_write_text (Q : event -> Prop) (dir name text : string) :
  emits_w Q (Act.write_text dir name text).
Proof. unfold Act.write_text. emits. Qed.

Lemma ew_exists_file (Q : event -> Prop) (dir name : string) :
  emits_w Q (Act.exists_file dir name).
Proof. unfold Act.exists_file. emits. Qed.

Lemma ew_read_text (Q : event -> Prop) (dir name : string) :
  emits_w Q (Act.read_text dir name).
Proof. unfold Act.read_text. emits. Qed.

Lemma ew_json_load (Q : event -> Prop) (text : string) :
  emits_w Q (Act.json_load text).
Proof. unfold Act.json_load. emits. Qed.

Lemma ew_mkdir (Q : event -> Prop) (E : env) (parents : bool)
    (dir : string) :
  emits_w Q (Act.mkdir E parents dir).
Proof. unfold Act.mkdir. emits. Qed.

Lemma ew_remove_file (Q : event -> Prop) (dir name : string) :
  emits_w Q (Pipeline.remove_file dir name).
Proof. unfold Pipeline.remove_file. emits. Qed.

Lemma ew_update_slot (Q : event -> Prop) (dir : string) (g : slot -> slot) :
  emits_w Q (Pipeline.update_slot dir g).
Proof. unfold Pipeline.update_slot. emits. Qed.

#[local] Hint Resolve ew_write_text ew_exists_file ew_read_text ew_json_load
  ew_mkdir ew_remove_file ew_update_slot : emits.

Lemma ew_get_next_flow_id (Q : event -> Prop) :
  emits_w Q Settings.get_next_flow_id.
Proof. unfold Settings.get_next_flow_id. emits. Qed.

Lemma ew_get_flow_output_dir (Q : event -> Prop) (E : env) (id : Z) :
  emits_w Q (Settings.get_flow_output_dir E id).
Proof. unfold Settings.get_flow_output_dir. emits. Qed.

Lemma ew_init (Q : event -> Prop) (E : env) (dir : string) :
  emits_w Q (CheckpointManager.init E dir).
Proof. unfold CheckpointManager.init. emits. Qed.

Lemma ew_load_checkpoint (Q : event -> Prop) (dir : string) :
  emits_w Q (CheckpointManager.load_checkpoint dir).
Proof. unfold CheckpointManager.load_checkpoint. emits. Qed.

Lemma ew_save_step_result (Q : event -> Prop) (dir step_name : string)
    (v : json) (filename : option string) :
  emits_w Q (CheckpointManager.save_step_result dir step_name v filename).
Proof. unfold CheckpointManager.save_step_result. emits. Qed.

Lemma ew_load_step_result (Q : event -> Prop) (dir step_name : string)
    (filename : option string) :
  emits_w Q (CheckpointManager.load_step_result dir step_name filename).
Proof. unfold CheckpointManager.load_step_result. emits. Qed.

Lemma ew_step_result_exists (Q : event -> Prop) (dir step_name : string)
    (filename : option string) :
  emits_w Q (CheckpointManager.step_result_exists dir step_name filename).
Proof. unfold CheckpointManager.step_result_exists. emits. Qed.

#[local] Hint Resolve ew_get_next_flow_id ew_get_flow_output_dir ew_init
  ew_load_checkpoint ew_save_step_result ew_load_step_result
  ew_step_result_exists : emits.

(** [save_checkpoint] adds the checkpoint it saves, and nothing else. *)
Lemma ew_save_checkpoint (Q : event -> Prop) (E : env) (dir step : string)
    (data metadata : json) :
  Q (SavedCheckpoint dir step data) ->
  emits_w Q (CheckpointManager.save_checkpoint E dir step data metadata).
Proof.
  intros HQ. unfold CheckpointManager.save_checkpoint,
    CheckpointManager.save_checkpoint_ops.
  emits.
Qed.

Lemma ew_scan_entry (Q : event -> Prop) {A : Type} (E : env)
    (select : Z -> json -> result (option A)) (entry : string * node) :
  emits_w Q (Pipeline.scan_entry E select entry).
Proof. unfold Pipeline.scan_entry. emits. Qed.

#[local] Hint Resolve ew_scan_entry : emits.

Lemma ew_scan_first (Q : event -> Prop) {A : Type} (E : env)
    (select : Z -> json -> result (option A)) (l : listing) :
  emits_w Q (Pipeline.scan_first E select l).
Proof.
  induction l as [|entry r IH]; cbn [Pipeline.scan_first]; emits.
Qed.

Lemma ew_scan_all (Q : event -> Prop) {A : Type} (E : env)
    (select : Z -> json -> result (option A)) (l : listing) :
  emits_w Q (Pipeline.scan_all E select l).
Proof.
  induction l as [|entry r IH]; cbn [Pipeline.scan_all]; emits.
Qed.

Lemma ew_output_entries (Q : event -> Prop) :
  emits_w Q Pipeline.output_entries.
Proof. unfold Pipeline.output_entries. emits. Qed.

#[local] Hint Resolve ew_scan_first ew_scan_all ew_output_entries : emits.

Lemma ef_bind_gets (Q : event -> Prop) {A B : Type} (g : frame -> A)
    (k : A -> M frame B) :
  (forall f, emits_f Q (k (g f))) -> emits_f Q (bind (gets g) k).
Proof.
  intros H f. apply at_gets. apply (H f f).
Qed.

Lemma ew_analyze_all (Q : event -> Prop) (E : env)
    (html_files : list Pipeline.html_file) :
  (forall id, Q (CallAnalyze id)) ->
  emits_w Q (Pipeline.analyze_all E html_files).
Proof.
  intros HQ. induction html_files as [|x r IH];
    cbn [Pipeline.analyze_all]; emits.
Qed.

Lemma ew_visual_all (Q : event -> Prop) (E : env)
    (html_files : list Pipeline.html_file) :
  (forall id, Q (CallVisual id)) ->
  emits_w Q (Pipeline.visual_all E html_files).
Proof.
  intros HQ. induction html_files as [|x r IH];
    cbn [Pipeline.visual_all]; emits.
Qed.

Lemma ew_attempts (Q : event -> Prop) (E : env) (k : nat) (schema : json) :
  (forall s, Q (CallCodegenApi s)) ->
  emits_w Q (CodeGenerator.attempts E k schema).
Proof.
  intros HQ. induction k as [|k IH]; cbn [CodeGenerator.attempts]; emits.
Qed.

Lemma ew_generate_extraction_code (Q : event -> Prop) (E : env)
    (schema : json) :
  (forall s, Q (CallCodegenApi s)) ->
  emits_w Q (CodeGenerator.generate_extraction_code E schema).
Proof.
  intros HQ. unfold CodeGenerator.generate_extraction_code. cbv zeta.
  pose proof (fun k s => ew_attempts Q E k s HQ) as Hloop.
  emits.
Qed.

Lemma ef_open_slot (Q : event -> Prop) (E : env) (id : Z) :
  emits_f Q (Pipeline.open_slot E id).
Proof. unfold Pipeline.open_slot. emits. Qed.

#[local] Hint Resolve ef_open_slot : emits.

Lemma ef_open_next_slot (Q : event -> Prop) (E : env)
    (set_id : Z -> frame -> frame) :
  (forall v f, fw (set_id v f) = fw f) ->
  emits_f Q (Pipeline.open_next_slot E set_id).
Proof.
  intros Hset. unfold Pipeline.open_next_slot.
  apply ef_bind; [emits|]. intros id.
  apply ef_bind; [apply ef_assign; apply Hset|]. intros _. emits.
Qed.

Lemma ef_refresh (Q : event -> Prop) (checkpoint : json) (key : string)
    (current : frame -> json) (set : json -> frame -> frame) :
  (forall v f, fw (set v f) = fw f) ->
  emits_f Q (Pipeline.refresh checkpoint key current set).
Proof.
  intros Hset. unfold Pipeline.refresh.
  apply ef_bind; [emits|]. intros old.
  apply ef_bind; [emits|]. intros v. apply ef_assign. apply Hset.
Qed.

Lemma ef_write_json (Q : event -> Prop) (dir name : string) (v : json) :
  emits_f Q (Pipeline.write_json dir name v).
Proof. unfold Pipeline.write_json. emits. Qed.

#[local] Hint Resolve ef_write_json : emits.

(** The same for the pipeline, where the property is [Spec.event_ok]: the
    value that [gets] reads is kept, and the events are checked by
    evaluation. *)
Ltac pipeline_step uv :=
  match goal with
  | |- _ => solve [auto 1 with emits nocore]
  | |- emits_f _ (Pipeline.open_next_slot _ _) =>
      apply ef_open_next_slot; intros ? ?; reflexivity
  | |- emits_f _ (Pipeline.refresh _ _ _ _) =>
      apply ef_refresh; intros ? ?; reflexivity
  | |- emits_f _ (bind (gets _) _) => apply ef_bind_gets; intros ?
  | |- emits_w _ (CheckpointManager.save_checkpoint _ _ _ _ _) =>
      apply ew_save_checkpoint;
      first [reflexivity | destruct uv; reflexivity]
  | |- emits_w _ (Act.emit _) =>
      apply ew_emit; first [reflexivity | destruct uv; reflexivity]
  | |- emits_w _ (Pipeline.analyze_all _ _) =>
      apply ew_analyze_all; intros ?;
      first [reflexivity | destruct uv; reflexivity]
  | |- emits_w _ (Pipeline.visual_all _ _) =>
      apply ew_visual_all; intros ?;
      first [reflexivity | destruct uv; reflexivity]
  | |- emits_w _ (CodeGenerator.generate_extraction_code _ _) =>
      apply ew_generate_extraction_code; intros ?;
      first [reflexivity | destruct uv; reflexivity]
  | |- _ => emits_step
  end.

Ltac pipeline uv := cbv zeta; repeat (pipeline_step uv; cbv zeta).

Lemma step1_events (E : env) (html_files : list Pipeline.html_file)
    (ids : list string) (uv : bool) :
  emits_f (fun e => Spec.event_ok uv e = true)
    (Pipeline.step1 E html_files ids).
Proof. unfold Pipeline.step1. pipeline uv. Qed.

Lemma step2_events (E : env) (html_files : list Pipeline.html_file)
    (ids : list string) (uv : bool) :
  emits_f (fun e => Spec.event_ok uv e = true)
    (Pipeline.step2 E html_files ids uv).
Proof.
  unfold Pipeline.step2. destruct uv; [pipeline true|pipeline false].
Qed.

Lemma step3_events (E : env) (ids : list string) (uv : bool) :
  emits_f (fun e => Spec.event_ok uv e = true) (Pipeline.step3 E ids uv).
Proof. unfold Pipeline.step3. pipeline uv. Qed.

Lemma step4_events (E : env) (ids : list string) (uv : bool) :
  emits_f (fun e => Spec.event_ok uv e = true) (Pipeline.step4 E ids uv).
Proof. unfold Pipeline.step4. pipeline uv. Qed.

Lemma step5_generate_events (E : env) (dir : string) (ids : list string)
    (uv : bool) :
  emits_f (fun e => Spec.event_ok uv e = true)
    (Pipeline.step5_generate E dir ids uv).
Proof. unfold Pipeline.step5_generate. pipeline uv. Qed.

#[local] Hint Resolve step5_generate_events : emits.

Lemma step5_events (E : env) (ids : list string) (uv : bool) :
  emits_f (fun e => Spec.event_ok uv e = true) (Pipeline.step5 E ids uv).
Proof. unfold Pipeline.step5. pipeline uv. Qed.

Lemma step6_5_events (E : env) (dir : string) (uv : bool) :
  emits_f (fun e => Spec.event_ok uv e = true) (Pipeline.step6_5 E dir).
Proof. unfold Pipeline.step6_5. pipeline uv. Qed.

#[local] Hint Resolve step6_5_events : emits.

Lemma call_validate_events (E : env) (code schema : json) (uv : bool) :
  emits_f (fun e => Spec.event_ok uv e = true)
    (Pipeline.call_validate E code schema).
Proof. unfold Pipeline.call_validate. pipeline uv. Qed.

#[local] Hint Resolve call_validate_events : emits.

Lemma step6_body_events (E : env) (dir : string) (ids : list string)
    (uv : bool) :
  emits_f (fun e => Spec.event_ok uv e = true)
    (Pipeline.step6_body E dir ids uv).
Proof. unfold Pipeline.step6_body. pipeline uv. Qed.

#[local] Hint Resolve step6_body_events : emits.

Lemma step6_validate_events (E : env) (ids : list string) (uv : bool) :
  emits_f (fun e => Spec.event_ok uv e = true)
    (Pipeline.step6_validate E ids uv).
Proof. unfold Pipeline.step6_validate. pipeline uv. Qed.

#[local] Hint Resolve step6_validate_events : emits.

Lemma step6_events (E : env) (ids : list string) (uv : bool) :
  emits_f (fun e => Spec.event_ok uv e = true) (Pipeline.step6 E ids uv).
Proof. unfold Pipeline.step6. pipeline uv. Qed.

Lemma save_intermediate_results_events (ids : list string) (uv : bool) :
  emits_f (fun e => Spec.event_ok uv e = true)
    (Pipeline.save_intermediate_results ids uv).
Proof. unfold Pipeline.save_intermediate_results. pipeline uv. Qed.

Lemma step7_5_events (E : env) (dir results_dir : string) (uv : bool) :
  emits_f (fun e => Spec.event_ok uv e = true)
    (Pipeline.step7_5 E dir results_dir).
Proof. unfold Pipeline.step7_5. pipeline uv. Qed.

#[local] Hint Resolve step7_5_events : emits.

Lemma call_markdown_gen_events (E : env) (analysis sample : json)
    (retry uv : bool) :
  emits_f (fun e => Spec.event_ok uv e = true)
    (Pipeline.call_markdown_gen E analysis sample retry).
Proof. unfold Pipeline.call_markdown_gen. pipeline uv. Qed.

#[local] Hint Resolve call_markdown_gen_events : emits.

Lemma syntax_loop_events (E : env) (remaining : nat) (analysis sample : json)
    (uv : bool) :
  emits_f (fun e => Spec.event_ok uv e = true)
    (Pipeline.syntax_loop E remaining analysis sample).
Proof.
  induction remaining as [|k IH]; cbn [Pipeline.syntax_loop]; pipeline uv.
Qed.

#[local] Hint Resolve syntax_loop_events : emits.

Lemma step7_body_events (E : env) (dir results_dir : string)
    (ids : list string) (uv : bool) :
  emits_f (fun e => Spec.event_ok uv e = true)
    (Pipeline.step7_body E dir results_dir ids).
Proof. unfold Pipeline.step7_body. pipeline uv. Qed.

#[local] Hint Resolve step7_body_events : emits.

Lemma step7_convert_events (E : env) (results_dir : string)
    (ids : list string) (uv : bool) :
  emits_f (fun e => Spec.event_ok uv e = true)
    (Pipeline.step7_convert E results_dir ids).
Proof. unfold Pipeline.step7_convert. pipeline uv. Qed.

#[local] Hint Resolve step7_convert_events : emits.

Lemma step7_events (E : env) (ids : list string) (uv : bool) :
  emits_f (fun e => Spec.event_ok uv e = true) (Pipeline.step7 E ids).
Proof. unfold Pipeline.step7. pipeline uv. Qed.

Lemma load_flow_events (info : Pipeline.flow_info) (uv : bool) :
  emits_f (fun e => Spec.event_ok uv e = true) (Pipeline.load_flow info).
Proof. unfold Pipeline.load_flow. pipeline uv. Qed.

#[local] Hint Resolve load_flow_events : emits.

Lemma resume_scan_events (E : env) (resume uv : bool) :
  emits_f (fun e => Spec.event_ok uv e = true)
    (Pipeline.resume_scan E resume).
Proof. unfold Pipeline.resume_scan. pipeline uv. Qed.

#[local] Hint Resolve step1_events step2_events step3_events step4_events
  step5_events step6_events save_intermediate_results_events step7_events
  resume_scan_events : emits.

Lemma process_html_files_body_events (E : env)
    (html_files : list Pipeline.html_file) (uv resume : bool) :
  emits_f (fun e => Spec.event_ok uv e = true)
    (Pipeline.process_html_files_body E html_files uv resume).
Proof. unfold Pipeline.process_html_files_body. pipeline uv. Qed.

(** What a run adds to the record of calls. *)
Lemma process_html_files_events (E : env)
    (html_files : list Pipeline.html_file) (uv resume : bool) (w : world) :
  exists new,
    calls (snd (Pipeline.process_html_files E html_files uv resume w))
    = (calls w ++ new)%list
    /\ Forall (fun e => Spec.event_ok uv e = true) new.
Proof.
  destruct (process_html_files_body_events E html_files uv resume (enter w))
    as (new & Hcalls & Hall).
  exists new. split; [|exact Hall].
  unfold Pipeline.process_html_files.
  destruct (Pipeline.process_html_files_body E html_files uv resume (enter w))
    as [r f].
  exact Hcalls.
Qed.


(** With the visual analysis disabled, a run never calls the visual
    analyser, whatever the collaborators answer and whatever the output
    root holds (even checkpoints of an earlier run that had it enabled):
    the synthesis receives an empty list as visual analysis, and every
    checkpoint saved records the visual results as an empty list, or not
    at all. *)
Theorem visual_disabled_is_recorded_empty (E : env)
    (html_files : list Pipeline.html_file) (resume : bool) (w : world) :
  exists new,
    calls (snd (Pipeline.process_html_files E html_files false resume w))
    = (calls w ++ new)%list
    /\ (forall id, ~ In (CallVisual id) new)
    /\ (forall ids combined,
          In (CallSynthesize ids combined) new ->
          Py.get combined "visual_analysis" JNull = Ok (JList []))
    /\ (forall dir step data,
          In (SavedCheckpoint dir step data) new ->
          Py.get data "visual_results" (JList []) = Ok (JList [])).
Proof.
  destruct (process_html_files_events E html_files false resume w)
    as (new & Hcalls & Hall).
  exists new. split; [exact Hcalls|].
  rewrite Forall_forall in Hall.
  assert (Hvis : forall e, In e new -> Spec.visual_is_empty e = true).
  { intros e Hin. specialize (Hall e Hin). unfold Spec.event_ok in Hall.
    apply andb_true_iff in Hall as [_ H]. exact H. }
  split; [|split].
  - intros id Hin. specialize (Hvis _ Hin). discriminate Hvis.
  - intros ids combined Hin. specialize (Hvis _ Hin).
    cbn [Spec.visual_is_empty] in Hvis.
    destruct combined as [| | | | | |d]; try discriminate Hvis.
    cbn [Py.get].
    destruct (Py.lookup "visual_analysis" d) as [[| | | | |[|x l]|]|];
      try discriminate Hvis; reflexivity.
  - intros dir step data Hin. specialize (Hvis _ Hin).
    cbn [Spec.visual_is_empty] in Hvis.
    destruct data as [| | | | | |d]; try discriminate Hvis.
    cbn [Py.get].
    destruct (Py.lookup "visual_results" d) as [[| | | | |[|x l]|]|];
      try discriminate Hvis; reflexivity.
Qed.

(** ** Part 23. The failure handlers of Steps 5 and 7 *)

Lemma set_fw_fw (f : frame) : set_fw (fw f) f = f.
Proof. destruct f. reflexivity. Qed.

Lemma generate_extraction_code_raise (E : env) (schema : json)
    (w w1 : world) (e : exn) :
  CodeGenerator.generate_extraction_code E schema w = (Raise e, w1) ->
  w1 = w.
Proof.
  unfold CodeGenerator.generate_extraction_code.
  assert (Hloop : forall ps,
    bind (lift (CodeGenerator.prompt_sections_count ps))
      (fun _ => CodeGenerator.attempts E (CodeGenerator.max_retries - 1) ps) w
    = (Raise e, w1) -> w1 = w).
  { intros ps. unfold bind, lift.
    destruct (CodeGenerator.prompt_sections_count ps) as [count|e'] eqn:Hcount;
      [|congruence].
    destruct (attempts_spec E (CodeGenerator.max_retries - 1) ps w)
      as (n & _ & _ & _ & _ & _ & _ & Hlast).
    intros Hraise. rewrite Hraise in Hlast. cbn [fst] in Hlast. exfalso.
    destruct (codegen_api E (clock w + (n - 1)) ps); [discriminate Hlast|].
    destruct Hlast as [_ Hfb].
    unfold CodeGenerator.prompt_sections_count in Hcount.
    unfold CodeGenerator.generate_fallback_code in Hfb.
    destruct (Py.get ps "sections" (JList [])); discriminate. }
  destruct (N.ltb CodeGenerator.SCHEMA_SIZE_THRESHOLD
              (Text.py_len (Json.dumps 2 schema))).
  - unfold bind at 1, lift at 1.
    destruct (CodeGenerator.simplify_schema schema) as [simple|e'];
      [apply Hloop|congruence].
  - unfold bind at 1, ret at 1. apply Hloop.
Qed.

(** When the generation of the extraction code raises, Step 5 pins its
    slot and raises the same exception: it removes [extraction_code.py]
    when the slot holds one, saves in the slot a checkpoint with the
    identity ["schema"] whose data are the outputs of Steps 1 to 4, the
    message of the exception and the flag [code_generation_failed], and
    saves nothing else.  That checkpoint is one that the scan of Step 5
    takes as an incomplete attempt, in the flow whose number it reads for
    the slot. *)
Theorem step5_failure_is_pinned (E : env) (dir : string) (ids : list string)
    (uv : bool) (f : frame) (e : exn) (w1 : world) (d : slot) :
  CodeGenerator.generate_extraction_code E (json_schema f) (fw f)
    = (Raise e, w1) ->
  Fs.slot_of (root (fw f)) dir = Some d ->
  let data := Pipeline.step5_failure_data uv ids e f in
  let checkpoint :=
    CheckpointManager.checkpoint_record "schema"
      (isoformat E (clock (fw f))) data JNull in
  exists f',
    Pipeline.step5_generate E dir ids uv f = (Raise e, f')
    /\ Fs.file_of (root (fw f')) dir CheckpointManager.CHECKPOINT_FILE
       = Some (Utf8 (Json.dumps 2 checkpoint))
    /\ Fs.file_of (root (fw f')) dir Pipeline.CODE_FILE = None
    /\ calls (fw f') = (calls (fw f) ++ [SavedCheckpoint dir "schema" data])%list
    /\ Py.get data "error" JNull
       = Ok (JStr ("Code generation failed: " ++ exn_msg e))
    /\ (forall n, Pipeline.select_incomplete_step5 n checkpoint = Ok (Some n)).
Proof.
  intros Hgen Hd data checkpoint.
  pose proof (generate_extraction_code_raise _ _ _ _ _ Hgen) as ->.
  unfold Pipeline.step5_generate, try_except.
  unfold bind at 1, gets at 1. unfold bind at 1, W at 1.
  rewrite Hgen, set_fw_fw.
  unfold bind at 1, W at 1, Act.exists_file. run_monad.
  assert (Hlast :
    Py.get data "error" JNull
    = Ok (JStr ("Code generation failed: " ++ exn_msg e))
    /\ (forall n, Pipeline.select_incomplete_step5 n checkpoint
                  = Ok (Some n))).
  { split; [reflexivity|]. intros n. reflexivity. }
  destruct (Fs.file_of (root (fw f)) dir Pipeline.CODE_FILE) as [old|] eqn:Hold.
  - unfold Pipeline.remove_file. run_monad. cbn [fw set_fw].
    rewrite Hd. cbn [fw set_fw root clock calls log set_root].
    rewrite save_checkpoint_eq. cbn [root set_root].
    pose proof (slot_of_put_slot_eq _ _ d
                  (Fs.set_files d
                     (filter
                        (fun nf =>
                           negb (String.eqb (fst nf) Pipeline.CODE_FILE))
                        (files d))) Hd) as Hd'.
    rewrite Hd'. eexists. split; [reflexivity|].
    cbn [fw set_fw root clock calls log set_root].
    split; [|split; [|split]].
    + rewrite (file_of_written_eq _ _ _ _ _ Hd'). reflexivity.
    + rewrite file_of_written_ne by discriminate.
      unfold Fs.file_of. rewrite Hd'. cbn [files Fs.set_files].
      apply lookup_filter_eq.
    + reflexivity.
    + exact Hlast.
  - run_monad. cbn [fw set_fw]. rewrite save_checkpoint_eq, Hd.
    eexists. split; [reflexivity|].
    cbn [fw set_fw root clock calls log set_root].
    split; [|split; [|split]].
    + rewrite (file_of_written_eq _ _ _ _ _ Hd). reflexivity.
    + rewrite file_of_written_ne by discriminate. exact Hold.
    + reflexivity.
    + exact Hlast.
Qed.

Lemma step5_failure_is_pinned_witness :
  exists f',
    Pipeline.step5_generate Example.env_ok "flow1" ["a.html"] false
      (set_json_schema (JStr "not a dict") (enter Example.one_slot))
    = (Raise (Py.attribute_error "get"), f')
    /\ calls (fw f')
       = [SavedCheckpoint "flow1" "schema"
            (Pipeline.step5_failure_data false ["a.html"]
               (Py.attribute_error "get")
               (set_json_schema (JStr "not a dict")
                  (enter Example.one_slot)))].
Proof.
  destruct (step5_failure_is_pinned Example.env_ok "flow1" ["a.html"] false
              (set_json_schema (JStr "not a dict") (enter Example.one_slot))
              (Py.attribute_error "get") Example.one_slot empty_slot
              eq_refl eq_refl)
    as (f' & Hrun & _ & _ & Hcalls & _).
  exists f'. split; [exact Hrun|exact Hcalls].
Defined.



(** The marker of a failed Step 7 undoes the resume.  Its checkpoint has
    the identity ["code_validated"] and no stage output: the scan of
    Step 6 takes its slot as one that holds validated code, with [None]
    for the code and for the validation; and the resume scan, which
    applies the checkpoints in ascending order of flow number, applies it
    last when its slot has the largest number, as the slot of Step 7 has,
    so that the six stage outputs recovered from the earlier checkpoints
    are all [None] again and every stage runs anew. *)
Theorem failed_step7_marker_erases_resume (ts : string) (e : exn)
    (n : Z) (a b : list Pipeline.flow_info) (f f1 : frame) :
  let marker :=
    CheckpointManager.checkpoint_record "code_validated" ts
      (Pipeline.step7_failure_data e) JNull in
  (forall y, In y (a ++ b)%list -> (fst (fst y) < n)%Z) ->
  for_each (Pipeline.sort_flows (a ++ b)%list) Pipeline.load_flow f
    = (Ok tt, f1) ->
  Pipeline.select_validated n marker = Ok (Some (n, JNull, JNull))
  /\ exists f2,
       for_each
         (Pipeline.sort_flows
            (a ++ (n, marker, JStr "code_validated") :: b)%list)
         Pipeline.load_flow f = (Ok tt, f2)
       /\ analysis_results f2 = JNull /\ visual_results f2 = JNull
       /\ synthesized f2 = JNull /\ json_schema f2 = JNull
       /\ extraction_code f2 = JNull /\ validation_result f2 = JNull.
Proof.
  intros marker Hlt Hrest. split; [reflexivity|].
  rewrite sort_flows_largest_last by exact Hlt.
  rewrite for_each_app. unfold bind at 1. rewrite Hrest.
  cbn [for_each]. eexists. split; [reflexivity|].
  repeat split.
Qed.

Lemma failed_step7_marker_erases_resume_witness :
  exists f2,
    for_each
      (Pipeline.sort_flows
         ([] ++ (7%Z,
                 CheckpointManager.checkpoint_record "code_validated" "T9"
                   (Pipeline.step7_failure_data Example.api_down) JNull,
                 JStr "code_validated")
             :: [(3%Z, Example.schema_at "schema", JStr "schema")])%list)
      Pipeline.load_flow (enter Example.fresh) = (Ok tt, f2)
    /\ json_schema f2 = JNull.
Proof.
  assert (Hlt : forall y : Pipeline.flow_info,
             In y ([] ++ [(3%Z, Example.schema_at "schema", JStr "schema")])%list ->
             (fst (fst y) < 7)%Z).
  { intros y [<-|[]]. reflexivity. }
  destruct (failed_step7_marker_erases_resume "T9"
              Example.api_down 7 []
              [(3%Z, Example.schema_at "schema", JStr "schema")]
              (enter Example.fresh)
              (snd (for_each
                      (Pipeline.sort_flows
                         ([] ++ [(3%Z, Example.schema_at "schema",
                                  JStr "schema")])%list)
                      Pipeline.load_flow (enter Example.fresh)))
              Hlt eq_refl)
    as (_ & f2 & Hrun & _ & _ & _ & Hschema & _).
  exists f2. split; assumption.
Defined.

(** ** Part 24. What a resumed run does not do again *)

(** Opening a slot adds nothing to the record of calls and changes no
    local variable; it returns the name of the directory, or raises. *)
Lemma open_slot_spec (E : env) (id : Z) (f : frame) :
  exists w',
    snd (Pipeline.open_slot E id f) = set_fw w' f
    /\ calls w' = calls (fw f)
    /\ (fst (Pipeline.open_slot E id f) = Ok (Py.flow_name id)
        \/ exists e, fst (Pipeline.open_slot E id f) = Raise e).
Proof.
  unfold Pipeline.open_slot, Settings.get_flow_output_dir,
    CheckpointManager.init, W.
  destruct (bind
              (bind (Act.mkdir E true (Py.flow_name id))
                 (fun _ => ret (Py.flow_name id)))
              (fun dir => bind (Act.mkdir E false dir) (fun _ => ret dir))
              (fw f)) as [r w'] eqn:Hrun.
  exists w'. cbn [fst snd]. split; [reflexivity|].
  revert Hrun. unfold bind, ret.
  assert (Hmk : forall parents dir w,
             calls (snd (Act.mkdir E parents dir w)) = calls w).
  { intros parents dir w. unfold Act.mkdir. run_monad.
    destruct (root w) as [l|];
      [destruct (Fs.lookup dir l) as [[x|x]|]|destruct parents];
      reflexivity. }
  pose proof (Hmk true (Py.flow_name id) (fw f)) as H1.
  destruct (Act.mkdir E true (Py.flow_name id) (fw f)) as [[[]|e1] w1];
    cbn [snd] in H1.
  - pose proof (Hmk false (Py.flow_name id) w1) as H2.
    destruct (Act.mkdir E false (Py.flow_name id) w1) as [[[]|e2] w2];
      cbn [snd] in H2; intros [= <- <-];
      (split; [congruence|]); [left; reflexivity|right; eauto].
  - intros [= <- <-]. split; [exact H1|right; eauto].
Qed.

(** Step 6.5 executes the extraction code once and returns normally. *)
Lemma step6_5_spec (E : env) (dir : string) (f : frame) :
  exists w',
    Pipeline.step6_5 E dir f = (Ok tt, set_fw w' f)
    /\ calls w' = (calls (fw f) ++ [CallExecuteExtraction dir])%list.
Proof.
  unfold Pipeline.step6_5, Pipeline.update_slot, W. run_monad.
  cbn [root clock calls log].
  destruct (Fs.slot_of (root (fw f)) dir);
    eexists; split; reflexivity.
Qed.

(** Step 7.5 executes the Markdown converter at most once and returns
    normally. *)
Lemma step7_5_spec (E : env) (dir results_dir : string) (f : frame) :
  exists w',
    Pipeline.step7_5 E dir results_dir f = (Ok tt, set_fw w' f)
    /\ calls w' = (calls (fw f) ++ [CallExecuteMarkdown dir])%list.
Proof.
  unfold Pipeline.step7_5, Pipeline.update_slot, W. run_monad.
  cbn [root clock calls log].
  destruct (Fs.file_of (root (fw f)) dir Pipeline.CONVERTER_FILE)
    as [converter|]; [|eexists; split; reflexivity].
  destruct (Fs.slot_of (root (fw f)) results_dir) as [rs|];
    [|eexists; split; reflexivity].
  destruct (extraction_results rs) as [results|];
    [|eexists; split; reflexivity].
  destruct (Pipeline.glob_json results) as [|x r];
    [eexists; split; reflexivity|].
  cbn [root clock calls log].
  destruct (Fs.slot_of (root (fw f)) dir);
    eexists; split; reflexivity.
Qed.

(** What the first-match scan finds when some entry is selected. *)
Lemma scan_first_found {A : Type} (E : env)
    (select : Z -> json -> result (option A)) (w : world) (l : listing) :
  root w = Some l ->
  (exists entry, In entry l /\ Spec.selection select (root w) entry <> None) ->
  exists a w',
    Pipeline.scan_first E select l w = (Ok (Some a), w')
    /\ same_but_log w w'
    /\ exists entry, In entry l /\ Spec.selection select (root w) entry = Some a.
Proof.
  intros Hroot (entry & Hin & Hsel).
  destruct (scan_first_spec E select w l l Hroot (incl_refl l))
    as (found & w' & Hscan & Hsame & Hfound).
  destruct found as [a|].
  - exists a, w'. split; [exact Hscan|]. split; [exact Hsame|].
    destruct Hfound as (before & e & after & -> & He & _).
    exists e. split; [|exact He]. apply in_or_app. right. left. reflexivity.
  - exfalso. apply Hsel. apply Hfound. exact Hin.
Qed.

(** A slot that holds validated code is not validated again.  When the
    output root has a checkpoint that the scan of Step 6 selects, and
    every checkpoint that it may select holds a code and a validation
    result, Step 6 takes the code and the validation of one of them, in
    the flow of that number: it does not call the validator and saves no
    checkpoint; it executes the extraction code again (Step 6.5), once,
    unless opening the slot raises. *)
Theorem step6_reuses_validated_code (E : env) (ids : list string)
    (uv : bool) (f : frame) (l : listing) :
  root (fw f) = Some l ->
  (exists entry,
     In entry l
     /\ Spec.selection Pipeline.select_validated (root (fw f)) entry
        <> None) ->
  (forall entry n code validation,
     In entry l ->
     Spec.selection Pipeline.select_validated (root (fw f)) entry
     = Some (n, code, validation) ->
     Py.is_none code = false /\ Py.is_none validation = false) ->
  exists n code validation r f',
    Pipeline.step6 E ids uv f = (r, f')
    /\ (exists entry,
          In entry l
          /\ Spec.selection Pipeline.select_validated (root (fw f)) entry
             = Some (n, code, validation))
    /\ step6_flow_id f' = n /\ extraction_code f' = code
    /\ validation_result f' = validation
    /\ ((r = Ok tt
         /\ calls (fw f')
            = (calls (fw f) ++ [CallExecuteExtraction (Py.flow_name n)])%list)
        \/ ((exists e, r = Raise e) /\ calls (fw f') = calls (fw f))).
Proof.
  intros Hroot Hsome Hall.
  destruct (scan_first_found E Pipeline.select_validated (fw f) l Hroot Hsome)
    as ([[n code] validation] & w1 & Hscan & (Hr1 & Hc1 & Hk1)
        & entry & Hin & Hsel).
  destruct (Hall entry n code validation Hin Hsel) as [Hcode Hval].
  exists n, code, validation.
  unfold Pipeline.step6.
  unfold bind at 1, assign at 1, modify at 1.
  unfold bind at 1, W at 1, Pipeline.output_entries at 1.
  change (fw (set_validation_result JNull f)) with (fw f).
  unfold bind at 1, gets at 1, ret at 1. rewrite Hroot.
  unfold bind at 1, W at 1.
  cbn [fw set_fw set_validation_result].
  rewrite Hscan. rewrite Hcode, Hval. cbn [negb andb].
  unfold bind at 1, assign at 1, modify at 1.
  unfold bind at 1, assign at 1, modify at 1.
  unfold bind at 1, assign at 1, modify at 1.
  unfold bind at 1.
  match goal with
  | |- context [Pipeline.open_slot E n ?g] =>
      destruct (open_slot_spec E n g) as (w2 & Hsnd & Hcalls2 & Hfst);
      destruct (Pipeline.open_slot E n g) as [r2 f2]
  end.
  cbn [fst snd] in Hsnd, Hfst. subst f2.
  cbn [fw set_fw set_validation_result set_step6_flow_id
       set_extraction_code] in Hcalls2.
  destruct Hfst as [->|(e & ->)].
  - match goal with
    | |- context [Pipeline.step6_5 E ?dir ?g] =>
        destruct (step6_5_spec E dir g) as (w3 & Hrun3 & Hcalls3);
        rewrite Hrun3
    end.
    eexists. eexists. split; [reflexivity|].
    split; [exists entry; split; [exact Hin|rewrite <- Hroot; exact Hsel]|].
    cbn [fw set_fw step6_flow_id extraction_code validation_result
         set_validation_result set_step6_flow_id set_extraction_code].
    repeat split. left. split; [reflexivity|].
    cbn [fw set_fw] in Hcalls3. rewrite Hcalls3, Hcalls2, Hk1.
    reflexivity.
  - eexists. eexists. split; [reflexivity|].
    split; [exists entry; split; [exact Hin|rewrite <- Hroot; exact Hsel]|].
    cbn [fw set_fw step6_flow_id extraction_code validation_result
         set_validation_result set_step6_flow_id set_extraction_code].
    repeat split. right. split; [eauto|]. rewrite Hcalls2, Hk1.
    reflexivity.
Qed.

Lemma step6_reuses_validated_code_witness :
  exists n code validation r f',
    Pipeline.step6 Example.env_ok ["a.html"] true
      (enter Example.two_validated) = (r, f')
    /\ step6_flow_id f' = n /\ extraction_code f' = code
    /\ validation_result f' = validation.
Proof.
  destruct (step6_reuses_validated_code Example.env_ok ["a.html"] true
              (enter Example.two_validated)
              [("flow7",
                NDir (Example.slot_with (Example.validated "later attempt")));
               ("flow3",
                NDir (Example.slot_with
                        (Example.validated "earlier attempt")))]
              eq_refl)
    as (n & code & validation & r & f' & Hrun & _ & Hn & Hc & Hv & _).
  - eexists. split; [left; reflexivity|]. vm_compute. discriminate.
  - intros entry n code validation [<-|[<-|[]]] Hsel;
      vm_compute in Hsel; inversion Hsel; split; reflexivity.
  - exists n, code, validation, r, f'. repeat split; assumption.
Defined.


Lemma write_json_calls (dir name : string) (v : json) (f : frame) :
  calls (fw (snd (Pipeline.write_json dir name v f))) = calls (fw f)
  /\ step7_flow_id (snd (Pipeline.write_json dir name v f)) = step7_flow_id f
  /\ markdown_converter_code (snd (Pipeline.write_json dir name v f))
     = markdown_converter_code f
  /\ content_analysis (snd (Pipeline.write_json dir name v f))
     = content_analysis f.
Proof.
  unfold Pipeline.write_json, W, Act.write_text. rewrite run_ops_write.
  destruct (Fs.slot_of (root (fw f)) dir); repeat split.
Qed.

(** A slot that holds a Markdown converter is not converted again.  When
    the output root has a checkpoint that the scan of Step 7 selects, and
    every checkpoint that it may select holds a converter and a content
    analysis, Step 7 takes those of one of them, in the flow of that
    number: it does not analyse the content, generates no converter and
    saves no checkpoint; it runs the converter again (Step 7.5), once,
    unless opening the slot raises. *)
Theorem step7_reuses_converter (E : env) (ids : list string) (f : frame)
    (l : listing) :
  root (fw f) = Some l ->
  (exists entry,
     In entry l
     /\ Spec.selection Pipeline.select_converted (root (fw f)) entry
        <> None) ->
  (forall entry n code analysis,
     In entry l ->
     Spec.selection Pipeline.select_converted (root (fw f)) entry
     = Some (n, code, analysis) ->
     Py.is_none code = false /\ Py.is_none analysis = false) ->
  exists n code analysis r f',
    Pipeline.step7 E ids f = (r, f')
    /\ (exists entry,
          In entry l
          /\ Spec.selection Pipeline.select_converted (root (fw f)) entry
             = Some (n, code, analysis))
    /\ step7_flow_id f' = n /\ markdown_converter_code f' = code
    /\ content_analysis f' = analysis
    /\ (calls (fw f')
        = (calls (fw f) ++ [CallExecuteMarkdown (Py.flow_name n)])%list
        \/ ((exists e, r = Raise e) /\ calls (fw f') = calls (fw f))).
Proof.
  intros Hroot Hsome Hall.
  destruct (scan_first_found E Pipeline.select_converted (fw f) l Hroot Hsome)
    as ([[n code] analysis] & w1 & Hscan & (Hr1 & Hc1 & Hk1)
        & entry & Hin & Hsel).
  destruct (Hall entry n code analysis Hin Hsel) as [Hcode Hana].
  exists n, code, analysis.
  assert (Hentry : exists entry,
             In entry l
             /\ Spec.selection Pipeline.select_converted (root (fw f)) entry
                = Some (n, code, analysis))
    by (exists entry; split; assumption).
  unfold Pipeline.step7.
  unfold bind at 1, assign at 1, modify at 1.
  unfold bind at 1, assign at 1, modify at 1.
  unfold bind at 1, gets at 1.
  unfold bind at 1, W at 1, Pipeline.output_entries at 1.
  change (fw (set_content_analysis JNull
                (set_markdown_converter_code JNull f))) with (fw f).
  unfold bind at 1, gets at 1, ret at 1. rewrite Hroot.
  unfold bind at 1, W at 1.
  cbn [fw set_fw set_content_analysis set_markdown_converter_code].
  rewrite Hscan. rewrite Hcode, Hana. cbn [negb andb].
  unfold bind at 1. unfold bind at 1, assign at 1, modify at 1.
  unfold bind at 1, assign at 1, modify at 1.
  unfold bind at 1, assign at 1, modify at 1.
  unfold bind at 1.
  match goal with
  | |- context [Pipeline.open_slot E n ?g] =>
      destruct (open_slot_spec E n g) as (w2 & Hsnd & Hcalls2 & Hfst);
      destruct (Pipeline.open_slot E n g) as [r2 f2]
  end.
  cbn [fst snd] in Hsnd, Hfst. subst f2.
  cbn [fw set_fw set_content_analysis set_markdown_converter_code
       set_step7_flow_id] in Hcalls2.
  destruct Hfst as [->|(e & ->)].
  - unfold bind at 1.
    match goal with
    | |- context [Pipeline.step7_5 E ?dir ?rd ?g] =>
        destruct (step7_5_spec E dir rd g) as (w3 & Hrun3 & Hcalls3);
        rewrite Hrun3
    end.
    unfold ret at 1. unfold bind at 1, gets at 1.
    match goal with
    | |- context [Pipeline.write_json ?d ?nm ?v ?g] =>
        destruct (write_json_calls d nm v g) as (Hw1 & Hw2 & Hw3 & Hw4);
        destruct (Pipeline.write_json d nm v g) as [r4 f4]
    end.
    cbn [snd] in Hw1, Hw2, Hw3, Hw4.
    exists r4, f4. split; [reflexivity|]. split; [rewrite <- Hroot; exact Hentry|].
    rewrite Hw1, Hw2, Hw3, Hw4.
    cbn [fw set_fw step7_flow_id markdown_converter_code content_analysis
         set_content_analysis set_markdown_converter_code set_step7_flow_id].
    repeat split. left.
    cbn [fw set_fw] in Hcalls3. rewrite Hcalls3, Hcalls2, Hk1.
    reflexivity.
  - eexists. eexists. split; [reflexivity|]. split; [rewrite <- Hroot; exact Hentry|].
    cbn [fw set_fw step7_flow_id markdown_converter_code content_analysis
         set_content_analysis set_markdown_converter_code set_step7_flow_id].
    repeat split. right. split; [eauto|]. rewrite Hcalls2, Hk1.
    reflexivity.
Qed.

Lemma step7_reuses_converter_witness :
  exists n code analysis r f',
    Pipeline.step7 Example.env_ok ["a.html"] (enter Example.one_converted)
    = (r, f')
    /\ step7_flow_id f' = n /\ markdown_converter_code f' = code
    /\ content_analysis f' = analysis.
Proof.
  destruct (step7_reuses_converter Example.env_ok ["a.html"]
              (enter Example.one_converted)
              [("flow7", NDir (Example.slot_with Example.converted))]
              eq_refl)
    as (n & code & analysis & r & f' & Hrun & _ & Hn & Hc & Ha & _).
  - eexists. split; [left; reflexivity|]. vm_compute. discriminate.
  - intros entry n code analysis [<-|[]] Hsel;
      vm_compute in Hsel; inversion Hsel; split; reflexivity.
  - exists n, code, analysis, r, f'. repeat split; assumption.
Defined.

(** When the validation of Step 6 raises, the handler pins the failure
    and raises the same exception: it saves in the slot of Step 6 a
    checkpoint with the identity ["code_generated"], whose data are the
    outputs of Steps 1 to 5, the message of the exception and the flag
    [validation_failed].  Neither the scan of Step 5 nor the scan of
    Step 6 selects that checkpoint, so that a resumed run validates in a
    new slot, not in this one. *)
Theorem step6_failure_is_pinned (E : env) (ids : list string) (uv : bool)
    (f f0 f1 : frame) (dir : string) (e : exn) :
  Pipeline.open_next_slot E set_step6_flow_id f = (Ok dir, f0) ->
  Pipeline.step6_body E dir ids uv f0 = (Raise e, f1) ->
  Spec.is_slot (root (fw f1)) dir = true ->
  let data := Pipeline.step6_failure_data uv ids e f1 in
  let checkpoint :=
    CheckpointManager.checkpoint_record "code_generated"
      (isoformat E (clock (fw f1))) data JNull in
  exists f2,
    Pipeline.step6_validate E ids uv f = (Raise e, f2)
    /\ calls (fw f2)
       = (calls (fw f1) ++ [SavedCheckpoint dir "code_generated" data])%list
    /\ Fs.file_of (root (fw f2)) dir CheckpointManager.CHECKPOINT_FILE
       = Some (Utf8 (Json.dumps 2 checkpoint))
    /\ Py.get data "error" JNull
       = Ok (JStr ("Code validation failed: " ++ exn_msg e))
    /\ Py.get data "validation_failed" JNull = Ok (JBool true)
    /\ (forall n, Pipeline.select_validated n checkpoint = Ok None)
    /\ (forall n, Pipeline.select_incomplete_step5 n checkpoint = Ok None).
Proof.
  intros Hopen Hbody Hslot data checkpoint.
  unfold Pipeline.step6_validate. unfold bind at 1. rewrite Hopen.
  unfold try_except. rewrite Hbody.
  unfold bind at 1, gets at 1. unfold bind at 1, W at 1.
  rewrite save_checkpoint_eq. unfold Spec.is_slot in Hslot.
  destruct (Fs.slot_of (root (fw f1)) dir) as [d|] eqn:Hd;
    [|discriminate Hslot].
  unfold raise. eexists. split; [reflexivity|].
  cbn [fw set_fw root calls]. split; [reflexivity|].
  split; [apply (file_of_written_eq _ _ _ _ d Hd)|].
  repeat split.
Qed.

Lemma step6_failure_is_pinned_witness :
  exists f2,
    Pipeline.step6_validate Example.env_validator_down ["a.html"] false
      (enter Example.one_slot) = (Raise Example.api_down, f2)
    /\ Fs.file_of (root (fw f2)) "flow2" CheckpointManager.CHECKPOINT_FILE
       <> None.
Proof.
  destruct (step6_failure_is_pinned Example.env_validator_down ["a.html"]
              false (enter Example.one_slot)
              (snd (Pipeline.open_next_slot Example.env_validator_down
                      set_step6_flow_id (enter Example.one_slot)))
              (snd (Pipeline.step6_body Example.env_validator_down "flow2"
                      ["a.html"] false
                      (snd (Pipeline.open_next_slot
                              Example.env_validator_down
                              set_step6_flow_id (enter Example.one_slot)))))
              "flow2" Example.api_down eq_refl eq_refl eq_refl)
    as (f2 & Hrun & _ & Hfile & _).
  exists f2. split; [exact Hrun|]. rewrite Hfile. discriminate.
Defined.










(** ** Part 25. Failures of the step results *)

(** Neither [save_step_result] nor [load_step_result] raises.  Saving
    into a directory that does not exist returns [None], writes nothing
    and logs one error.  Loading changes nothing but the log; it returns
    [None] without a word when the file is missing, and [None] with one
    error logged when the file is not UTF-8 or when its name ends in
    [.json] and its text is not JSON. *)
Theorem step_result_failures_are_caught (dir step_name : string)
    (filename : option string) (v : json) (w : world) :
  (exists r w',
     CheckpointManager.save_step_result dir step_name v filename w
     = (Ok r, w')
     /\ (Fs.slot_of (root w) dir = None ->
         r = None /\ root w' = root w
         /\ exists msg,
              log w' = (log w ++
                [("error", "Failed to save step result: {}",
                  [JStr msg])])%list))
  /\ (exists r w',
        CheckpointManager.load_step_result dir step_name filename w
        = (Ok r, w')
        /\ root w' = root w /\ calls w' = calls w /\ clock w' = clock w
        /\ let name := CheckpointManager.result_filename step_name filename in
           match Fs.file_of (root w) dir name with
           | None => r = JNull /\ w' = w
           | Some Undecodable =>
               r = JNull
               /\ exists msg,
                    log w' = (log w ++
                      [("error", "Failed to load step result '{}': {}",
                        [JStr step_name; JStr msg])])%list
           | Some (Utf8 text) =>
               if Text.endswith ".json" name then
                 match Json.loads text with
                 | Some parsed => r = parsed /\ w' = w
                 | None =>
                     r = JNull
                     /\ exists msg,
                          log w' = (log w ++
                            [("error",
                              "Failed to load step result '{}': {}",
                              [JStr step_name; JStr msg])])%list
                 end
               else r = JStr text /\ w' = w
           end).
Proof.
  split.
  - rewrite save_step_result_eq. cbv zeta.
    destruct (Fs.slot_of (root w) dir) as [d|].
    + eexists. eexists. split; [reflexivity|]. discriminate.
    + eexists. eexists. split; [reflexivity|]. intros _.
      repeat split. eexists. reflexivity.
  - rewrite load_step_result_eq. cbv zeta.
    destruct (Fs.file_of (root w) dir
                (CheckpointManager.result_filename step_name filename))
      as [[text|]|].
    + destruct (Text.endswith ".json"
                  (CheckpointManager.result_filename step_name filename)).
      * destruct (Json.loads text) as [parsed|];
          eexists; eexists; (split; [reflexivity|]); repeat split.
        eexists. reflexivity.
      * eexists. eexists. split; [reflexivity|]. repeat split.
    + eexists. eexists. split; [reflexivity|]. repeat split.
      eexists. reflexivity.
    + eexists. eexists. split; [reflexivity|]. repeat split.
Qed.
